(** * sentieon-cli: the command-string builders of [command_strings.py]

    A shallow embedding of [src/sentieon_cli/command_strings.py] and the
    properties of its builders.

    Modelling conventions.
    - A Python [str] is a [string]; a character is a code point below 256.
    - The values a Config can hold are the type [value]; an object is
      described by the three observations the module makes of it: its
      [str()] rendering, its truth value and its [name] attribute ([VObj]
      has none, [VNamed] has one, as an open file does).
    - [kwargs] is a [gmap string value]: keyword names are strings, and no
      behaviour of the module depends on the insertion order of a dict.
    - A raised exception is a [Raise e] result; the builders that receive
      the caller's dict by reference ([kwargs: dict]) run in the monad [M]
      which threads that dict, the builders that receive [**kwargs] get a
      copy and are plain functions of it.
    - The file system is a record of the texts of the files, of the file
      each path names, and of the failures of [open] and of closing a
      written file. *)

From Stdlib Require Import ZArith String Ascii List Bool Lia DecimalString.
From stdpp Require Import base gmap strings.

Open Scope string_scope.

(** ** Values, exceptions, results *)

Inductive value : Type :=
| VNone
| VBool (b : bool)
| VInt (z : Z)
| VStr (s : string)
| VObj (repr : string) (truth : bool)
| VNamed (repr : string) (truth : bool) (name_attr : value).

Inductive exn : Type :=
| KeyError (key : string)
| TypeError
| AttributeError
| AssertionError
| IndexError
| ValueError
| FileNotFoundError (path : string)
| OSError (strerror : string)
| Unmodelled.

Inductive res (A : Type) : Type :=
| Ok (a : A)
| Raise (e : exn).

Arguments Ok {A} a.
Arguments Raise {A} e.

Definition res_bind {A B : Type} (r : res A) (k : A -> res B) : res B :=
  match r with
  | Ok a => k a
  | Raise e => Raise e
  end.

Notation "'let?' x ':=' r 'in' k" := (res_bind r (fun x => k))
  (at level 10, x name, r at level 100, k at level 200).

Definition raises {A : Type} (r : res A) : Prop :=
  exists e, r = Raise e.

Abbreviation dict := (gmap string value).

(** ** Python primitives used by the module *)

(** [str(v)], which is also what an f-string field [{v}] renders. *)
Definition py_str (v : value) : string :=
  match v with
  | VNone => "None"
  | VBool true => "True"
  | VBool false => "False"
  | VInt z => NilZero.string_of_int (Z.to_int z)
  | VStr s => s
  | VObj repr _ => repr
  | VNamed repr _ _ => repr
  end.

(** [bool(v)], the test of [if v:]. *)
Definition truthy (v : value) : bool :=
  match v with
  | VNone => false
  | VBool b => b
  | VInt z => negb (Z.eqb z 0)
  | VStr s => negb (String.eqb s "")
  | VObj _ t => t
  | VNamed _ t _ => t
  end.

(** [v is not None]. *)
Definition is_not_None (v : value) : bool :=
  match v with VNone => false | _ => true end.

(** [hasattr(v, "name")]: [None], [bool], [int] and [str] have no such
    attribute. *)
Definition hasattr_name (v : value) : bool :=
  match v with
  | VNamed _ _ _ => true
  | _ => false
  end.

(** [v.name]. *)
Definition getattr_name (v : value) : res value :=
  match v with
  | VNamed _ _ n => Ok n
  | _ => Raise AttributeError
  end.

(** [d[k]]. *)
Definition getitem (d : dict) (k : string) : res value :=
  match d !! k with
  | Some v => Ok v
  | None => Raise (KeyError k)
  end.

(** [d.get(k, dflt)] and [d.get(k)]. *)
Definition dict_get_default (d : dict) (k : string) (dflt : value) : value :=
  match d !! k with
  | Some v => v
  | None => dflt
  end.

Definition dict_get (d : dict) (k : string) : value :=
  dict_get_default d k VNone.

(** [s + v] for a [str] [s]: only a [str] can be added to a [str]. *)
Definition str_add (s : string) (v : value) : res string :=
  match v with
  | VStr t => Ok (s +:+ t)
  | _ => Raise TypeError
  end.

(** [v + s] for a [str] [s]. *)
Definition add_str (v : value) (s : string) : res string :=
  match v with
  | VStr t => Ok (t +:+ s)
  | _ => Raise TypeError
  end.

(** [l[i]] for a list of strings. *)
Definition list_getitem (l : list string) (i : nat) : res string :=
  match l !! i with
  | Some x => Ok x
  | None => Raise IndexError
  end.

(** *** Strings *)

Definition tab : ascii := "009"%char.
Definition newline : ascii := "010"%char.
Definition carriage_return : ascii := "013"%char.

(** [str.isspace] on one character: the code points 9 to 13, 28 to 32,
    133 and 160. *)
Definition is_space (c : ascii) : bool :=
  let n := nat_of_ascii c in
  ((9 <=? n)%nat && (n <=? 13)%nat) || ((28 <=? n)%nat && (n <=? 32)%nat)
  || (n =? 133)%nat || (n =? 160)%nat.

(** [s.startswith(p)]. *)
Fixpoint prefixb (p s : string) : bool :=
  match p with
  | "" => true
  | String a p' =>
      match s with
      | "" => false
      | String b s' => Ascii.eqb a b && prefixb p' s'
      end
  end.

(** [needle in s]. *)
Fixpoint contains (needle s : string) : bool :=
  prefixb needle s ||
  match s with
  | "" => false
  | String _ s' => contains needle s'
  end.

(** [s.count(c)] for a character [c]. *)
Fixpoint count_char (c : ascii) (s : string) : nat :=
  match s with
  | "" => 0
  | String a s' => (if Ascii.eqb a c then 1 else 0) + count_char c s'
  end.

(** [s.lstrip()], [s.rstrip()], [s.strip()]. *)
Fixpoint lstrip (s : string) : string :=
  match s with
  | "" => ""
  | String c s' => if is_space c then lstrip s' else s
  end.

Fixpoint rstrip (s : string) : string :=
  match s with
  | "" => ""
  | String c s' =>
      match rstrip s' with
      | "" => if is_space c then "" else String c ""
      | r => String c r
      end
  end.

Definition strip (s : string) : string := rstrip (lstrip s).

(** [s.split(sep)] for a separator of one character: the fields between
    the separators, at least one field. *)
Fixpoint str_split (sep : ascii) (s : string) : list string :=
  match s with
  | "" => [""]
  | String c s' =>
      if Ascii.eqb c sep then "" :: str_split sep s'
      else
        match str_split sep s' with
        | f :: fs => String c f :: fs
        | [] => [String c ""]
        end
  end.

(** [s.replace(old, new)]: the occurrences of [old] are replaced from left
    to right, without overlap; [skip] counts the characters of a matched
    occurrence still to be passed over. *)
Fixpoint replace_from (old new : string) (skip : nat) (s : string) : string :=
  match s with
  | "" => ""
  | String c s' =>
      match skip with
      | S k => replace_from old new k s'
      | O =>
          if prefixb old s
          then new +:+ replace_from old new (String.length old - 1) s'
          else String c (replace_from old new 0 s')
      end
  end.

(** With an empty [old], Python puts [new] before every character and at
    the end. *)
Fixpoint interleave (new s : string) : string :=
  match s with
  | "" => new
  | String c s' => new +:+ String c (interleave new s')
  end.

Definition str_replace (s old new : string) : string :=
  match old with
  | "" => interleave new s
  | _ => replace_from old new 0 s
  end.

(** The [%d] conversion of one argument. *)
Definition format_d (v : value) : res string :=
  match v with
  | VInt z => Ok (py_str (VInt z))
  | VBool true => Ok "1"
  | VBool false => Ok "0"
  | VNone | VStr _ => Raise TypeError
  | VObj _ _ | VNamed _ _ _ => Raise Unmodelled
  end.

(** [fmt % args] for a tuple [args]. The conversions [%s], [%d], [%i] and
    [%%] are modelled; a flag, width, precision or another conversion type
    is outside the model ([Unmodelled]). A conversion with no argument left
    and arguments left at the end are [TypeError]s, a lone [%] at the end is
    a [ValueError]. *)
Fixpoint str_mod (fmt : string) (args : list value) : res string :=
  match fmt with
  | "" =>
      match args with
      | [] => Ok ""
      | _ :: _ => Raise TypeError
      end
  | String c rest =>
      if Ascii.eqb c "%" then
        match rest with
        | "" => Raise ValueError
        | String t rest' =>
            if Ascii.eqb t "%" then
              let? r := str_mod rest' args in Ok (String "%" r)
            else if Ascii.eqb t "s" then
              match args with
              | [] => Raise TypeError
              | a :: args' =>
                  let? r := str_mod rest' args' in Ok (py_str a +:+ r)
              end
            else if Ascii.eqb t "d" || Ascii.eqb t "i" then
              match args with
              | [] => Raise TypeError
              | a :: args' =>
                  let? d := format_d a in
                  let? r := str_mod rest' args' in Ok (d +:+ r)
              end
            else Raise Unmodelled
        end
      else
        let? r := str_mod rest args in Ok (String c r)
  end.

(** *** Text files *)

(** The file system, as the module meets it through [open]. The text of
    the files is kept by file, and [file_of] gives the file a path names:
    two paths can name one file (a link, two spellings of one path).
    Opening can fail before anything is read or written
    ([open_read_fault], [open_write_fault]: a directory that does not
    exist, a path that is a directory, a missing permission). Closing a
    file that was written flushes the text: [on_close path text] is the
    exception this raises, if any, and the text the file holds afterwards
    (a regular file raises nothing and keeps [text]; a full device raises
    and keeps less; [/dev/null] raises nothing and keeps nothing). A file
    holds text: bytes that do not decode are outside the model. *)
Record filesystem : Type := {
  files : gmap string string;
  file_of : string -> string;
  open_read_fault : string -> option exn;
  open_write_fault : string -> option exn;
  on_close : string -> string -> option exn * string
}.

(** The text a path leads to, when its file exists. *)
Definition text_of (fs : filesystem) (path : string) : option string :=
  files fs !! file_of fs path.

(** The file that [path] names gets the text [text]. *)
Definition set_text (fs : filesystem) (path text : string) : filesystem :=
  {| files := <[file_of fs path := text]> (files fs);
     file_of := file_of fs;
     open_read_fault := open_read_fault fs;
     open_write_fault := open_write_fault fs;
     on_close := on_close fs |}.

(** [open(path, encoding="utf-8")], read to the end. *)
Definition open_read (fs : filesystem) (path : string) : res string :=
  match open_read_fault fs path with
  | Some e => Raise e
  | None =>
      match text_of fs path with
      | Some text => Ok text
      | None => Raise (FileNotFoundError path)
      end
  end.

(** [open(path, "wt", encoding="utf-8")]: the file is created, or emptied
    when it exists; when the open fails no file is created or changed. *)
Definition open_write (fs : filesystem) (path : string) : res filesystem :=
  match open_write_fault fs path with
  | Some e => Raise e
  | None => Ok (set_text fs path "")
  end.

(** The end of the [with] block of a file opened for writing, [block]
    being the result of the block and [written] what it wrote: the file is
    closed whatever the block did, and an exception of the close replaces
    that of the block. *)
Definition close_written {A : Type}
    (fs : filesystem) (path written : string) (block : res A)
    : res A * filesystem :=
  match on_close fs path written with
  | (None, kept) => (block, set_text fs path kept)
  | (Some e, kept) => (Raise e, set_text fs path kept)
  end.

(** The lines of a text file opened for reading with the default
    [newline=None]: a line ends at ["\n"], ["\r"] or ["\r\n"], each read
    as ["\n"]; the last line may have no end. *)
Fixpoint file_lines (s : string) : list string :=
  match s with
  | "" => []
  | String c s' =>
      if Ascii.eqb c newline then String newline "" :: file_lines s'
      else if Ascii.eqb c carriage_return then
        match s' with
        | String c' s'' =>
            if Ascii.eqb c' newline
            then String newline "" :: file_lines s''
            else String newline "" :: file_lines s'
        | "" => [String newline ""]
        end
      else
        match file_lines s' with
        | l :: ls => String c l :: ls
        | [] => [String c ""]
        end
  end.

(** ** The state monad of the builders that are handed the caller's dict *)

Definition M (A : Type) : Type := dict -> res A * dict.

Definition ret {A : Type} (a : A) : M A := fun kw => (Ok a, kw).

Definition throw {A : Type} (e : exn) : M A := fun kw => (Raise e, kw).

Definition bind {A B : Type} (m : M A) (k : A -> M B) : M B :=
  fun kw =>
    match m kw with
    | (Ok a, kw') => k a kw'
    | (Raise e, kw') => (Raise e, kw')
    end.

Notation "'let!' x ':=' m 'in' k" := (bind m (fun x => k))
  (at level 10, x name, m at level 100, k at level 200).

(** A pure, possibly failing, step. *)
Definition lift {A : Type} (r : res A) : M A := fun kw => (r, kw).

(** [kwargs[k]], [kwargs.get(k)], [kwargs.get(k, dflt)] and
    [kwargs[k] = v] on the caller's dict. *)
Definition kw_getitem (k : string) : M value :=
  fun kw => (getitem kw k, kw).

Definition kw_get (k : string) : M value :=
  fun kw => (Ok (dict_get kw k), kw).

Definition kw_get_default (k : string) (dflt : value) : M value :=
  fun kw => (Ok (dict_get_default kw k dflt), kw).

Definition kw_setitem (k : string) (v : value) : M unit :=
  fun kw => (Ok tt, <[k := v]> kw).

(** A call [f( **kwargs )]: the callee works on a copy of the dict. *)
Definition call_kw {A : Type} (f : dict -> res A) : M A :=
  fun kw => (f kw, kw).

(** ** The path-resolution helper

<<
def name(path):
    if hasattr(path, "name"):
        path = path.name
    return path
>> *)
Definition name (path : value) : value :=
  if hasattr_name path then
    match getattr_name path with
    | Ok n => n
    | Raise _ => path
    end
  else path.

(** A path-like value: a plain string path, or an object whose [name]
    attribute is a string path. *)
Definition path_like (v : value) : Prop :=
  match v with
  | VStr _ => True
  | VNamed _ _ (VStr _) => True
  | _ => False
  end.

(** ** The driver invocation builder

    [cmd_sentieon_driver(bed_key=None, skip_sample_input=False, **kwargs)]:
    the two clauses [bed] and [read_filter] are computed first, then the
    command is put together; [kwargs['cores']] and [kwargs['reference']]
    are read in this order when the first f-string is evaluated. *)

Definition cmd_sentieon_driver
    (bed_key : option string) (skip_sample_input : bool) (kwargs : dict)
    : res string :=
  let? bed :=
    match bed_key with
    | Some k =>
        if is_not_None (dict_get kwargs k) then
          let? b := getitem kwargs k in
          Ok (" --interval " +:+ py_str (name b))
        else Ok ""
    | None => Ok ""
    end in
  let? read_filter :=
    if truthy (dict_get kwargs "read-filter") then
      let? rf := getitem kwargs "read-filter" in
      Ok (" --read_filter " +:+ py_str rf)
    else Ok "" in
  let? cores := getitem kwargs "cores" in
  let? reference := getitem kwargs "reference" in
  let cmd :=
    "sentieon driver -t " +:+ py_str cores +:+ " -r "
      +:+ py_str (name reference) +:+ " " in
  let cmd := cmd +:+ bed in
  let? cmd :=
    if negb skip_sample_input then
      let? sample := getitem kwargs "sample_input" in
      Ok (cmd +:+ " -i " +:+ py_str (name sample))
    else Ok cmd in
  Ok (cmd +:+ read_filter).


(** The binding of the arguments of a call
    [cmd_sentieon_driver(bed_key, skip_sample_input=..., **kwargs)]:
    [bed_key] is passed at every call site of the module,
    [skip_sample_input] at some ([skip = None] when it is not). A keyword
    of [kwargs] that names a parameter already passed is a [TypeError]; a
    ['skip_sample_input'] keyword binds the parameter when the call does
    not pass it, and is then not part of the callee's [kwargs]. *)
Definition call_cmd_sentieon_driver
    (bed_key : option string) (skip : option bool) (kwargs : dict)
    : res string :=
  match kwargs !! "bed_key" with
  | Some _ => Raise TypeError
  | None =>
      match skip, kwargs !! "skip_sample_input" with
      | Some _, Some _ => Raise TypeError
      | Some s, None => cmd_sentieon_driver bed_key s kwargs
      | None, Some v =>
          cmd_sentieon_driver bed_key (truthy v)
            (delete "skip_sample_input" kwargs)
      | None, None => cmd_sentieon_driver bed_key false kwargs
      end
  end.

(** ** The stage builders

    The parameters annotated [str] are strings; [regions_bed] and
    [phased_vcf], which the module also passes as [None] or as an open
    file, are values. The builders follow the source statement by
    statement, each [cmd += ...] being one [let]. *)

Definition cmd_variant_phaser
    (vcf phased_bed phased_vcf phased_ext : string) : M string :=
  let! cmd := call_kw (call_cmd_sentieon_driver None (Some false)) in
  let cmd := cmd +:+ " --algo VariantPhaser -v " +:+ vcf +:+ " " in
  let! depth := kw_get_default "phase_max_depth" (VInt 1000) in
  let cmd := cmd +:+ "--max_depth " +:+ py_str depth +:+ " " in
  let cmd := cmd +:+ "--out_bed " +:+ phased_bed +:+ " " in
  let cmd := cmd +:+ "--out_ext " +:+ phased_ext +:+ " " in
  let cmd := cmd +:+ phased_vcf +:+ " " in
  ret cmd.

(** The loop of [cmd_bedtools_subtract] over the lines of the index:
    [written] is what the output file holds so far; a line with fewer than
    two fields stops the loop with an [IndexError]. *)
Fixpoint write_regions (lines : list string) (written : string)
    : res unit * string :=
  match lines with
  | [] => (Ok tt, written)
  | line :: rest =>
      let toks := str_split tab (strip line) in
      match
        (let? t0 := list_getitem toks 0 in
         let? t1 := list_getitem toks 1 in
         Ok (t0 +:+ String tab "0" +:+ String tab t1 +:+ String newline ""))
      with
      | Ok row => write_regions rest (written +:+ row)
      | Raise e => (Raise e, written)
      end
  end.

(** [cmd_bedtools_subtract] gets [**kwargs], and the file system. The
    output file is opened for writing once ['tmp_base'] is read and before
    ['reference'] is: an open that fails ends the call there. After it the
    file exists and is empty; the index is opened and read inside the
    [with] block, which closes the output file whatever happens, so what
    was written before an exception is flushed to the file. *)
Definition cmd_bedtools_subtract
    (regions_bed : value) (phased_bed unphased_bed : string)
    (kwargs : dict) (fs : filesystem) : res string * filesystem :=
  let command (regions_bed : value) : string :=
    let cmd :=
      "bedtools subtract -a " +:+ py_str (name regions_bed) +:+ " -b "
        +:+ phased_bed +:+ " " in
    cmd +:+ "> " +:+ unphased_bed in
  match regions_bed with
  | VNone =>
      match getitem kwargs "tmp_base" with
      | Raise e => (Raise e, fs)
      | Ok tmp_base =>
          let f_name := py_str tmp_base +:+ "_reference.bed" in
          match open_write fs f_name with
          | Raise e => (Raise e, fs)
          | Ok fs =>
              let '(block, written) :=
                match
                  (let? reference := getitem kwargs "reference" in
                   let? fai := add_str (name reference) ".fai" in
                   open_read fs fai)
                with
                | Raise e => (Raise e, "")
                | Ok index =>
                    match write_regions (file_lines index) "" with
                    | (Ok _, written) => (Ok (command (VStr f_name)), written)
                    | (Raise e, written) => (Raise e, written)
                    end
                end in
              close_written fs f_name written block
          end
      end
  | _ => (Ok (command regions_bed), fs)
  end.

(** [cmd_repeat_model] assigns to two keys of the dict it is handed. *)
Definition cmd_repeat_model (phased_bed phased_ext : string) : M string :=
  let! _ := kw_setitem "phased_bed" (VStr phased_bed) in
  let! cmd :=
    call_kw (call_cmd_sentieon_driver (Some "phased_bed") (Some false)) in
  let! tmp_base := kw_getitem "tmp_base" in
  let! _ :=
    kw_setitem "repeat_model"
      (VStr (py_str tmp_base +:+ "/out_repeat.model")) in
  let cmd :=
    cmd +:+ " --read_filter PhasedReadFilter,phased_vcf=" +:+ phased_ext in
  let cmd := cmd +:+ ",phase_select=tag " in
  let cmd := cmd +:+ "--algo RepeatModel --phased --min_map_qual 1 " in
  let cmd := cmd +:+ "--min_group_count 10000 " in
  let cmd :=
    cmd +:+ "--read_flag_mask drop=supplementary --repeat_extension 5 " in
  let cmd := cmd +:+ "--max_repeat_unit_size 2 --min_repeat_count 6 " in
  let! repeat_model := kw_getitem "repeat_model" in
  lift (str_add cmd repeat_model).

Definition cmd_model_apply (model inp_vcf out_vcf : string) : M string :=
  let! cmd := call_kw (call_cmd_sentieon_driver None (Some true)) in
  ret (cmd +:+ "--algo DNAModelApply --model " +:+ model +:+ " -v "
         +:+ inp_vcf +:+ " " +:+ out_vcf).

(** The f-string [sentieon pyexec {kwargs[script_key]} -t {kwargs['cores']} ]
    with which each of the four [pyexec] builders starts its command. *)
Definition pyexec_prefix (script_key : string) : M string :=
  let! script := kw_getitem script_key in
  let! cores := kw_getitem "cores" in
  ret ("sentieon pyexec " +:+ py_str script +:+ " -t " +:+ py_str cores
         +:+ " ").

(** [assert tech in ("HiFi", "ONT")] comes first (assertions are on, as
    they are unless Python runs with [-O]); [hap_patt % (1, "nohp_")] is
    [str_mod]. *)
Definition cmd_pyexec_vcf_mod_haploid_patch
    (hap1_patch hap2_patch hap_patt tech : string) (phased_vcf : value)
    : M string :=
  if negb (String.eqb tech "HiFi" || String.eqb tech "ONT")
  then throw AssertionError
  else
    let! cmd := pyexec_prefix "vcf_mod_py" in
    let cmd := cmd +:+ "haploid_patch " in
    let cmd :=
      cmd +:+ "--patch1 " +:+ hap1_patch +:+ " --patch2 " +:+ hap2_patch in
    let! cmd :=
      if String.eqb tech "HiFi" then
        let! h1 := lift (str_mod hap_patt [VInt 1; VStr "nohp_"]) in
        let cmd := cmd +:+ " --hap1 " +:+ h1 in
        let! h2 := lift (str_mod hap_patt [VInt 2; VStr "nohp_"]) in
        ret (cmd +:+ " --hap2 " +:+ h2)
      else ret (cmd +:+ " --phased " +:+ py_str phased_vcf) in
    let! h1 := lift (str_mod hap_patt [VInt 1; VStr ""]) in
    let cmd := cmd +:+ " --hap1_hp " +:+ h1 in
    let! h2 := lift (str_mod hap_patt [VInt 2; VStr ""]) in
    ret (cmd +:+ " --hap2_hp " +:+ h2).

Definition cmd_pyexec_vcf_mod_patch (out_vcf vcf vcf_hp : string)
    : M string :=
  let! cmd := pyexec_prefix "vcf_mod_py" in
  ret (cmd +:+ "patch --vcf " +:+ vcf +:+ " --vcf_hp " +:+ vcf_hp +:+ " "
         +:+ out_vcf).

Definition cmd_pyexec_gvcf_combine (gvcf out_vcf : string) : M string :=
  let! cmd := pyexec_prefix "gvcf_combine_py" in
  let cmd := cmd +:+ gvcf +:+ " " +:+ out_vcf +:+ " -" in
  ret (cmd +:+ " | sentieon util vcfconvert - "
         +:+ str_replace out_vcf ".vcf.gz" ".g.vcf.gz").

Definition cmd_pyexec_vcf_mod_merge
    (hap1_vcf hap2_vcf unphased_vcf phased_vcf phased_bed out_vcf : string)
    : M string :=
  let! cmd := pyexec_prefix "vcf_mod_py" in
  let cmd :=
    cmd +:+ "merge --hap1 " +:+ hap1_vcf +:+ " --hap2 " +:+ hap2_vcf
      +:+ " --unphased " +:+ unphased_vcf +:+ " " in
  ret (cmd +:+ "--phased " +:+ phased_vcf +:+ " --bed " +:+ phased_bed
         +:+ " " +:+ out_vcf).

(** [if gvcf:] for an optional string. *)
Definition opt_truthy (o : option string) : bool :=
  match o with
  | Some s => truthy (VStr s)
  | None => false
  end.

Definition opt_str (o : option string) : string :=
  match o with
  | Some s => s
  | None => "None"
  end.

(** [cmd_algo_dnascope] reads [kwargs['dbsnp'].name], the attribute
    itself and not [name(kwargs['dbsnp'])]; the driver is called last, with
    [bed_key] as its only explicit argument. *)
Definition cmd_algo_dnascope
    (model out_vcf : string) (bed_key gvcf : option string) : M string :=
  let! gvcf_str :=
    if opt_truthy gvcf then
      let! bundle := kw_getitem "model_bundle" in
      let gvcf_str :=
        " --algo DNAscope --model " +:+ py_str bundle +:+ "/gvcf_model" in
      ret (gvcf_str +:+ " --emit_mode gvcf " +:+ opt_str gvcf +:+ " ")
    else ret "" in
  let! d := kw_get "dbsnp" in
  let! dbsnp :=
    if truthy d then
      let! d := kw_getitem "dbsnp" in
      let! n := lift (getattr_name d) in
      ret (" --dbsnp " +:+ py_str n +:+ " ")
    else ret "" in
  let cmd :=
    " " +:+ gvcf_str +:+ "--algo DNAscope " +:+ dbsnp +:+ " --model "
      +:+ model +:+ " " +:+ out_vcf in
  let! driver := call_kw (call_cmd_sentieon_driver bed_key None) in
  ret (driver +:+ cmd).

(** [cmd_dnascope_hp] resolves the dbSNP path with [name]. *)
Definition cmd_dnascope_hp
    (model : option string) (repeat_model hp_vcf : string) : M string :=
  let cmd := "--algo DNAscopeHP " in
  let! d := kw_get "dbsnp" in
  let! cmd :=
    if truthy d then
      let! d := kw_getitem "dbsnp" in
      ret (cmd +:+ "--dbsnp " +:+ py_str (name d) +:+ " ")
    else ret cmd in
  let cmd :=
    match model with
    | Some m => cmd +:+ "--model " +:+ m +:+ " "
    | None => cmd
    end in
  let cmd :=
    cmd +:+ "--pcr_indel_model " +:+ repeat_model
      +:+ " --min_repeat_count 6 " in
  ret (cmd +:+ hp_vcf).

(** ** What the driver invocation builder is specified to return

    The clauses of the command, in the words of the specification: the
    region clause is there when [bed_key] is given and maps to a value
    that is not [None], the sample-input clause when the sample input is
    not skipped, the read-filter clause when the ['read-filter'] key holds
    a value. [holds] says what holding a value means. *)

Definition region_clause (bed_key : option string) (kwargs : dict) : string :=
  match bed_key with
  | Some k =>
      match kwargs !! k with
      | Some VNone | None => ""
      | Some bed => " --interval " +:+ py_str (name bed)
      end
  | None => ""
  end.

Definition sample_clause (skip_sample_input : bool) (kwargs : dict) : string :=
  if skip_sample_input then ""
  else " -i " +:+ py_str (name (dict_get kwargs "sample_input")).

Definition read_filter_clause (holds : value -> bool) (kwargs : dict)
    : string :=
  match kwargs !! "read-filter" with
  | Some rf => if holds rf then " --read_filter " +:+ py_str rf else ""
  | None => ""
  end.

Definition driver_command
    (holds : value -> bool) (bed_key : option string)
    (skip_sample_input : bool) (kwargs : dict) : string :=
  "sentieon driver -t " +:+ py_str (dict_get kwargs "cores") +:+ " -r "
    +:+ py_str (name (dict_get kwargs "reference")) +:+ " "
    +:+ region_clause bed_key kwargs
    +:+ sample_clause skip_sample_input kwargs
    +:+ read_filter_clause holds kwargs.

(** The Config of the doctests of [cmd_sentieon_driver]. *)
Definition doc_config : dict :=
  <["regions" := VStr "phased.bed"]>
  (<["reference" := VStr "ref.fasta"]>
  (<["sample_input" := VStr "sample.bam"]>
  (<["cores" := VInt 4]> ∅))).

(** A Config whose read filter is the empty string. *)
Definition empty_filter_config : dict :=
  <["read-filter" := VStr ""]> doc_config.

(** ** Clauses of a command

    A command is a sequence of arguments separated by single spaces.
    [join_space] writes the sequence out; [delimited needle] says that
    [needle] can only occur inside one argument and its two delimiting
    spaces, because none of its characters but the first and the last is a
    space; [free_of needle arg] says that the argument [arg], written
    between two spaces, does not show [needle]. *)

Fixpoint join_space (args : list string) : string :=
  match args with
  | [] => ""
  | [a] => a
  | a :: rest => a +:+ String " " (join_space rest)
  end.

Fixpoint inner_spaceless (m : string) : bool :=
  match m with
  | "" => true
  | String c m' =>
      match m' with
      | "" => true
      | _ => negb (Ascii.eqb c " ") && inner_spaceless m'
      end
  end.

Definition delimited (needle : string) : bool :=
  match needle with
  | "" => false
  | String _ m => inner_spaceless m
  end.

Definition free_of (needle arg : string) : Prop :=
  contains needle (String " " (arg +:+ " ")) = false.


(** ** What the variant callers are specified to return *)

(** The gVCF-emission clause of [cmd_algo_dnascope]. *)
Definition gvcf_clause (gvcf : option string) (kwargs : dict) : string :=
  if opt_truthy gvcf then
    " --algo DNAscope --model " +:+ py_str (dict_get kwargs "model_bundle")
      +:+ "/gvcf_model --emit_mode gvcf " +:+ opt_str gvcf +:+ " "
  else "".

(** The command of [cmd_algo_dnascope], given the driver invocation and the
    dbSNP clause. *)
Definition dnascope_command
    (driver : string) (gvcf : option string) (kwargs : dict)
    (dbsnp_clause model out_vcf : string) : string :=
  driver +:+ " " +:+ gvcf_clause gvcf kwargs +:+ "--algo DNAscope "
    +:+ dbsnp_clause +:+ " --model " +:+ model +:+ " " +:+ out_vcf.

(** The optional model clause of [cmd_dnascope_hp]. *)
Definition model_clause (model : option string) : string :=
  match model with
  | Some m => "--model " +:+ m +:+ " "
  | None => ""
  end.

(** The command of [cmd_dnascope_hp], given the dbSNP clause. *)
Definition dnascope_hp_command
    (dbsnp_clause : string) (model : option string)
    (repeat_model hp_vcf : string) : string :=
  "--algo DNAscopeHP " +:+ dbsnp_clause +:+ model_clause model
    +:+ "--pcr_indel_model " +:+ repeat_model +:+ " --min_repeat_count 6 "
    +:+ hp_vcf.

(** The Config of the doctests of [cmd_dnascope_hp], and the driver's
    Config with that dbSNP path added. *)
Definition hp_config : dict := <["dbsnp" := VStr "dbsnp.vcf.gz"]> ∅.

Definition dbsnp_config : dict :=
  <["dbsnp" := VStr "dbsnp.vcf.gz"]> doc_config.

(** The same with the dbSNP file opened, and with an empty dbSNP path. *)
Definition open_dbsnp_config : dict :=
  <["dbsnp" := VNamed "<_io.TextIOWrapper name='dbsnp.vcf.gz'>" true
                 (VStr "dbsnp.vcf.gz")]> doc_config.

Definition empty_dbsnp_config : dict := <["dbsnp" := VStr ""]> doc_config.


(** The dbSNP clause of [cmd_dnascope_hp]; [holds] says when a dbSNP value
    counts as present. *)
Definition hp_dbsnp_clause (holds : value -> bool) (kwargs : dict) : string :=
  match kwargs !! "dbsnp" with
  | Some d => if holds d then "--dbsnp " +:+ py_str (name d) +:+ " " else ""
  | None => ""
  end.

(** A Config a stage builder can pass on to the driver with a sample
    input: the three keys of the driver are there, and no keyword of the
    Config names a parameter of the driver. *)
Definition driver_ready (kwargs : dict) : Prop :=
  is_Some (kwargs !! "cores")
  /\ is_Some (kwargs !! "reference")
  /\ is_Some (kwargs !! "sample_input")
  /\ kwargs !! "bed_key" = None
  /\ kwargs !! "skip_sample_input" = None.


(** The Config of the doctests of [cmd_dnascope_hp] with an empty dbSNP
    path. *)
Definition hp_empty_config : dict := <["dbsnp" := VStr ""]> ∅.


(** ** Builders and the caller's Config *)

(** A computation that leaves the caller's dict as it found it, whether it
    returns or raises. *)
Definition preserves {A : Type} (m : M A) : Prop :=
  forall kw, snd (m kw) = kw.

(** A Config for [cmd_repeat_model]. *)
Definition repeat_config : dict := <["tmp_base" := VStr "/tmp/work"]> doc_config.


(** ** The gVCF combiner *)

Definition pipe : ascii := "|"%char.

(** A Config for the [pyexec] builders. *)
Definition pyexec_config : dict :=
  <["gvcf_combine_py" := VStr "gvcf_combine.py"]>
  (<["vcf_mod_py" := VStr "vcf_mod.py"]>
  (<["cores" := VInt 2]> ∅)).


(** The two steps of the command of [cmd_pyexec_gvcf_combine]. *)
Definition combine_step (script cores : value) (gvcf out_vcf : string)
    : string :=
  "sentieon pyexec " +:+ py_str script +:+ " -t " +:+ py_str cores +:+ " "
    +:+ gvcf +:+ " " +:+ out_vcf +:+ " -".

Definition convert_step (gvcf_path : string) : string :=
  "sentieon util vcfconvert - " +:+ gvcf_path.


(** ** The haploid patch merger *)

(** The start of the command of [cmd_pyexec_vcf_mod_haploid_patch], up to
    the two patch files. *)
Definition haploid_patch_start
    (script cores : value) (hap1_patch hap2_patch : string) : string :=
  "sentieon pyexec " +:+ py_str script +:+ " -t " +:+ py_str cores
    +:+ " haploid_patch --patch1 " +:+ hap1_patch +:+ " --patch2 "
    +:+ hap2_patch.

(** The two high-precision clauses that end the command. *)
Definition hp_clauses (hap1_hp hap2_hp : string) : string :=
  " --hap1_hp " +:+ hap1_hp +:+ " --hap2_hp " +:+ hap2_hp.

(** [s] has no [%]. *)
Definition plain (s : string) : Prop := count_char "%" s = 0.


(** The command for [HiFi]: the two clauses of the files without the
    high-precision calls, then the high-precision clauses. *)
Definition haploid_patch_HiFi_command
    (script cores : value) (hap1_patch hap2_patch : string)
    (hap1_nohp hap2_nohp hap1_hp hap2_hp : string) : string :=
  haploid_patch_start script cores hap1_patch hap2_patch
    +:+ " --hap1 " +:+ hap1_nohp +:+ " --hap2 " +:+ hap2_nohp
    +:+ hp_clauses hap1_hp hap2_hp.

(** The command for [ONT]: the clause of the phased VCF, then the
    high-precision clauses. *)
Definition haploid_patch_ONT_command
    (script cores : value) (hap1_patch hap2_patch : string)
    (phased_vcf : value) (hap1_hp hap2_hp : string) : string :=
  haploid_patch_start script cores hap1_patch hap2_patch
    +:+ " --phased " +:+ py_str phased_vcf +:+ hp_clauses hap1_hp hap2_hp.

(** The pattern of the doctests of [cmd_pyexec_vcf_mod_haploid_patch]. *)
Definition doc_hap_patt : string := "out_hap%d_%stmp.vcf.gz".


(** ** The reference index and the synthesized region file

    A row of a reference index ([.fai]) is a list of columns, the contig
    name and the contig length first; the file has one line per row, the
    columns separated by tabs. *)

Fixpoint join_tab (cols : list string) : string :=
  match cols with
  | [] => ""
  | [c] => c
  | c :: rest => c +:+ String tab (join_tab rest)
  end.

Definition fai_line (row : list string) : string :=
  join_tab row +:+ String newline "".

Fixpoint concat_lines (lines : list string) : string :=
  match lines with
  | [] => ""
  | l :: rest => l +:+ concat_lines rest
  end.

Definition fai_content (rows : list (list string)) : string :=
  concat_lines (map fai_line rows).

(** The line of the region file for one contig: name, [0], length. *)
Definition bed_line (row : list string) : string :=
  match row with
  | contig :: len :: _ =>
      contig +:+ String tab "0" +:+ String tab len +:+ String newline ""
  | _ => ""
  end.

Definition bed_content (rows : list (list string)) : string :=
  concat_lines (map bed_line rows).

(** [s] has no character for which [p] holds. *)
Fixpoint none_of (p : ascii -> bool) (s : string) : bool :=
  match s with
  | "" => true
  | String c s' => negb (p c) && none_of p s'
  end.

(** The characters that end a line, and those that end a column or a
    line. *)
Definition is_line_end (c : ascii) : bool :=
  Ascii.eqb c newline || Ascii.eqb c carriage_return.

Definition is_break (c : ascii) : bool :=
  Ascii.eqb c tab || is_line_end c.

(** A contig name or length: not empty, no white space. *)
Definition is_field (s : string) : bool :=
  negb (String.eqb s "") && none_of is_space s.

(** A well-formed row: a name, a length, and further columns without
    tabs or line ends. *)
Definition wf_row (row : list string) : bool :=
  match row with
  | contig :: len :: rest =>
      is_field contig && is_field len && forallb (none_of is_break) rest
  | _ => false
  end.

(** The last character of a string. *)
Fixpoint last_char (s : string) : option ascii :=
  match s with
  | "" => None
  | String c s' =>
      match last_char s' with
      | Some d => Some d
      | None => Some c
      end
  end.

(** The index of the tests: two contigs. *)
Definition doc_index : list (list string) :=
  [ ["chr1"; "248956422"; "112"; "70"; "71"];
    ["chr2"; "242193529"; "252513167"; "70"; "71"] ].

(** A file system where every path names its own file and nothing
    fails. *)
Definition plain_fs (texts : gmap string string) : filesystem :=
  {| files := texts;
     file_of := fun path => path;
     open_read_fault := fun _ => None;
     open_write_fault := fun _ => None;
     on_close := fun _ text => (None, text) |}.

Definition doc_fs : filesystem :=
  plain_fs (<["ref.fasta.fai" := fai_content doc_index]> ∅).

(** The files of [doc_fs] without the directory [/tmp]: no file can be
    created under it. *)
Definition no_tmp_fs : filesystem :=
  {| files := files doc_fs;
     file_of := file_of doc_fs;
     open_read_fault := open_read_fault doc_fs;
     open_write_fault :=
       fun path =>
         if prefixb "/tmp/" path then Some (FileNotFoundError path) else None;
     on_close := on_close doc_fs |}.

(** The files of [doc_fs] with [/tmp/work_reference.bed] a link to the
    index. *)
Definition linked_fs : filesystem :=
  {| files := files doc_fs;
     file_of :=
       fun path =>
         if String.eqb path "/tmp/work_reference.bed" then "ref.fasta.fai"
         else path;
     open_read_fault := open_read_fault doc_fs;
     open_write_fault := open_write_fault doc_fs;
     on_close := on_close doc_fs |}.

(** The files of [texts] on a full device: flushing a text that is not
    empty fails and keeps nothing. *)
Definition full_fs (texts : gmap string string) : filesystem :=
  {| files := texts;
     file_of := fun path => path;
     open_read_fault := fun _ => None;
     open_write_fault := fun _ => None;
     on_close :=
       fun _ text =>
         if String.eqb text "" then (None, "")
         else (Some (OSError "No space left on device"), "") |}.

Definition subtract_config : dict := <["tmp_base" := VStr "/tmp/work"]> doc_config.


(** ** The commands of the builders that wrap the driver *)

(** What [cmd_repeat_model] writes after the driver invocation and before
    the path of the model: the phased read filter and the fixed options. *)
Definition repeat_model_options (phased_ext : string) : string :=
  " --read_filter PhasedReadFilter,phased_vcf=" +:+ phased_ext
    +:+ ",phase_select=tag --algo RepeatModel --phased --min_map_qual 1 --min_group_count 10000 --read_flag_mask drop=supplementary --repeat_extension 5 --max_repeat_unit_size 2 --min_repeat_count 6 ".

(** The path [cmd_repeat_model] gives to the model. *)
Definition repeat_model_path (tmp_base : value) : string :=
  py_str tmp_base +:+ "/out_repeat.model".

(** What [cmd_variant_phaser] writes after the driver invocation. *)
Definition variant_phaser_options
    (vcf : string) (depth : value) (phased_bed phased_ext phased_vcf : string)
    : string :=
  " --algo VariantPhaser -v " +:+ vcf +:+ " --max_depth " +:+ py_str depth
    +:+ " --out_bed " +:+ phased_bed +:+ " --out_ext " +:+ phased_ext
    +:+ " " +:+ phased_vcf +:+ " ".


(** ** Other shapes of the reference index *)

(** The index with lines that end in carriage return and line feed. *)
Definition fai_content_crlf (rows : list (list string)) : string :=
  concat_lines
    (map (fun row =>
            join_tab row +:+ String carriage_return (String newline ""))
       rows).

(** [v] is not a string. *)
Definition not_str (v : value) : Prop :=
  match v with
  | VStr _ => False
  | _ => True
  end.


(** ** Arguments of a command *)

(** [s] has no space. *)
Definition spaceless (s : string) : bool :=
  none_of (fun c => Ascii.eqb c " ") s.


(** * Properties *)

#[local] Arguments String.append !s1 s2 / : simpl nomatch.

(** ** Strings *)

Lemma append_nil_r (s : string) : s +:+ "" = s.
Proof. induction s as [|c s IH]; simpl; [reflexivity | now rewrite IH]. Qed.

Lemma append_assoc (a b c : string) : (a +:+ b) +:+ c = a +:+ (b +:+ c).
Proof. induction a as [|x a IH]; simpl; [reflexivity | now rewrite IH]. Qed.

(** ** The Python primitives on small inputs *)

Example strip_example :
  strip (String tab "  chr1" +:+ String tab "10 " +:+ String newline "")
  = "chr1" +:+ String tab "10".
Proof. reflexivity. Qed.

Example str_split_example :
  str_split tab ("a" +:+ String tab "b" +:+ String tab "")
  = ["a"; "b"; ""].
Proof. reflexivity. Qed.

Example file_lines_example :
  file_lines
    ("a" +:+ String carriage_return (String newline "b")
       +:+ String carriage_return "c" +:+ String newline "d")
  = [String "a" (String newline ""); String "b" (String newline "");
     String "c" (String newline ""); "d"].
Proof. reflexivity. Qed.

Example str_replace_examples :
  str_replace "out.vcf.gz" ".vcf.gz" ".g.vcf.gz" = "out.g.vcf.gz"
  /\ str_replace "out.vcf" ".vcf.gz" ".g.vcf.gz" = "out.vcf"
  /\ str_replace "aaa" "aa" "b" = "ba"
  /\ str_replace "ab" "" "-" = "-a-b-".
Proof. repeat split; reflexivity. Qed.

Example str_mod_examples :
  str_mod "out_hap%d_%stmp.vcf.gz" [VInt 1; VStr "nohp_"]
  = Ok "out_hap1_nohp_tmp.vcf.gz"
  /\ str_mod "100%%" [] = Ok "100%"
  /\ str_mod "out.vcf.gz" [VInt 1; VStr ""] = Raise TypeError
  /\ str_mod "%d" [] = Raise TypeError
  /\ str_mod "%d" [VStr "1"] = Raise TypeError
  /\ str_mod "50%" [] = Raise ValueError.
Proof. repeat split; reflexivity. Qed.

(** ** The doctests of the driver *)

Example driver_doctest_1 :
  cmd_sentieon_driver (Some "regions") false doc_config
  = Ok "sentieon driver -t 4 -r ref.fasta  --interval phased.bed -i sample.bam".
Proof. vm_compute. reflexivity. Qed.

Example driver_doctest_2 :
  cmd_sentieon_driver (Some "regions") true doc_config
  = Ok "sentieon driver -t 4 -r ref.fasta  --interval phased.bed".
Proof. vm_compute. reflexivity. Qed.

Example driver_doctest_3 :
  cmd_sentieon_driver (Some "regions") true
    (<["read-filter" := VStr "PhasedReadFilter,phased_vcf=p.vcf.gz"]> doc_config)
  = Ok "sentieon driver -t 4 -r ref.fasta  --interval phased.bed --read_filter PhasedReadFilter,phased_vcf=p.vcf.gz".
Proof. vm_compute. reflexivity. Qed.

(** ** The path-resolution helper *)

Lemma name_str (s : string) : name (VStr s) = VStr s.
Proof. reflexivity. Qed.

Lemma name_named (repr : string) (t : bool) (n : value) :
  name (VNamed repr t n) = n.
Proof. reflexivity. Qed.

(** C9. [name] is defined on every value and never fails: the attribute
    it reads is there whenever [hasattr] says so. On a value with a [name]
    attribute it returns that attribute, on any other value it returns its
    argument; so on a path-like value resolving twice is resolving once.
    Being a function of its argument alone, it has no effect. *)
Theorem name_total_idempotent :
  (forall v,
     hasattr_name v = true ->
     exists n, getattr_name v = Ok n /\ name v = n)
  /\ (forall v, hasattr_name v = false -> name v = v)
  /\ (forall x, path_like x -> name (name x) = name x).
Proof.
  split; [|split].
  - intros v H. destruct v; try discriminate.
    eexists. split; reflexivity.
  - intros v H. unfold name. rewrite H. reflexivity.
  - intros x Hx.
    destruct x as [| | | |? ?|? ? n]; simpl in Hx; try contradiction.
    + reflexivity.
    + destruct n; try contradiction. reflexivity.
Qed.

Lemma name_total_idempotent_witness :
  (exists n,
     getattr_name (VNamed "<file>" true (VStr "ref.fasta")) = Ok n
     /\ name (VNamed "<file>" true (VStr "ref.fasta")) = n)
  /\ name (VStr "ref.fasta") = VStr "ref.fasta"
  /\ name (name (VNamed "<file>" true (VStr "ref.fasta")))
     = name (VNamed "<file>" true (VStr "ref.fasta")).
Proof.
  destruct name_total_idempotent as (H1 & H2 & H3).
  split; [apply H1; reflexivity|].
  split; [apply H2; reflexivity|].
  apply H3. simpl. exact I.
Defined.

(** ** Missing required keys *)

Ltac unfold_driver :=
  unfold cmd_sentieon_driver, res_bind, getitem, dict_get, dict_get_default.

Lemma driver_raises_missing
    (bed_key : option string) (skip : bool) (kwargs : dict) :
  kwargs !! "cores" = None \/ kwargs !! "reference" = None ->
  raises (cmd_sentieon_driver bed_key skip kwargs).
Proof.
  intros H. unfold raises. unfold_driver.
  destruct bed_key as [k|].
  - destruct (kwargs !! k) as [b|]; simpl;
      destruct (kwargs !! "read-filter") as [rf|]; simpl;
      try destruct (truthy rf); try destruct (is_not_None b);
      destruct (kwargs !! "cores"), (kwargs !! "reference");
      destruct H; try discriminate; eauto.
  - destruct (kwargs !! "read-filter") as [rf|]; simpl;
      try destruct (truthy rf);
      destruct (kwargs !! "cores"), (kwargs !! "reference");
      destruct H; try discriminate; eauto.
Qed.

Lemma call_driver_raises_missing
    (bed_key : option string) (skip : option bool) (kwargs : dict) :
  kwargs !! "cores" = None \/ kwargs !! "reference" = None ->
  raises (call_cmd_sentieon_driver bed_key skip kwargs).
Proof.
  intros H. unfold call_cmd_sentieon_driver.
  destruct (kwargs !! "bed_key"); [eexists; reflexivity|].
  destruct skip as [s|], (kwargs !! "skip_sample_input") as [v|] eqn:Hs;
    try (eexists; reflexivity); try (apply driver_raises_missing; exact H).
  apply driver_raises_missing.
  destruct H as [H|H]; [left|right];
    (rewrite lookup_delete_ne by discriminate); exact H.
Qed.

Lemma bind_raises {A B : Type} (m : M A) (k : A -> M B) (kw : dict) :
  raises (fst (m kw)) -> raises (fst (bind m k kw)).
Proof.
  intros [e He]. unfold bind. destruct (m kw) as [[a|e'] kw'];
    simpl in *; [discriminate|]. exists e'. reflexivity.
Qed.

(** C7. When the mapping has no ['cores'] key or no ['reference'] key,
    [cmd_sentieon_driver] raises an exception instead of returning a
    string, whatever its other arguments, and so does every stage builder
    that calls it: [cmd_variant_phaser], [cmd_repeat_model],
    [cmd_model_apply] and [cmd_algo_dnascope]. *)
Theorem missing_cores_or_reference_raises (kwargs : dict) :
  kwargs !! "cores" = None \/ kwargs !! "reference" = None ->
  (forall bed_key skip, raises (cmd_sentieon_driver bed_key skip kwargs))
  /\ (forall vcf phased_bed phased_vcf phased_ext,
        raises (fst (cmd_variant_phaser vcf phased_bed phased_vcf phased_ext
                       kwargs)))
  /\ (forall phased_bed phased_ext,
        raises (fst (cmd_repeat_model phased_bed phased_ext kwargs)))
  /\ (forall model inp_vcf out_vcf,
        raises (fst (cmd_model_apply model inp_vcf out_vcf kwargs)))
  /\ (forall model out_vcf bed_key gvcf,
        raises (fst (cmd_algo_dnascope model out_vcf bed_key gvcf kwargs))).
Proof.
  intros H. repeat split.
  - intros. apply driver_raises_missing, H.
  - intros. unfold cmd_variant_phaser. apply bind_raises. simpl.
    apply call_driver_raises_missing, H.
  - intros. unfold cmd_repeat_model, bind at 1. simpl.
    apply bind_raises. simpl. apply call_driver_raises_missing.
    destruct H as [H|H]; [left|right];
      (rewrite lookup_insert_ne by discriminate); exact H.
  - intros. unfold cmd_model_apply. apply bind_raises. simpl.
    apply call_driver_raises_missing, H.
  - intros. unfold cmd_algo_dnascope.
    pose proof (call_driver_raises_missing bed_key None kwargs H) as [e He].
    unfold bind, kw_get, kw_getitem, lift, ret, call_kw, getitem.
    destruct (opt_truthy gvcf).
    + destruct (kwargs !! "model_bundle"); [|eexists; reflexivity].
      destruct (truthy (dict_get kwargs "dbsnp")).
      * destruct (kwargs !! "dbsnp") as [d|]; [|eexists; reflexivity].
        destruct (getattr_name d); [|eexists; reflexivity].
        rewrite He. eexists; reflexivity.
      * rewrite He. eexists; reflexivity.
    + destruct (truthy (dict_get kwargs "dbsnp")).
      * destruct (kwargs !! "dbsnp") as [d|]; [|eexists; reflexivity].
        destruct (getattr_name d); [|eexists; reflexivity].
        rewrite He. eexists; reflexivity.
      * rewrite He. eexists; reflexivity.
Qed.

(** ** Occurrences of a clause in a command *)

Lemma prefixb_app_r (n s t : string) :
  prefixb n s = true -> prefixb n (s +:+ t) = true.
Proof.
  revert s. induction n as [|a n IH]; intros s H; [reflexivity|].
  destruct s as [|b s]; simpl in *; [discriminate|].
  apply andb_true_iff in H as [-> H]. simpl. apply IH, H.
Qed.

Lemma prefixb_self_app (n t : string) : prefixb n (n +:+ t) = true.
Proof.
  induction n as [|a n IH]; simpl; [reflexivity|].
  rewrite Ascii.eqb_refl. exact IH.
Qed.

Lemma contains_prefix (n s : string) :
  prefixb n s = true -> contains n s = true.
Proof. intros H. destruct s; simpl in *; rewrite H; reflexivity. Qed.

Lemma contains_app_r (n s t : string) :
  contains n s = true -> contains n (s +:+ t) = true.
Proof.
  induction s as [|c s IH]; intros H.
  - simpl in H. rewrite orb_false_r in H.
    destruct n; [|simpl in H; discriminate].
    destruct t; reflexivity.
  - simpl in *. apply orb_true_iff in H as [H|H].
    + apply (prefixb_app_r n (String c s) t) in H. simpl in H.
      rewrite H. reflexivity.
    + rewrite (IH H). apply orb_true_r.
Qed.

Lemma contains_app_l (n s t : string) :
  contains n t = true -> contains n (s +:+ t) = true.
Proof.
  intros H. induction s as [|c s IH]; simpl; [exact H|].
  rewrite IH. apply orb_true_r.
Qed.

(** A clause written into a command is found in it. *)
Lemma contains_intro (n a b : string) :
  contains n (a +:+ n +:+ b) = true.
Proof. apply contains_app_l, contains_prefix, prefixb_self_app. Qed.

Lemma contains_false_app (n a b : string) :
  contains n (a +:+ b) = false ->
  contains n a = false /\ contains n b = false.
Proof.
  intros H. split.
  - destruct (contains n a) eqn:E; [|reflexivity].
    rewrite (contains_app_r n a b E) in H. discriminate.
  - destruct (contains n b) eqn:E; [|reflexivity].
    rewrite (contains_app_l n a b E) in H. discriminate.
Qed.

Lemma inner_spaceless_tail (c : ascii) (m : string) :
  inner_spaceless (String c m) = true -> inner_spaceless m = true.
Proof.
  simpl. destruct m; [reflexivity|].
  intros H. apply andb_true_iff in H as [_ H]. exact H.
Qed.

(** A match that starts before a space and whose inner characters are not
    spaces ends at that space at the latest. *)
Lemma prefixb_cut (m x b : string) :
  inner_spaceless m = true ->
  prefixb m (x +:+ String " " b) = true ->
  prefixb m (x +:+ " ") = true.
Proof.
  revert x. induction m as [|c m IH]; intros x Hm H; [reflexivity|].
  destruct x as [|d x].
  - simpl in *. apply andb_true_iff in H as [Hc H]. rewrite Hc. simpl.
    destruct m; [reflexivity|].
    rewrite Hc in Hm. simpl in Hm. discriminate.
  - pose proof (inner_spaceless_tail c m Hm) as Hm'.
    simpl in *. apply andb_true_iff in H as [-> H]. simpl.
    apply IH; assumption.
Qed.

(** An occurrence of a delimited clause in [a b] lies in [a ] or in [ b]. *)
Lemma contains_space_split (n a b : string) :
  delimited n = true ->
  contains n (a +:+ String " " b)
  = contains n (a +:+ " ") || contains n (String " " b).
Proof.
  intros Hn. destruct n as [|c0 m]; [discriminate|]. simpl in Hn.
  induction a as [|c a IH].
  - change ("" +:+ String " " b) with (String " " b).
    destruct (contains (String c0 m) (String " " b)) eqn:E;
      [rewrite orb_true_r | rewrite orb_false_r]; [reflexivity|].
    destruct (contains (String c0 m) ("" +:+ " ")) eqn:E'; [|reflexivity].
    apply (contains_app_r _ _ b) in E'. simpl in E'. simpl in E.
    rewrite E' in E. discriminate.
  - change (String c a +:+ String " " b)
      with (String c (a +:+ String " " b)).
    change (String c a +:+ " ") with (String c (a +:+ " ")).
    cbn [contains]. rewrite IH. rewrite orb_assoc. f_equal. f_equal.
    cbn [prefixb]. destruct (Ascii.eqb c0 c); [|reflexivity]. simpl.
    destruct (prefixb m (a +:+ String " " b)) eqn:E.
    + symmetry. apply (prefixb_cut m a b Hn E).
    + destruct (prefixb m (a +:+ " ")) eqn:E'; [|reflexivity].
      apply (prefixb_app_r _ _ b) in E'. rewrite append_assoc in E'.
      simpl in E'. rewrite E' in E. discriminate.
Qed.

Lemma free_of_unpadded (n a : string) :
  free_of n a -> contains n a = false.
Proof.
  unfold free_of. intros H.
  change (String " " (a +:+ " ")) with (" " +:+ (a +:+ " ")) in H.
  apply contains_false_app in H as [_ H].
  apply contains_false_app in H as [H _]. exact H.
Qed.

Lemma join_space_cons (a b : string) (rest : list string) :
  join_space (a :: b :: rest) = a +:+ String " " (join_space (b :: rest)).
Proof. reflexivity. Qed.

Lemma free_of_join (n a : string) (rest : list string) :
  delimited n = true ->
  Forall (free_of n) (a :: rest) ->
  free_of n (join_space (a :: rest)).
Proof.
  intros Hn. revert a. induction rest as [|b rest IH]; intros a H.
  - inversion H; subst. assumption.
  - inversion H as [|? ? Ha Hrest]; subst.
    rewrite join_space_cons. unfold free_of.
    change (String " " ((a +:+ String " " (join_space (b :: rest))) +:+ " "))
      with ((String " " a +:+ String " " (join_space (b :: rest))) +:+ " ").
    rewrite append_assoc.
    change (String " " (join_space (b :: rest)) +:+ " ")
      with (String " " (join_space (b :: rest) +:+ " ")).
    rewrite (contains_space_split n _ _ Hn).
    apply orb_false_iff. split; [exact Ha | apply IH, Hrest].
Qed.

(** A delimited clause that none of the arguments shows does not occur in
    the command. *)
Lemma absent_join (n : string) (args : list string) :
  delimited n = true ->
  Forall (free_of n) args ->
  contains n (join_space args) = false.
Proof.
  intros Hn H. destruct args as [|a rest].
  - destruct n; [discriminate | reflexivity].
  - apply free_of_unpadded, free_of_join; assumption.
Qed.

(** ** The driver invocation builder *)

Lemma driver_exact
    (bed_key : option string) (skip : bool) (kwargs : dict) :
  is_Some (kwargs !! "cores") ->
  is_Some (kwargs !! "reference") ->
  (skip = false -> is_Some (kwargs !! "sample_input")) ->
  cmd_sentieon_driver bed_key skip kwargs
  = Ok (driver_command truthy bed_key skip kwargs).
Proof.
  intros [c Hc] [r Hr] Hs.
  unfold driver_command, region_clause, sample_clause, read_filter_clause.
  unfold_driver. rewrite Hc, Hr.
  assert (Hbed :
    match bed_key with
    | Some k =>
        if is_not_None match kwargs !! k with Some v => v | None => VNone end
        then match
               match kwargs !! k with
               | Some v => Ok v
               | None => Raise (KeyError k)
               end
             with
             | Ok b => Ok (" --interval " +:+ py_str (name b))
             | Raise e => Raise e
             end
        else Ok ""
    | None => Ok ""
    end
    = Ok match bed_key with
         | Some k =>
             match kwargs !! k with
             | Some VNone | None => ""
             | Some bed => " --interval " +:+ py_str (name bed)
             end
         | None => ""
         end).
  { destruct bed_key as [k|]; [|reflexivity].
    destruct (kwargs !! k) as [[]|]; reflexivity. }
  rewrite Hbed. clear Hbed.
  destruct (kwargs !! "read-filter") as [rf|]; cbn [truthy];
    [destruct (truthy rf)|];
    (destruct skip; cbn [negb];
     [| destruct (Hs eq_refl) as [s ->]]);
    f_equal; rewrite ?append_assoc, ?append_nil_r; reflexivity.
Qed.

(** Closes [Forall (free_of n) args] for arguments that are literals or
    covered by a hypothesis. *)
Ltac solve_free :=
  repeat
    match goal with
    | |- Forall _ _ => constructor
    | |- free_of _ _ => first [assumption | now vm_compute]
    end.

(** Shows the goal's command to be the written-out sequence [args]. *)
Ltac as_join args :=
  rewrite ?append_assoc, ?append_nil_r;
  match goal with
  | |- contains _ ?s = _ => change s with (join_space args)
  end.

Lemma driver_without_region
    (bed_key : option string) (skip : bool) (kwargs : dict) :
  region_clause bed_key kwargs = "" ->
  free_of "--interval" (py_str (dict_get kwargs "cores")) ->
  free_of "--interval" (py_str (name (dict_get kwargs "reference"))) ->
  free_of "--interval" (py_str (name (dict_get kwargs "sample_input"))) ->
  free_of "--interval" (py_str (dict_get kwargs "read-filter")) ->
  contains "--interval" (driver_command truthy bed_key skip kwargs) = false.
Proof.
  intros Hreg Hc Hr Hs Hf.
  unfold driver_command, sample_clause, read_filter_clause.
  rewrite Hreg. unfold dict_get, dict_get_default in *.
  set (c := py_str match kwargs !! "cores" with
                   | Some v => v | None => VNone end) in *.
  set (r := py_str (name match kwargs !! "reference" with
                         | Some v => v | None => VNone end)) in *.
  set (s := py_str (name match kwargs !! "sample_input" with
                         | Some v => v | None => VNone end)) in *.
  destruct (kwargs !! "read-filter") as [rf|]; [destruct (truthy rf)|];
    destruct skip.
  - as_join ["sentieon"; "driver"; "-t"; c; "-r"; r; "";
             "--read_filter"; py_str rf].
    apply absent_join; [reflexivity | solve_free].
  - as_join ["sentieon"; "driver"; "-t"; c; "-r"; r; ""; "-i"; s;
             "--read_filter"; py_str rf].
    apply absent_join; [reflexivity | solve_free].
  - as_join ["sentieon"; "driver"; "-t"; c; "-r"; r; ""].
    apply absent_join; [reflexivity | solve_free].
  - as_join ["sentieon"; "driver"; "-t"; c; "-r"; r; ""; "-i"; s].
    apply absent_join; [reflexivity | solve_free].
  - as_join ["sentieon"; "driver"; "-t"; c; "-r"; r; ""].
    apply absent_join; [reflexivity | solve_free].
  - as_join ["sentieon"; "driver"; "-t"; c; "-r"; r; ""; "-i"; s].
    apply absent_join; [reflexivity | solve_free].
Qed.

(** C1, as stated, at a Config whose ['read-filter'] key holds the empty
    string: the keys ['cores'], ['reference'] and ['sample_input'] are
    there and the ['read-filter'] key holds a value that is not [None], so
    the stated command ends with a [ --read_filter ] clause; the builder
    returns the command without it. *)
Lemma driver_read_filter_counterexample :
  is_Some (empty_filter_config !! "cores")
  /\ is_Some (empty_filter_config !! "reference")
  /\ is_Some (empty_filter_config !! "sample_input")
  /\ empty_filter_config !! "read-filter" = Some (VStr "")
  /\ driver_command is_not_None (Some "regions") false empty_filter_config
     = "sentieon driver -t 4 -r ref.fasta  --interval phased.bed -i sample.bam --read_filter "
  /\ cmd_sentieon_driver (Some "regions") false empty_filter_config
     = Ok "sentieon driver -t 4 -r ref.fasta  --interval phased.bed -i sample.bam"
  /\ cmd_sentieon_driver (Some "regions") false empty_filter_config
     <> Ok (driver_command is_not_None (Some "regions") false
              empty_filter_config).
Proof.
  repeat split; try (eexists; reflexivity); try (vm_compute; reflexivity).
  vm_compute. discriminate.
Qed.

(** C1 (amended: the read-filter clause is there iff the ['read-filter']
    key holds a true value, for a string a non-empty one). For every Config
    with ['cores'] and ['reference'] (and ['sample_input'] when the sample
    input is not skipped), [cmd_sentieon_driver] returns exactly
    [sentieon driver -t <cores> -r <resolved reference> ] followed, in this
    order, by the clause [ --interval <resolved bed>] iff [bed_key] is
    given and maps to a value that is not [None], the clause
    [ -i <resolved sample_input>] iff the sample input is not skipped, and
    the clause [ --read_filter <spec>] iff the ['read-filter'] value is
    true. When the region clause is omitted nothing stands in its place,
    and the command shows no [--interval] unless one of the Config values
    written into it does. The doctest call returns the documented string,
    with two spaces before [--interval]. *)
Theorem driver_command_exact :
  (forall bed_key skip kwargs,
     is_Some (kwargs !! "cores") ->
     is_Some (kwargs !! "reference") ->
     (skip = false -> is_Some (kwargs !! "sample_input")) ->
     cmd_sentieon_driver bed_key skip kwargs
     = Ok (driver_command truthy bed_key skip kwargs))
  /\ (forall bed_key skip kwargs,
        region_clause bed_key kwargs = "" ->
        free_of "--interval" (py_str (dict_get kwargs "cores")) ->
        free_of "--interval" (py_str (name (dict_get kwargs "reference"))) ->
        free_of "--interval"
          (py_str (name (dict_get kwargs "sample_input"))) ->
        free_of "--interval" (py_str (dict_get kwargs "read-filter")) ->
        contains "--interval" (driver_command truthy bed_key skip kwargs)
        = false)
  /\ cmd_sentieon_driver (Some "regions") false doc_config
     = Ok "sentieon driver -t 4 -r ref.fasta  --interval phased.bed -i sample.bam".
Proof.
  split; [|split].
  - apply driver_exact.
  - apply driver_without_region.
  - vm_compute. reflexivity.
Qed.

Lemma driver_command_exact_witness :
  cmd_sentieon_driver (Some "regions") false
    (<["read-filter" := VStr "PhasedReadFilter,phased_vcf=p.vcf.gz"]>
       doc_config)
  = Ok "sentieon driver -t 4 -r ref.fasta  --interval phased.bed -i sample.bam --read_filter PhasedReadFilter,phased_vcf=p.vcf.gz"
  /\ contains "--interval" (driver_command truthy None false doc_config)
     = false.
Proof.
  split.
  - rewrite (proj1 driver_command_exact);
      [vm_compute; reflexivity | eexists; reflexivity..].
  - apply (proj1 (proj2 driver_command_exact)); vm_compute; reflexivity.
Defined.

Lemma missing_cores_or_reference_raises_witness :
  raises (cmd_sentieon_driver (Some "regions") false
            (delete "cores" doc_config))
  /\ raises (fst (cmd_model_apply "model" "in.vcf.gz" "out.vcf.gz"
                    (delete "reference" doc_config))).
Proof.
  split.
  - apply (missing_cores_or_reference_raises (delete "cores" doc_config)).
    left. reflexivity.
  - apply (missing_cores_or_reference_raises (delete "reference" doc_config)).
    right. reflexivity.
Defined.

(** ** The variant callers *)

Ltac run_M :=
  cbv beta iota delta
    [bind kw_getitem kw_get kw_get_default kw_setitem lift ret throw call_kw
     getitem dict_get dict_get_default pyexec_prefix].

Lemma algo_dnascope_run
    (model out_vcf : string) (bed_key gvcf : option string) (kwargs : dict)
    (driver : string) :
  call_cmd_sentieon_driver bed_key None kwargs = Ok driver ->
  (opt_truthy gvcf = true -> is_Some (kwargs !! "model_bundle")) ->
  cmd_algo_dnascope model out_vcf bed_key gvcf kwargs
  = (if truthy (dict_get kwargs "dbsnp") then
       match getattr_name (dict_get kwargs "dbsnp") with
       | Ok n =>
           Ok (dnascope_command driver gvcf kwargs
                 (" --dbsnp " +:+ py_str n +:+ " ") model out_vcf)
       | Raise e => Raise e
       end
     else Ok (dnascope_command driver gvcf kwargs "" model out_vcf),
     kwargs).
Proof.
  intros Hd Hg. unfold cmd_algo_dnascope, dnascope_command, gvcf_clause.
  run_M.
  destruct (opt_truthy gvcf); [destruct (Hg eq_refl) as [b ->]|];
    run_M;
    (destruct (kwargs !! "dbsnp") as [d|] eqn:E; cbn [truthy];
     [destruct (truthy d); [destruct (getattr_name d) eqn:En|]|]);
    run_M; rewrite ?E; run_M; rewrite ?En; run_M; rewrite ?Hd; run_M;
    f_equal; f_equal; rewrite ?append_assoc, ?append_nil_r; reflexivity.
Qed.

Lemma dnascope_hp_run
    (model : option string) (repeat_model hp_vcf : string) (kwargs : dict) :
  cmd_dnascope_hp model repeat_model hp_vcf kwargs
  = (Ok (dnascope_hp_command
           (if truthy (dict_get kwargs "dbsnp")
            then "--dbsnp " +:+ py_str (name (dict_get kwargs "dbsnp"))
                   +:+ " "
            else "")
           model repeat_model hp_vcf),
     kwargs).
Proof.
  unfold cmd_dnascope_hp, dnascope_hp_command, model_clause.
  run_M.
  destruct (kwargs !! "dbsnp") as [d|] eqn:E; cbn [truthy];
    [destruct (truthy d)|]; run_M; rewrite ?E; run_M; destruct model;
    f_equal; f_equal; rewrite ?append_assoc, ?append_nil_r; reflexivity.
Qed.

Lemma call_driver_ready
    (bed_key : option string) (skip : option bool) (kwargs : dict) :
  driver_ready kwargs ->
  call_cmd_sentieon_driver bed_key skip kwargs
  = Ok (driver_command truthy bed_key
          (match skip with Some s => s | None => false end) kwargs).
Proof.
  intros (Hc & Hr & Hs & Hb & Hk). unfold call_cmd_sentieon_driver.
  rewrite Hb, Hk. destruct skip as [s|]; apply driver_exact; auto.
Qed.

Lemma hp_dbsnp_clause_truthy (kwargs : dict) :
  hp_dbsnp_clause truthy kwargs
  = if truthy (dict_get kwargs "dbsnp")
    then "--dbsnp " +:+ py_str (name (dict_get kwargs "dbsnp")) +:+ " "
    else "".
Proof.
  unfold hp_dbsnp_clause, dict_get, dict_get_default.
  destruct (kwargs !! "dbsnp"); reflexivity.
Qed.

(** A true dbSNP value without a [name] attribute, a plain string path for
    one, makes [cmd_algo_dnascope] raise [AttributeError]. *)
Lemma algo_dnascope_needs_name_attribute
    (model out_vcf : string) (bed_key gvcf : option string) (kwargs : dict)
    (d : value) :
  kwargs !! "dbsnp" = Some d ->
  truthy d = true ->
  hasattr_name d = false ->
  (opt_truthy gvcf = true -> is_Some (kwargs !! "model_bundle")) ->
  cmd_algo_dnascope model out_vcf bed_key gvcf kwargs
  = (Raise AttributeError, kwargs).
Proof.
  intros Hd Ht Hn Hg. unfold cmd_algo_dnascope. run_M.
  destruct (opt_truthy gvcf); [destruct (Hg eq_refl) as [b ->]|];
    run_M; rewrite Hd, Ht; run_M; rewrite Hd; run_M;
    destruct d; try discriminate; reflexivity.
Qed.

(** C3 at the Config whose ['dbsnp'] is the plain string path
    [dbsnp.vcf.gz]: [name] resolves the path to itself and
    [cmd_dnascope_hp] writes the clause [--dbsnp dbsnp.vcf.gz ], but
    [cmd_algo_dnascope] reads the [name] attribute of the path without
    [name] and raises [AttributeError]; with the file opened it returns the
    command with the clause [ --dbsnp dbsnp.vcf.gz ]. *)
Theorem algo_dnascope_plain_string_dbsnp :
  cmd_algo_dnascope "model" "out.vcf.gz" None None dbsnp_config
  = (Raise AttributeError, dbsnp_config)
  /\ name (VStr "dbsnp.vcf.gz") = VStr "dbsnp.vcf.gz"
  /\ fst (cmd_dnascope_hp None "repeat_model" "hp.vcf.gz" dbsnp_config)
     = Ok "--algo DNAscopeHP --dbsnp dbsnp.vcf.gz --pcr_indel_model repeat_model --min_repeat_count 6 hp.vcf.gz"
  /\ fst (cmd_algo_dnascope "model" "out.vcf.gz" None None open_dbsnp_config)
     = Ok "sentieon driver -t 4 -r ref.fasta  -i sample.bam --algo DNAscope  --dbsnp dbsnp.vcf.gz  --model model out.vcf.gz".
Proof.
  split; [|split; [|split]].
  - apply (algo_dnascope_needs_name_attribute _ _ _ _ _
             (VStr "dbsnp.vcf.gz"));
      [reflexivity | reflexivity | reflexivity | discriminate].
  - reflexivity.
  - vm_compute. reflexivity.
  - vm_compute. reflexivity.
Qed.

Example dnascope_hp_doctest_1 :
  fst (cmd_dnascope_hp (Some "haploid_hp_model") "repeat_model" "hp.vcf.gz"
         hp_config)
  = Ok "--algo DNAscopeHP --dbsnp dbsnp.vcf.gz --model haploid_hp_model --pcr_indel_model repeat_model --min_repeat_count 6 hp.vcf.gz".
Proof. vm_compute. reflexivity. Qed.

Example dnascope_hp_doctest_2 :
  fst (cmd_dnascope_hp None "repeat_model" "hp.vcf.gz" hp_config)
  = Ok "--algo DNAscopeHP --dbsnp dbsnp.vcf.gz --pcr_indel_model repeat_model --min_repeat_count 6 hp.vcf.gz".
Proof. vm_compute. reflexivity. Qed.

Lemma dnascope_hp_exact
    (model : option string) (repeat_model hp_vcf : string) (kwargs : dict) :
  cmd_dnascope_hp model repeat_model hp_vcf kwargs
  = (Ok (dnascope_hp_command (hp_dbsnp_clause truthy kwargs) model
           repeat_model hp_vcf),
     kwargs).
Proof. rewrite dnascope_hp_run, hp_dbsnp_clause_truthy. reflexivity. Qed.

Lemma dnascope_hp_without_model
    (repeat_model hp_vcf : string) (kwargs : dict) :
  free_of "--model" (py_str (name (dict_get kwargs "dbsnp"))) ->
  free_of "--model" repeat_model ->
  free_of "--model" hp_vcf ->
  contains "--model"
    (dnascope_hp_command (hp_dbsnp_clause truthy kwargs) None repeat_model
       hp_vcf)
  = false.
Proof.
  intros Hd Hr Hh. rewrite hp_dbsnp_clause_truthy.
  unfold dnascope_hp_command, model_clause.
  set (d := py_str (name (dict_get kwargs "dbsnp"))) in *.
  destruct (truthy (dict_get kwargs "dbsnp")).
  - as_join ["--algo"; "DNAscopeHP"; "--dbsnp"; d; "--pcr_indel_model";
             repeat_model; "--min_repeat_count"; "6"; hp_vcf].
    apply absent_join; [reflexivity | solve_free].
  - as_join ["--algo"; "DNAscopeHP"; "--pcr_indel_model"; repeat_model;
             "--min_repeat_count"; "6"; hp_vcf].
    apply absent_join; [reflexivity | solve_free].
Qed.

(** C8, as stated, at the Config [{"dbsnp": ""}]: a dbSNP value is present
    and is not [None], so the stated string holds a [--dbsnp] clause; the
    builder returns the string without one. *)
Lemma dnascope_hp_dbsnp_counterexample :
  hp_empty_config !! "dbsnp" = Some (VStr "")
  /\ is_not_None (VStr "") = true
  /\ dnascope_hp_command (hp_dbsnp_clause is_not_None hp_empty_config) None
       "repeat_model" "hp.vcf.gz"
     = "--algo DNAscopeHP --dbsnp  --pcr_indel_model repeat_model --min_repeat_count 6 hp.vcf.gz"
  /\ fst (cmd_dnascope_hp None "repeat_model" "hp.vcf.gz" hp_empty_config)
     = Ok "--algo DNAscopeHP --pcr_indel_model repeat_model --min_repeat_count 6 hp.vcf.gz"
  /\ contains "--dbsnp"
       "--algo DNAscopeHP --pcr_indel_model repeat_model --min_repeat_count 6 hp.vcf.gz"
     = false
  /\ fst (cmd_dnascope_hp None "repeat_model" "hp.vcf.gz" hp_empty_config)
     <> Ok (dnascope_hp_command (hp_dbsnp_clause is_not_None hp_empty_config)
              None "repeat_model" "hp.vcf.gz").
Proof.
  repeat split; try (vm_compute; reflexivity). vm_compute. discriminate.
Qed.

(** C8 (amended: the dbSNP clause is there iff the ['dbsnp'] value is
    true, for a string a non-empty one). For every [repeat_model], [hp_vcf]
    and Config, [cmd_dnascope_hp(None, repeat_model, hp_vcf, kwargs)]
    returns exactly [--algo DNAscopeHP ], the clause
    [--dbsnp <resolved dbsnp> ] iff the dbSNP value is true,
    [--pcr_indel_model <repeat_model> --min_repeat_count 6 ] and [hp_vcf]:
    it writes no [--model] clause, and the string shows [--model] only if
    the resolved dbSNP path, [repeat_model] or [hp_vcf] does. With a model
    that is not [None] the clause [--model <model> ] stands between the
    dbSNP clause and the PCR-indel clause. The Config is left as it was. *)
Theorem dnascope_hp_clauses :
  (forall repeat_model hp_vcf kwargs,
     cmd_dnascope_hp None repeat_model hp_vcf kwargs
     = (Ok ("--algo DNAscopeHP " +:+ hp_dbsnp_clause truthy kwargs
              +:+ "--pcr_indel_model " +:+ repeat_model
              +:+ " --min_repeat_count 6 " +:+ hp_vcf),
        kwargs))
  /\ (forall model repeat_model hp_vcf kwargs,
        cmd_dnascope_hp (Some model) repeat_model hp_vcf kwargs
        = (Ok ("--algo DNAscopeHP " +:+ hp_dbsnp_clause truthy kwargs
                 +:+ ("--model " +:+ model +:+ " ")
                 +:+ "--pcr_indel_model " +:+ repeat_model
                 +:+ " --min_repeat_count 6 " +:+ hp_vcf),
           kwargs))
  /\ (forall repeat_model hp_vcf kwargs,
        free_of "--model" (py_str (name (dict_get kwargs "dbsnp"))) ->
        free_of "--model" repeat_model ->
        free_of "--model" hp_vcf ->
        exists cmd,
          fst (cmd_dnascope_hp None repeat_model hp_vcf kwargs) = Ok cmd
          /\ contains "--model" cmd = false).
Proof.
  split; [|split].
  - intros. apply dnascope_hp_exact.
  - intros. apply dnascope_hp_exact.
  - intros repeat_model hp_vcf kwargs Hd Hr Hh.
    rewrite dnascope_hp_exact. eexists. split; [reflexivity|].
    apply dnascope_hp_without_model; assumption.
Qed.

Lemma dnascope_hp_clauses_witness :
  exists cmd,
    fst (cmd_dnascope_hp None "repeat_model" "hp.vcf.gz" hp_config) = Ok cmd
    /\ contains "--model" cmd = false.
Proof.
  apply (proj2 (proj2 dnascope_hp_clauses)); vm_compute; reflexivity.
Defined.

(** ** A dbSNP value that is present and false *)

Lemma dnascope_hp_falsy_dbsnp
    (model : option string) (repeat_model hp_vcf : string) (kwargs : dict) :
  truthy (dict_get kwargs "dbsnp") = false ->
  cmd_dnascope_hp model repeat_model hp_vcf kwargs
  = (Ok (dnascope_hp_command "" model repeat_model hp_vcf), kwargs).
Proof. intros H. rewrite dnascope_hp_run, H. reflexivity. Qed.

Lemma algo_dnascope_falsy_dbsnp
    (model out_vcf : string) (bed_key gvcf : option string) (kwargs : dict) :
  truthy (dict_get kwargs "dbsnp") = false ->
  driver_ready kwargs ->
  (opt_truthy gvcf = true -> is_Some (kwargs !! "model_bundle")) ->
  cmd_algo_dnascope model out_vcf bed_key gvcf kwargs
  = (Ok (dnascope_command (driver_command truthy bed_key false kwargs)
           gvcf kwargs "" model out_vcf),
     kwargs).
Proof.
  intros H Hr Hg.
  rewrite (algo_dnascope_run _ _ _ _ _ _
             (call_driver_ready bed_key None kwargs Hr) Hg).
  rewrite H. reflexivity.
Qed.

Lemma dnascope_hp_without_dbsnp
    (model : option string) (repeat_model hp_vcf : string) :
  match model with Some m => free_of "--dbsnp" m | None => True end ->
  free_of "--dbsnp" repeat_model ->
  free_of "--dbsnp" hp_vcf ->
  contains "--dbsnp" (dnascope_hp_command "" model repeat_model hp_vcf)
  = false.
Proof.
  intros Hm Hr Hh. unfold dnascope_hp_command, model_clause.
  destruct model as [m|].
  - as_join ["--algo"; "DNAscopeHP"; "--model"; m; "--pcr_indel_model";
             repeat_model; "--min_repeat_count"; "6"; hp_vcf].
    apply absent_join; [reflexivity | solve_free].
  - as_join ["--algo"; "DNAscopeHP"; "--pcr_indel_model"; repeat_model;
             "--min_repeat_count"; "6"; hp_vcf].
    apply absent_join; [reflexivity | solve_free].
Qed.

Lemma algo_dnascope_without_dbsnp
    (driver model out_vcf : string) (gvcf : option string) (kwargs : dict) :
  free_of "--dbsnp" driver ->
  free_of "--dbsnp" model ->
  free_of "--dbsnp" out_vcf ->
  (opt_truthy gvcf = true ->
   free_of "--dbsnp" (py_str (dict_get kwargs "model_bundle") +:+ "/gvcf_model")
   /\ free_of "--dbsnp" (opt_str gvcf)) ->
  contains "--dbsnp" (dnascope_command driver gvcf kwargs "" model out_vcf)
  = false.
Proof.
  intros Hd Hm Ho Hg. unfold dnascope_command, gvcf_clause.
  destruct (opt_truthy gvcf).
  - destruct (Hg eq_refl) as [Hb Hv].
    set (b := py_str (dict_get kwargs "model_bundle") +:+ "/gvcf_model") in *.
    replace (py_str (dict_get kwargs "model_bundle")
               +:+ "/gvcf_model --emit_mode gvcf " +:+ opt_str gvcf +:+ " ")
      with (b +:+ " --emit_mode gvcf " +:+ opt_str gvcf +:+ " ")
      by (unfold b; rewrite append_assoc; reflexivity).
    as_join [driver; ""; "--algo"; "DNAscope"; "--model"; b; "--emit_mode";
             "gvcf"; opt_str gvcf; "--algo"; "DNAscope"; ""; "--model";
             model; out_vcf].
    apply absent_join; [reflexivity | solve_free].
  - as_join [driver; "--algo"; "DNAscope"; ""; "--model"; model; out_vcf].
    apply absent_join; [reflexivity | solve_free].
Qed.

(** C10. When the Config maps ['dbsnp'] to a value that is present and
    false, such as the empty string, [cmd_dnascope_hp] returns its command
    without a dbSNP clause and [cmd_algo_dnascope], given a Config the
    driver accepts (and a model bundle when a gVCF is asked for), returns
    the driver invocation followed by its clauses without a dbSNP clause:
    whether the clause is written is decided by the truth value of the
    value, not by the presence of the key. Neither command shows [--dbsnp],
    unless one of the other values written into it does. *)
Theorem falsy_dbsnp_omitted (kwargs : dict) (d : value) :
  kwargs !! "dbsnp" = Some d ->
  truthy d = false ->
  (forall model repeat_model hp_vcf,
     cmd_dnascope_hp model repeat_model hp_vcf kwargs
     = (Ok ("--algo DNAscopeHP " +:+ model_clause model
              +:+ "--pcr_indel_model " +:+ repeat_model
              +:+ " --min_repeat_count 6 " +:+ hp_vcf),
        kwargs)
     /\ (match model with Some m => free_of "--dbsnp" m | None => True end ->
         free_of "--dbsnp" repeat_model ->
         free_of "--dbsnp" hp_vcf ->
         exists cmd,
           fst (cmd_dnascope_hp model repeat_model hp_vcf kwargs) = Ok cmd
           /\ contains "--dbsnp" cmd = false))
  /\ (forall model out_vcf bed_key gvcf,
        driver_ready kwargs ->
        (opt_truthy gvcf = true -> is_Some (kwargs !! "model_bundle")) ->
        cmd_algo_dnascope model out_vcf bed_key gvcf kwargs
        = (Ok (driver_command truthy bed_key false kwargs +:+ " "
                 +:+ gvcf_clause gvcf kwargs +:+ "--algo DNAscope "
                 +:+ " --model " +:+ model +:+ " " +:+ out_vcf),
           kwargs)
        /\ (free_of "--dbsnp" (driver_command truthy bed_key false kwargs) ->
            free_of "--dbsnp" model ->
            free_of "--dbsnp" out_vcf ->
            (opt_truthy gvcf = true ->
             free_of "--dbsnp"
               (py_str (dict_get kwargs "model_bundle") +:+ "/gvcf_model")
             /\ free_of "--dbsnp" (opt_str gvcf)) ->
            exists cmd,
              fst (cmd_algo_dnascope model out_vcf bed_key gvcf kwargs)
              = Ok cmd
              /\ contains "--dbsnp" cmd = false)).
Proof.
  intros Hd Ht.
  assert (H : truthy (dict_get kwargs "dbsnp") = false).
  { unfold dict_get, dict_get_default. rewrite Hd. exact Ht. }
  split.
  - intros model repeat_model hp_vcf. split.
    + apply dnascope_hp_falsy_dbsnp, H.
    + intros Hm Hr Hh. rewrite (dnascope_hp_falsy_dbsnp _ _ _ _ H).
      eexists. split; [reflexivity|].
      apply dnascope_hp_without_dbsnp; assumption.
  - intros model out_vcf bed_key gvcf Hr Hg. split.
    + apply algo_dnascope_falsy_dbsnp; assumption.
    + intros H1 H2 H3 H4.
      rewrite (algo_dnascope_falsy_dbsnp _ _ _ _ _ H Hr Hg).
      eexists. split; [reflexivity|].
      apply algo_dnascope_without_dbsnp; assumption.
Qed.

Lemma falsy_dbsnp_omitted_witness :
  (cmd_dnascope_hp None "repeat_model" "hp.vcf.gz" empty_dbsnp_config
   = (Ok "--algo DNAscopeHP --pcr_indel_model repeat_model --min_repeat_count 6 hp.vcf.gz",
      empty_dbsnp_config)
   /\ exists cmd,
        fst (cmd_dnascope_hp None "repeat_model" "hp.vcf.gz"
               empty_dbsnp_config) = Ok cmd
        /\ contains "--dbsnp" cmd = false)
  /\ (cmd_algo_dnascope "model" "out.vcf.gz" None None empty_dbsnp_config
      = (Ok "sentieon driver -t 4 -r ref.fasta  -i sample.bam --algo DNAscope  --model model out.vcf.gz",
         empty_dbsnp_config)
      /\ exists cmd,
           fst (cmd_algo_dnascope "model" "out.vcf.gz" None None
                  empty_dbsnp_config) = Ok cmd
           /\ contains "--dbsnp" cmd = false).
Proof.
  destruct (falsy_dbsnp_omitted empty_dbsnp_config (VStr "")
              eq_refl eq_refl) as [Hhp Halgo].
  split.
  - destruct (Hhp None "repeat_model" "hp.vcf.gz") as [Heq Habs].
    split; [exact Heq|].
    apply Habs; vm_compute; auto.
  - assert (Hready : driver_ready empty_dbsnp_config).
    { repeat split; try (eexists; reflexivity); reflexivity. }
    destruct (Halgo "model" "out.vcf.gz" None None Hready) as [Heq Habs].
    { discriminate. }
    split; [exact Heq|].
    apply Habs; try (vm_compute; reflexivity). discriminate.
Defined.

(** ** The builders and the caller's Config *)

Section Frame.
Context {A B : Type}.

Lemma preserves_ret (a : A) : preserves (ret a).
Proof. intros kw. reflexivity. Qed.

Lemma preserves_throw (e : exn) : preserves (@throw A e).
Proof. intros kw. reflexivity. Qed.

Lemma preserves_lift (r : res A) : preserves (lift r).
Proof. intros kw. reflexivity. Qed.

Lemma preserves_call_kw (f : dict -> res A) : preserves (call_kw f).
Proof. intros kw. reflexivity. Qed.

Lemma preserves_bind (m : M A) (k : A -> M B) :
  preserves m -> (forall a, preserves (k a)) -> preserves (bind m k).
Proof.
  intros Hm Hk kw. unfold bind. specialize (Hm kw).
  destruct (m kw) as [[a|e] kw']; simpl in Hm; subst kw'.
  - apply Hk.
  - reflexivity.
Qed.
End Frame.

Lemma preserves_getitem (k : string) : preserves (kw_getitem k).
Proof. intros kw. reflexivity. Qed.

Lemma preserves_get (k : string) : preserves (kw_get k).
Proof. intros kw. reflexivity. Qed.

Lemma preserves_get_default (k : string) (dflt : value) :
  preserves (kw_get_default k dflt).
Proof. intros kw. reflexivity. Qed.

Create HintDb frame.

#[local] Hint Resolve preserves_ret preserves_throw preserves_lift
  preserves_call_kw preserves_getitem preserves_get preserves_get_default
  : frame.

Ltac solve_preserves :=
  repeat
    match goal with
    | |- preserves (bind _ _) => apply preserves_bind; [|intros]
    | |- preserves (if ?c then _ else _) => destruct c
    | |- preserves _ => solve [auto with frame]
    end.

Lemma pyexec_prefix_preserves (k : string) : preserves (pyexec_prefix k).
Proof. unfold pyexec_prefix. solve_preserves. Qed.

#[local] Hint Resolve pyexec_prefix_preserves : frame.

Lemma variant_phaser_preserves (vcf phased_bed phased_vcf phased_ext : string) :
  preserves (cmd_variant_phaser vcf phased_bed phased_vcf phased_ext).
Proof. unfold cmd_variant_phaser. solve_preserves. Qed.

Lemma model_apply_preserves (model inp_vcf out_vcf : string) :
  preserves (cmd_model_apply model inp_vcf out_vcf).
Proof. unfold cmd_model_apply. solve_preserves. Qed.

Lemma haploid_patch_preserves
    (hap1_patch hap2_patch hap_patt tech : string) (phased_vcf : value) :
  preserves (cmd_pyexec_vcf_mod_haploid_patch hap1_patch hap2_patch hap_patt
               tech phased_vcf).
Proof. unfold cmd_pyexec_vcf_mod_haploid_patch. solve_preserves. Qed.

Lemma vcf_mod_patch_preserves (out_vcf vcf vcf_hp : string) :
  preserves (cmd_pyexec_vcf_mod_patch out_vcf vcf vcf_hp).
Proof. unfold cmd_pyexec_vcf_mod_patch. solve_preserves. Qed.

Lemma gvcf_combine_preserves (gvcf out_vcf : string) :
  preserves (cmd_pyexec_gvcf_combine gvcf out_vcf).
Proof. unfold cmd_pyexec_gvcf_combine. solve_preserves. Qed.

Lemma vcf_mod_merge_preserves
    (hap1_vcf hap2_vcf unphased_vcf phased_vcf phased_bed out_vcf : string) :
  preserves (cmd_pyexec_vcf_mod_merge hap1_vcf hap2_vcf unphased_vcf
               phased_vcf phased_bed out_vcf).
Proof. unfold cmd_pyexec_vcf_mod_merge. solve_preserves. Qed.

Lemma algo_dnascope_preserves
    (model out_vcf : string) (bed_key gvcf : option string) :
  preserves (cmd_algo_dnascope model out_vcf bed_key gvcf).
Proof. unfold cmd_algo_dnascope. solve_preserves. Qed.

Lemma dnascope_hp_preserves
    (model : option string) (repeat_model hp_vcf : string) :
  preserves (cmd_dnascope_hp model repeat_model hp_vcf).
Proof. unfold cmd_dnascope_hp. solve_preserves. Qed.

(** What [cmd_repeat_model] leaves in the caller's dict when it returns. *)
Lemma repeat_model_run (phased_bed phased_ext : string) (kwargs : dict)
    (cmd : string) :
  fst (cmd_repeat_model phased_bed phased_ext kwargs) = Ok cmd ->
  exists tmp_base,
    kwargs !! "tmp_base" = Some tmp_base
    /\ snd (cmd_repeat_model phased_bed phased_ext kwargs)
       = <["repeat_model" := VStr (py_str tmp_base +:+ "/out_repeat.model")]>
           (<["phased_bed" := VStr phased_bed]> kwargs).
Proof.
  unfold cmd_repeat_model. run_M. 
  destruct (call_cmd_sentieon_driver (Some "phased_bed") (Some false)
              (<["phased_bed" := VStr phased_bed]> kwargs)) as [drv|e];
    [|discriminate].
  run_M. rewrite lookup_insert_ne by discriminate.
  destruct (kwargs !! "tmp_base") as [tb|]; [|discriminate].
  run_M. rewrite lookup_insert_eq. run_M. intros _.
  exists tb. split; reflexivity.
Qed.

(** C2, as stated, at [cmd_repeat_model]: the call returns a command, and
    the caller's Config has two keys it did not have before,
    ['phased_bed'] and ['repeat_model']. *)
Lemma repeat_model_frame_counterexample :
  fst (cmd_repeat_model "phased.bed" "phased.ext" repeat_config)
  = Ok "sentieon driver -t 4 -r ref.fasta  --interval phased.bed -i sample.bam --read_filter PhasedReadFilter,phased_vcf=phased.ext,phase_select=tag --algo RepeatModel --phased --min_map_qual 1 --min_group_count 10000 --read_flag_mask drop=supplementary --repeat_extension 5 --max_repeat_unit_size 2 --min_repeat_count 6 /tmp/work/out_repeat.model"
  /\ repeat_config !! "phased_bed" = None
  /\ repeat_config !! "repeat_model" = None
  /\ snd (cmd_repeat_model "phased.bed" "phased.ext" repeat_config)
       !! "phased_bed" = Some (VStr "phased.bed")
  /\ snd (cmd_repeat_model "phased.bed" "phased.ext" repeat_config)
       !! "repeat_model" = Some (VStr "/tmp/work/out_repeat.model")
  /\ snd (cmd_repeat_model "phased.bed" "phased.ext" repeat_config)
     <> repeat_config.
Proof.
  repeat split; try (vm_compute; reflexivity).
  intros H.
  apply (f_equal (fun kw : dict => kw !! "repeat_model")) in H.
  vm_compute in H. discriminate.
Qed.

(** C2 (amended: every stage builder but [cmd_repeat_model]). Every stage
    builder other than [cmd_repeat_model] leaves the Config it is handed
    equal to what it was, whether the call returns or raises: no key is
    added, removed or changed; the builders called with [**kwargs]
    ([cmd_sentieon_driver], [cmd_bedtools_subtract]) work on a copy.
    [cmd_repeat_model], when it returns, leaves the Config with
    ['phased_bed'] set to its argument and ['repeat_model'] set to
    [<tmp_base>/out_repeat.model], and every other key as it was. *)
Theorem builders_frame :
  (forall vcf phased_bed phased_vcf phased_ext,
     preserves (cmd_variant_phaser vcf phased_bed phased_vcf phased_ext))
  /\ (forall model inp_vcf out_vcf,
        preserves (cmd_model_apply model inp_vcf out_vcf))
  /\ (forall hap1_patch hap2_patch hap_patt tech phased_vcf,
        preserves (cmd_pyexec_vcf_mod_haploid_patch hap1_patch hap2_patch
                     hap_patt tech phased_vcf))
  /\ (forall out_vcf vcf vcf_hp,
        preserves (cmd_pyexec_vcf_mod_patch out_vcf vcf vcf_hp))
  /\ (forall gvcf out_vcf, preserves (cmd_pyexec_gvcf_combine gvcf out_vcf))
  /\ (forall hap1_vcf hap2_vcf unphased_vcf phased_vcf phased_bed out_vcf,
        preserves (cmd_pyexec_vcf_mod_merge hap1_vcf hap2_vcf unphased_vcf
                     phased_vcf phased_bed out_vcf))
  /\ (forall model out_vcf bed_key gvcf,
        preserves (cmd_algo_dnascope model out_vcf bed_key gvcf))
  /\ (forall model repeat_model hp_vcf,
        preserves (cmd_dnascope_hp model repeat_model hp_vcf))
  /\ (forall bed_key skip,
        preserves (call_kw (cmd_sentieon_driver bed_key skip)))
  /\ (forall regions_bed phased_bed unphased_bed fs,
        preserves
          (call_kw (fun kw =>
             fst (cmd_bedtools_subtract regions_bed phased_bed unphased_bed
                    kw fs))))
  /\ (forall phased_bed phased_ext kwargs cmd,
        fst (cmd_repeat_model phased_bed phased_ext kwargs) = Ok cmd ->
        exists tmp_base,
          kwargs !! "tmp_base" = Some tmp_base
          /\ snd (cmd_repeat_model phased_bed phased_ext kwargs)
             = <["repeat_model" :=
                   VStr (py_str tmp_base +:+ "/out_repeat.model")]>
                 (<["phased_bed" := VStr phased_bed]> kwargs)).
Proof.
  repeat apply conj.
  - apply variant_phaser_preserves.
  - apply model_apply_preserves.
  - apply haploid_patch_preserves.
  - apply vcf_mod_patch_preserves.
  - apply gvcf_combine_preserves.
  - apply vcf_mod_merge_preserves.
  - apply algo_dnascope_preserves.
  - apply dnascope_hp_preserves.
  - intros. apply preserves_call_kw.
  - intros. apply preserves_call_kw.
  - apply repeat_model_run.
Qed.

Lemma builders_frame_witness :
  exists tmp_base,
    repeat_config !! "tmp_base" = Some tmp_base
    /\ snd (cmd_repeat_model "phased.bed" "phased.ext" repeat_config)
       = <["repeat_model" := VStr (py_str tmp_base +:+ "/out_repeat.model")]>
           (<["phased_bed" := VStr "phased.bed"]> repeat_config).
Proof.
  destruct builders_frame as (_ & _ & _ & _ & _ & _ & _ & _ & _ & _ & H).
  eapply H. vm_compute. reflexivity.
Defined.

(** ** The gVCF combiner *)

Lemma count_char_app (c : ascii) (a b : string) :
  count_char c (a +:+ b) = count_char c a + count_char c b.
Proof.
  induction a as [|x a IH]; [reflexivity|].
  change (String x a +:+ b) with (String x (a +:+ b)).
  cbn [count_char]. rewrite IH. lia.
Qed.

(** Replacing introduces no character that neither the string nor the
    replacement has. *)
Lemma count_char_replace_from (c : ascii) (old new : string) :
  count_char c new = 0 ->
  forall s skip,
    count_char c s = 0 -> count_char c (replace_from old new skip s) = 0.
Proof.
  intros Hnew. induction s as [|a s IH]; intros skip Hs; [reflexivity|].
  cbn [count_char] in Hs.
  assert (Ha : (if Ascii.eqb a c then 1 else 0) = 0) by lia.
  assert (Hs' : count_char c s = 0) by lia.
  cbn [replace_from]. destruct skip as [|k].
  - destruct (prefixb old (String a s)).
    + rewrite count_char_app, Hnew. apply IH, Hs'.
    + cbn [count_char]. rewrite Ha, (IH 0 Hs'). reflexivity.
  - apply IH, Hs'.
Qed.

Lemma count_char_str_replace (c : ascii) (s old new : string) :
  old <> "" ->
  count_char c new = 0 ->
  count_char c s = 0 ->
  count_char c (str_replace s old new) = 0.
Proof.
  intros Hold Hnew Hs. unfold str_replace.
  destruct old; [contradiction|].
  apply count_char_replace_from; assumption.
Qed.

(** The suffix [.vcf.gz] does not overlap itself: a match that reaches
    into a [.vcf.gz] put after [q] lies in [q], unless [q] is empty. *)
Lemma vcf_gz_no_overlap (q : string) :
  prefixb ".vcf.gz" (q +:+ ".vcf.gz") = true ->
  q = "" \/ prefixb ".vcf.gz" q = true.
Proof.
  intros H.
  do 7 (destruct q as [|? q]; [
    first [ left; reflexivity
          | exfalso; cbn [prefixb String.append] in H;
            repeat (apply andb_true_iff in H; destruct H as [?E H]);
            repeat match goal with
                   | E : Ascii.eqb _ _ = true |- _ =>
                       apply Ascii.eqb_eq in E
                   end;
            subst; discriminate ] | ]).
  right. cbn [prefixb String.append] in H |- *.
  repeat (apply andb_true_iff in H; destruct H as [?E H]).
  repeat match goal with
         | E : Ascii.eqb _ _ = true |- _ => rewrite E
         end.
  reflexivity.
Qed.

(** When [.vcf.gz] occurs in a path only as its suffix, [str.replace]
    replaces the suffix. *)
Lemma replace_vcf_gz_suffix (stem : string) :
  contains ".vcf.gz" stem = false ->
  str_replace (stem +:+ ".vcf.gz") ".vcf.gz" ".g.vcf.gz"
  = stem +:+ ".g.vcf.gz".
Proof.
  unfold str_replace. induction stem as [|c stem IH]; intros H.
  - reflexivity.
  - change (String c stem +:+ ".vcf.gz") with (String c (stem +:+ ".vcf.gz")).
    cbn [replace_from].
    destruct (prefixb ".vcf.gz" (String c (stem +:+ ".vcf.gz"))) eqn:E.
    + exfalso.
      destruct (vcf_gz_no_overlap (String c stem) E) as [E'|E'];
        [discriminate|].
      apply contains_prefix in E'. rewrite E' in H. discriminate.
    + change (String c stem +:+ ".g.vcf.gz")
        with (String c (stem +:+ ".g.vcf.gz")).
      f_equal. apply IH.
      cbn [contains] in H. apply orb_false_iff in H as [_ H]. exact H.
Qed.

Lemma gvcf_combine_run
    (gvcf out_vcf : string) (kwargs : dict) (script cores : value) :
  kwargs !! "gvcf_combine_py" = Some script ->
  kwargs !! "cores" = Some cores ->
  cmd_pyexec_gvcf_combine gvcf out_vcf kwargs
  = (Ok (combine_step script cores gvcf out_vcf +:+ " | "
           +:+ convert_step (str_replace out_vcf ".vcf.gz" ".g.vcf.gz")),
     kwargs).
Proof.
  intros Hs Hc. unfold cmd_pyexec_gvcf_combine, combine_step, convert_step.
  run_M. rewrite Hs. run_M. rewrite Hc. run_M.
  f_equal. f_equal. rewrite ?append_assoc. reflexivity.
Qed.

Lemma gvcf_combine_one_pipe
    (script cores : value) (gvcf out_vcf : string) :
  count_char pipe (py_str script) = 0 ->
  count_char pipe (py_str cores) = 0 ->
  count_char pipe gvcf = 0 ->
  count_char pipe out_vcf = 0 ->
  count_char pipe (combine_step script cores gvcf out_vcf) = 0
  /\ count_char pipe
       (convert_step (str_replace out_vcf ".vcf.gz" ".g.vcf.gz")) = 0
  /\ count_char pipe
       (combine_step script cores gvcf out_vcf +:+ " | "
          +:+ convert_step (str_replace out_vcf ".vcf.gz" ".g.vcf.gz")) = 1.
Proof.
  intros Hs Hc Hg Ho.
  assert (H1 : count_char pipe (combine_step script cores gvcf out_vcf) = 0).
  { unfold combine_step. rewrite !count_char_app, Hs, Hc, Hg, Ho.
    reflexivity. }
  assert (H2 : count_char pipe
                 (convert_step (str_replace out_vcf ".vcf.gz" ".g.vcf.gz"))
               = 0).
  { unfold convert_step. rewrite count_char_app.
    rewrite count_char_str_replace;
      [reflexivity | discriminate | reflexivity | exact Ho]. }
  split; [exact H1|]. split; [exact H2|].
  rewrite !count_char_app, H1, H2. reflexivity.
Qed.

(** C4, as stated, at two output paths. At
    [sample.vcf.gz.dir/out.vcf.gz] the path with its trailing [.vcf.gz]
    replaced is [sample.vcf.gz.dir/out.g.vcf.gz], but the conversion step
    is given [sample.g.vcf.gz.dir/out.g.vcf.gz]: every occurrence is
    replaced. At [a|b.vcf.gz] the command has three [|] characters. *)
Lemma gvcf_combine_counterexample :
  fst (cmd_pyexec_gvcf_combine "in.g.vcf.gz" "sample.vcf.gz.dir/out.vcf.gz"
         pyexec_config)
  = Ok "sentieon pyexec gvcf_combine.py -t 2 in.g.vcf.gz sample.vcf.gz.dir/out.vcf.gz - | sentieon util vcfconvert - sample.g.vcf.gz.dir/out.g.vcf.gz"
  /\ "sample.vcf.gz.dir/out.vcf.gz" = "sample.vcf.gz.dir/out" +:+ ".vcf.gz"
  /\ str_replace "sample.vcf.gz.dir/out.vcf.gz" ".vcf.gz" ".g.vcf.gz"
     <> "sample.vcf.gz.dir/out" +:+ ".g.vcf.gz"
  /\ (exists cmd,
        fst (cmd_pyexec_gvcf_combine "in.g.vcf.gz" "a|b.vcf.gz"
               pyexec_config) = Ok cmd
        /\ count_char pipe cmd = 3).
Proof.
  split; [vm_compute; reflexivity|].
  split; [reflexivity|].
  split; [vm_compute; discriminate|].
  eexists. split; vm_compute; reflexivity.
Qed.

(** C4 (amended: for inputs without [|], and for an output path in which
    [.vcf.gz] occurs only as its suffix). For every Config with
    ['gvcf_combine_py'] and ['cores'], [cmd_pyexec_gvcf_combine] returns
    the gVCF-combine invocation, [ | ], and the conversion step
    [sentieon util vcfconvert - <path>], and leaves the Config as it was.
    When [gvcf], [out_vcf] and the two Config values have no [|], neither
    step has one and the command has exactly one. When [out_vcf] is
    [<stem>.vcf.gz] and [.vcf.gz] does not occur in the stem, the path given
    to the conversion step is [<stem>.g.vcf.gz]. *)
Theorem gvcf_combine_pipe
    (gvcf out_vcf : string) (kwargs : dict) (script cores : value) :
  kwargs !! "gvcf_combine_py" = Some script ->
  kwargs !! "cores" = Some cores ->
  cmd_pyexec_gvcf_combine gvcf out_vcf kwargs
  = (Ok (combine_step script cores gvcf out_vcf +:+ " | "
           +:+ convert_step (str_replace out_vcf ".vcf.gz" ".g.vcf.gz")),
     kwargs)
  /\ (count_char pipe (py_str script) = 0 ->
      count_char pipe (py_str cores) = 0 ->
      count_char pipe gvcf = 0 ->
      count_char pipe out_vcf = 0 ->
      count_char pipe (combine_step script cores gvcf out_vcf) = 0
      /\ count_char pipe
           (convert_step (str_replace out_vcf ".vcf.gz" ".g.vcf.gz")) = 0
      /\ exists cmd,
           fst (cmd_pyexec_gvcf_combine gvcf out_vcf kwargs) = Ok cmd
           /\ count_char pipe cmd = 1)
  /\ (forall stem,
        out_vcf = stem +:+ ".vcf.gz" ->
        contains ".vcf.gz" stem = false ->
        str_replace out_vcf ".vcf.gz" ".g.vcf.gz" = stem +:+ ".g.vcf.gz").
Proof.
  intros Hs Hc. split; [|split].
  - apply gvcf_combine_run; assumption.
  - intros H1 H2 H3 H4.
    destruct (gvcf_combine_one_pipe script cores gvcf out_vcf H1 H2 H3 H4)
      as (Ha & Hb & Hab).
    split; [exact Ha|]. split; [exact Hb|].
    rewrite (gvcf_combine_run gvcf out_vcf kwargs script cores Hs Hc).
    eexists. split; [reflexivity | exact Hab].
  - intros stem -> Hstem. apply replace_vcf_gz_suffix, Hstem.
Qed.

Lemma gvcf_combine_pipe_witness :
  fst (cmd_pyexec_gvcf_combine "in.g.vcf.gz" "out.vcf.gz" pyexec_config)
  = Ok "sentieon pyexec gvcf_combine.py -t 2 in.g.vcf.gz out.vcf.gz - | sentieon util vcfconvert - out.g.vcf.gz"
  /\ (exists cmd,
        fst (cmd_pyexec_gvcf_combine "in.g.vcf.gz" "out.vcf.gz"
               pyexec_config) = Ok cmd
        /\ count_char pipe cmd = 1)
  /\ str_replace "out.vcf.gz" ".vcf.gz" ".g.vcf.gz" = "out" +:+ ".g.vcf.gz".
Proof.
  destruct (gvcf_combine_pipe "in.g.vcf.gz" "out.vcf.gz" pyexec_config
              (VStr "gvcf_combine.py") (VInt 2) eq_refl eq_refl)
    as (Heq & Hpipe & Hpath).
  split; [rewrite Heq; vm_compute; reflexivity|].
  split.
  - apply Hpipe; vm_compute; reflexivity.
  - apply Hpath; vm_compute; reflexivity.
Defined.

(** ** The haploid patch merger *)

Lemma str_mod_plain (s : string) (fmt : string) (args : list value) :
  plain s ->
  str_mod (s +:+ fmt) args
  = let? r := str_mod fmt args in Ok (s +:+ r).
Proof.
  unfold plain. induction s as [|c s IH]; intros H.
  - change ("" +:+ fmt) with fmt. destruct (str_mod fmt args); reflexivity.
  - cbn [count_char] in H.
    destruct (Ascii.eqb c "%") eqn:E; [discriminate|].
    change (String c s +:+ fmt) with (String c (s +:+ fmt)).
    cbn [str_mod]. rewrite E, IH by exact H.
    destruct (str_mod fmt args); reflexivity.
Qed.

(** A pattern with a [%d] field and then a [%s] field, as
    [out_hap%d_%stmp.vcf.gz], filled with a number and an infix. *)
Lemma str_mod_two_fields (a b c infix : string) (n : Z) :
  plain a -> plain b -> plain c ->
  str_mod (a +:+ "%d" +:+ b +:+ "%s" +:+ c) [VInt n; VStr infix]
  = Ok (a +:+ py_str (VInt n) +:+ b +:+ infix +:+ c).
Proof.
  intros Ha Hb Hc. rewrite (str_mod_plain a) by exact Ha.
  change ("%d" +:+ b +:+ "%s" +:+ c) with (String "%" (String "d" (b +:+ "%s" +:+ c))).
  cbn [str_mod Ascii.eqb Bool.eqb andb orb format_d res_bind].
  rewrite (str_mod_plain b) by exact Hb.
  change ("%s" +:+ c) with (String "%" (String "s" c)).
  cbn [str_mod Ascii.eqb Bool.eqb andb orb res_bind].
  replace c with (c +:+ "") at 1 by apply append_nil_r.
  rewrite (str_mod_plain c) by exact Hc.
  cbn [str_mod res_bind]. rewrite append_nil_r. reflexivity.
Qed.

Lemma haploid_patch_HiFi
    (hap1_patch hap2_patch hap_patt : string) (phased_vcf : value)
    (kwargs : dict) (script cores : value) (n1 n2 h1 h2 : string) :
  kwargs !! "vcf_mod_py" = Some script ->
  kwargs !! "cores" = Some cores ->
  str_mod hap_patt [VInt 1; VStr "nohp_"] = Ok n1 ->
  str_mod hap_patt [VInt 2; VStr "nohp_"] = Ok n2 ->
  str_mod hap_patt [VInt 1; VStr ""] = Ok h1 ->
  str_mod hap_patt [VInt 2; VStr ""] = Ok h2 ->
  cmd_pyexec_vcf_mod_haploid_patch hap1_patch hap2_patch hap_patt "HiFi"
    phased_vcf kwargs
  = (Ok (haploid_patch_start script cores hap1_patch hap2_patch
           +:+ " --hap1 " +:+ n1 +:+ " --hap2 " +:+ n2
           +:+ hp_clauses h1 h2),
     kwargs).
Proof.
  intros Hs Hc Hn1 Hn2 Hh1 Hh2.
  unfold cmd_pyexec_vcf_mod_haploid_patch, haploid_patch_start, hp_clauses.
  cbn [String.eqb Ascii.eqb Bool.eqb andb orb negb].
  run_M. rewrite Hs. run_M. rewrite Hc. run_M.
  rewrite Hn1. run_M. rewrite Hn2. run_M.
  rewrite Hh1. run_M. rewrite Hh2. run_M.
  f_equal. f_equal. rewrite ?append_assoc. reflexivity.
Qed.

Lemma haploid_patch_ONT
    (hap1_patch hap2_patch hap_patt : string) (phased_vcf : value)
    (kwargs : dict) (script cores : value) (h1 h2 : string) :
  kwargs !! "vcf_mod_py" = Some script ->
  kwargs !! "cores" = Some cores ->
  str_mod hap_patt [VInt 1; VStr ""] = Ok h1 ->
  str_mod hap_patt [VInt 2; VStr ""] = Ok h2 ->
  cmd_pyexec_vcf_mod_haploid_patch hap1_patch hap2_patch hap_patt "ONT"
    phased_vcf kwargs
  = (Ok (haploid_patch_start script cores hap1_patch hap2_patch
           +:+ " --phased " +:+ py_str phased_vcf +:+ hp_clauses h1 h2),
     kwargs).
Proof.
  intros Hs Hc Hh1 Hh2.
  unfold cmd_pyexec_vcf_mod_haploid_patch, haploid_patch_start, hp_clauses.
  cbn [String.eqb Ascii.eqb Bool.eqb andb orb negb].
  run_M. rewrite Hs. run_M. rewrite Hc. run_M.
  rewrite Hh1. run_M. rewrite Hh2. run_M.
  f_equal. f_equal. rewrite ?append_assoc. reflexivity.
Qed.

Lemma haploid_patch_other_tech
    (hap1_patch hap2_patch hap_patt tech : string) (phased_vcf : value)
    (kwargs : dict) :
  tech <> "HiFi" -> tech <> "ONT" ->
  cmd_pyexec_vcf_mod_haploid_patch hap1_patch hap2_patch hap_patt tech
    phased_vcf kwargs
  = (Raise AssertionError, kwargs).
Proof.
  intros H1 H2. unfold cmd_pyexec_vcf_mod_haploid_patch.
  apply String.eqb_neq in H1, H2. rewrite H1, H2. reflexivity.
Qed.

Lemma haploid_patch_HiFi_without_phased
    (script cores : value) (hap1_patch hap2_patch n1 n2 h1 h2 : string) :
  Forall (free_of "--phased")
    [py_str script; py_str cores; hap1_patch; hap2_patch; n1; n2; h1; h2] ->
  contains "--phased"
    (haploid_patch_HiFi_command script cores hap1_patch hap2_patch n1 n2
       h1 h2)
  = false.
Proof.
  intros H.
  unfold haploid_patch_HiFi_command, haploid_patch_start, hp_clauses.
  as_join ["sentieon"; "pyexec"; py_str script; "-t"; py_str cores;
           "haploid_patch"; "--patch1"; hap1_patch; "--patch2"; hap2_patch;
           "--hap1"; n1; "--hap2"; n2; "--hap1_hp"; h1; "--hap2_hp"; h2].
  apply absent_join; [reflexivity|].
  repeat match goal with
         | H : Forall _ (_ :: _) |- _ =>
             apply Forall_cons in H; destruct H as [? H]
         end.
  solve_free.
Qed.

Lemma haploid_patch_ONT_without (flag : string)
    (script cores : value) (hap1_patch hap2_patch : string)
    (phased_vcf : value) (h1 h2 : string) :
  flag = "--hap1 " \/ flag = "--hap2 " ->
  Forall (free_of flag)
    [py_str script; py_str cores; hap1_patch; hap2_patch;
     py_str phased_vcf; h1; h2] ->
  contains flag
    (haploid_patch_ONT_command script cores hap1_patch hap2_patch phased_vcf
       h1 h2)
  = false.
Proof.
  intros Hflag H.
  unfold haploid_patch_ONT_command, haploid_patch_start, hp_clauses.
  as_join ["sentieon"; "pyexec"; py_str script; "-t"; py_str cores;
           "haploid_patch"; "--patch1"; hap1_patch; "--patch2"; hap2_patch;
           "--phased"; py_str phased_vcf; "--hap1_hp"; h1; "--hap2_hp"; h2].
  repeat match goal with
         | H : Forall _ (_ :: _) |- _ =>
             apply Forall_cons in H; destruct H as [? H]
         end.
  destruct Hflag; subst flag; (apply absent_join; [reflexivity | solve_free]).
Qed.

(** C5. With the technology [HiFi] the builder returns a command with the
    clauses [ --hap1 ] and [ --hap2 ] filled from the pattern with the
    infix [nohp_], and without a [--phased] clause; with [ONT] it returns a
    command with the clause [ --phased <phased_vcf>] and without the
    clauses [--hap1 ] and [--hap2 ]; both commands end with the clauses
    [ --hap1_hp ] and [ --hap2_hp ] filled from the pattern with the empty
    infix. With any other technology the assertion fails and no string is
    returned. The commands are those of a Config with ['vcf_mod_py'] and
    ['cores'] and of a pattern that [%] can fill; a flag is absent from a
    command none of whose arguments shows it. *)
Theorem haploid_patch_branches
    (hap1_patch hap2_patch hap_patt : string) (phased_vcf : value)
    (kwargs : dict) :
  (forall script cores n1 n2 h1 h2,
     kwargs !! "vcf_mod_py" = Some script ->
     kwargs !! "cores" = Some cores ->
     str_mod hap_patt [VInt 1; VStr "nohp_"] = Ok n1 ->
     str_mod hap_patt [VInt 2; VStr "nohp_"] = Ok n2 ->
     str_mod hap_patt [VInt 1; VStr ""] = Ok h1 ->
     str_mod hap_patt [VInt 2; VStr ""] = Ok h2 ->
     let HiFi :=
       haploid_patch_HiFi_command script cores hap1_patch hap2_patch n1 n2
         h1 h2 in
     let ONT :=
       haploid_patch_ONT_command script cores hap1_patch hap2_patch
         phased_vcf h1 h2 in
     cmd_pyexec_vcf_mod_haploid_patch hap1_patch hap2_patch hap_patt "HiFi"
       phased_vcf kwargs = (Ok HiFi, kwargs)
     /\ contains (" --hap1 " +:+ n1) HiFi = true
     /\ contains (" --hap2 " +:+ n2) HiFi = true
     /\ (Forall (free_of "--phased")
           [py_str script; py_str cores; hap1_patch; hap2_patch; n1; n2;
            h1; h2] ->
         contains "--phased" HiFi = false)
     /\ cmd_pyexec_vcf_mod_haploid_patch hap1_patch hap2_patch hap_patt "ONT"
          phased_vcf kwargs = (Ok ONT, kwargs)
     /\ contains (" --phased " +:+ py_str phased_vcf) ONT = true
     /\ (Forall (free_of "--hap1 ")
           [py_str script; py_str cores; hap1_patch; hap2_patch;
            py_str phased_vcf; h1; h2] ->
         contains "--hap1 " ONT = false)
     /\ (Forall (free_of "--hap2 ")
           [py_str script; py_str cores; hap1_patch; hap2_patch;
            py_str phased_vcf; h1; h2] ->
         contains "--hap2 " ONT = false))
  /\ (forall tech,
        tech <> "HiFi" -> tech <> "ONT" ->
        cmd_pyexec_vcf_mod_haploid_patch hap1_patch hap2_patch hap_patt tech
          phased_vcf kwargs
        = (Raise AssertionError, kwargs)).
Proof.
  split.
  - intros script cores n1 n2 h1 h2 Hs Hc Hn1 Hn2 Hh1 Hh2 HiFi ONT.
    repeat apply conj.
    + eapply haploid_patch_HiFi; eassumption.
    + unfold HiFi, haploid_patch_HiFi_command.
      rewrite <- (append_assoc " --hap1 " n1). apply contains_intro.
    + unfold HiFi, haploid_patch_HiFi_command.
      rewrite <- (append_assoc " --hap2 " n2).
      rewrite <- (append_assoc " --hap1 " n1).
      rewrite <- (append_assoc _ (" --hap1 " +:+ n1)).
      apply contains_intro.
    + apply haploid_patch_HiFi_without_phased.
    + eapply haploid_patch_ONT; eassumption.
    + unfold ONT, haploid_patch_ONT_command.
      rewrite <- (append_assoc " --phased " (py_str phased_vcf)).
      apply contains_intro.
    + apply haploid_patch_ONT_without. left. reflexivity.
    + apply haploid_patch_ONT_without. right. reflexivity.
  - intros tech. apply haploid_patch_other_tech.
Qed.

Lemma haploid_patch_branches_witness :
  (cmd_pyexec_vcf_mod_haploid_patch "h1.vcf.gz" "h2.vcf.gz" doc_hap_patt
     "HiFi" VNone pyexec_config
   = (Ok "sentieon pyexec vcf_mod.py -t 2 haploid_patch --patch1 h1.vcf.gz --patch2 h2.vcf.gz --hap1 out_hap1_nohp_tmp.vcf.gz --hap2 out_hap2_nohp_tmp.vcf.gz --hap1_hp out_hap1_tmp.vcf.gz --hap2_hp out_hap2_tmp.vcf.gz",
      pyexec_config)
   /\ contains "--phased"
        "sentieon pyexec vcf_mod.py -t 2 haploid_patch --patch1 h1.vcf.gz --patch2 h2.vcf.gz --hap1 out_hap1_nohp_tmp.vcf.gz --hap2 out_hap2_nohp_tmp.vcf.gz --hap1_hp out_hap1_tmp.vcf.gz --hap2_hp out_hap2_tmp.vcf.gz"
      = false)
  /\ (cmd_pyexec_vcf_mod_haploid_patch "h1.vcf.gz" "h2.vcf.gz" doc_hap_patt
        "ONT" (VStr "ph.vcf") pyexec_config
      = (Ok "sentieon pyexec vcf_mod.py -t 2 haploid_patch --patch1 h1.vcf.gz --patch2 h2.vcf.gz --phased ph.vcf --hap1_hp out_hap1_tmp.vcf.gz --hap2_hp out_hap2_tmp.vcf.gz",
         pyexec_config)
      /\ contains "--hap1 "
           "sentieon pyexec vcf_mod.py -t 2 haploid_patch --patch1 h1.vcf.gz --patch2 h2.vcf.gz --phased ph.vcf --hap1_hp out_hap1_tmp.vcf.gz --hap2_hp out_hap2_tmp.vcf.gz"
         = false
      /\ contains "--hap2 "
           "sentieon pyexec vcf_mod.py -t 2 haploid_patch --patch1 h1.vcf.gz --patch2 h2.vcf.gz --phased ph.vcf --hap1_hp out_hap1_tmp.vcf.gz --hap2_hp out_hap2_tmp.vcf.gz"
         = false)
  /\ cmd_pyexec_vcf_mod_haploid_patch "h1.vcf.gz" "h2.vcf.gz" doc_hap_patt
       "Illumina" (VStr "ph.vcf") pyexec_config
     = (Raise AssertionError, pyexec_config).
Proof.
  assert (Hfill : forall n infix,
            str_mod doc_hap_patt [VInt n; VStr infix]
            = Ok ("out_hap" +:+ py_str (VInt n) +:+ "_" +:+ infix
                    +:+ "tmp.vcf.gz")).
  { intros n infix.
    exact (str_mod_two_fields "out_hap" "_" "tmp.vcf.gz" infix n
             eq_refl eq_refl eq_refl). }
  split; [|split].
  - destruct (haploid_patch_branches "h1.vcf.gz" "h2.vcf.gz" doc_hap_patt
                VNone pyexec_config) as [H _].
    destruct (H (VStr "vcf_mod.py") (VInt 2) _ _ _ _ eq_refl eq_refl
                (Hfill 1%Z "nohp_") (Hfill 2%Z "nohp_")
                (Hfill 1%Z "") (Hfill 2%Z ""))
      as (Heq & _ & _ & Habs & _).
    split; [exact Heq|].
    apply Habs. repeat constructor.
  - destruct (haploid_patch_branches "h1.vcf.gz" "h2.vcf.gz" doc_hap_patt
                (VStr "ph.vcf") pyexec_config) as [H _].
    destruct (H (VStr "vcf_mod.py") (VInt 2) _ _ _ _ eq_refl eq_refl
                (Hfill 1%Z "nohp_") (Hfill 2%Z "nohp_")
                (Hfill 1%Z "") (Hfill 2%Z ""))
      as (_ & _ & _ & _ & Heq & _ & Habs1 & Habs2).
    split; [exact Heq|].
    split; [apply Habs1 | apply Habs2]; repeat constructor.
  - apply (haploid_patch_branches "h1.vcf.gz" "h2.vcf.gz" doc_hap_patt
             (VStr "ph.vcf") pyexec_config); discriminate.
Defined.

(** ** Region subtraction *)

Example bedtools_subtract_given_regions :
  cmd_bedtools_subtract (VStr "regions.bed") "phased.bed" "unphased.bed"
    subtract_config doc_fs
  = (Ok "bedtools subtract -a regions.bed -b phased.bed > unphased.bed",
     doc_fs).
Proof. vm_compute. reflexivity. Qed.

Example bedtools_subtract_whole_genome :
  fst (cmd_bedtools_subtract VNone "phased.bed" "unphased.bed"
         subtract_config doc_fs)
  = Ok "bedtools subtract -a /tmp/work_reference.bed -b phased.bed > unphased.bed"
  /\ text_of (snd (cmd_bedtools_subtract VNone "phased.bed" "unphased.bed"
                     subtract_config doc_fs)) "/tmp/work_reference.bed"
     = Some (bed_content doc_index).
Proof. split; vm_compute; reflexivity. Qed.

(** Without the directory of the region file the open fails, before
    ['reference'] is looked up, and no file is created. *)
Example bedtools_subtract_no_directory :
  cmd_bedtools_subtract VNone "phased.bed" "unphased.bed" subtract_config
    no_tmp_fs
  = (Raise (FileNotFoundError "/tmp/work_reference.bed"), no_tmp_fs)
  /\ cmd_bedtools_subtract VNone "phased.bed" "unphased.bed"
       (delete "reference" subtract_config) no_tmp_fs
     = (Raise (FileNotFoundError "/tmp/work_reference.bed"), no_tmp_fs).
Proof. split; vm_compute; reflexivity. Qed.

Lemma none_of_weaken (p q : ascii -> bool) (s : string) :
  (forall c, q c = true -> p c = true) ->
  none_of p s = true -> none_of q s = true.
Proof.
  intros Hpq. induction s as [|c s IH]; [reflexivity|].
  cbn [none_of]. intros H. apply andb_true_iff in H as [Hc Hs].
  apply andb_true_iff. split; [|apply IH, Hs].
  destruct (q c) eqn:E; [|reflexivity].
  rewrite (Hpq c E) in Hc. discriminate.
Qed.

Lemma break_is_space (c : ascii) : is_break c = true -> is_space c = true.
Proof.
  unfold is_break, is_line_end. intros H.
  apply orb_true_iff in H as [H|H]; [|apply orb_true_iff in H as [H|H]];
    apply Ascii.eqb_eq in H; subst c; reflexivity.
Qed.

Lemma line_end_is_break (c : ascii) :
  is_line_end c = true -> is_break c = true.
Proof. unfold is_break. intros ->. apply orb_true_r. Qed.

Lemma tab_is_break (c : ascii) : Ascii.eqb c tab = true -> is_break c = true.
Proof. unfold is_break. intros ->. reflexivity. Qed.

Lemma none_of_app (p : ascii -> bool) (a b : string) :
  none_of p (a +:+ b) = none_of p a && none_of p b.
Proof.
  induction a as [|c a IH]; [reflexivity|].
  change (String c a +:+ b) with (String c (a +:+ b)).
  cbn [none_of]. rewrite IH, andb_assoc. reflexivity.
Qed.

(** *** Reading the index line by line *)

Lemma file_lines_line (l rest : string) :
  none_of is_line_end l = true ->
  file_lines (l +:+ String newline rest)
  = (l +:+ String newline "") :: file_lines rest.
Proof.
  induction l as [|c l IH]; intros H.
  - change ("" +:+ String newline rest) with (String newline rest).
    cbn [file_lines]. rewrite Ascii.eqb_refl. reflexivity.
  - cbn [none_of] in H. apply andb_true_iff in H as [Hc Hl].
    unfold is_line_end in Hc. apply negb_true_iff in Hc.
    apply orb_false_iff in Hc as [Hnl Hcr].
    change (String c l +:+ String newline rest)
      with (String c (l +:+ String newline rest)).
    cbn [file_lines]. rewrite Hnl, Hcr, (IH Hl). reflexivity.
Qed.

Lemma file_lines_concat (bodies : list string) (rest : string) :
  forallb (none_of is_line_end) bodies = true ->
  file_lines
    (concat_lines (map (fun b => b +:+ String newline "") bodies) +:+ rest)
  = (map (fun b => b +:+ String newline "") bodies ++ file_lines rest)%list.
Proof.
  induction bodies as [|b bodies IH]; intros H; [reflexivity|].
  cbn [forallb] in H. apply andb_true_iff in H as [Hb Hbs].
  cbn [map concat_lines]. rewrite !append_assoc.
  change (String newline "" +:+
            concat_lines (map (fun b0 => b0 +:+ String newline "") bodies)
            +:+ rest)
    with (String newline
            (concat_lines (map (fun b0 => b0 +:+ String newline "") bodies)
               +:+ rest)).
  rewrite (file_lines_line b _ Hb), (IH Hbs). reflexivity.
Qed.

(** *** Stripping and splitting a line *)

Lemma last_char_app (a b : string) :
  b <> "" -> last_char (a +:+ b) = last_char b.
Proof.
  intros Hb. induction a as [|c a IH]; [reflexivity|].
  change (String c a +:+ b) with (String c (a +:+ b)).
  cbn [last_char]. rewrite IH.
  destruct b as [|d b]; [contradiction|]. cbn [last_char].
  destruct (last_char b); reflexivity.
Qed.

Lemma last_char_field (s : string) :
  is_field s = true ->
  exists d, last_char s = Some d /\ is_space d = false.
Proof.
  unfold is_field. intros H. apply andb_true_iff in H as [Hne Hs].
  induction s as [|c s IH]; [discriminate|].
  cbn [none_of] in Hs. apply andb_true_iff in Hs as [Hc Hs].
  apply negb_true_iff in Hc.
  destruct s as [|c' s].
  - exists c. split; [reflexivity | exact Hc].
  - destruct (IH eq_refl Hs) as (d & Hd & Hsp).
    exists d. split; [|exact Hsp].
    change (last_char (String c (String c' s)))
      with (match last_char (String c' s) with
            | Some d => Some d
            | None => Some c
            end).
    rewrite Hd. reflexivity.
Qed.

Lemma rstrip_app (a b : string) :
  (exists d, last_char a = Some d /\ is_space d = false) ->
  rstrip (a +:+ b) = a +:+ rstrip b.
Proof.
  induction a as [|x a IH]; intros (d & Hd & Hsp); [discriminate|].
  change (String x a +:+ b) with (String x (a +:+ b)).
  change (String x a +:+ rstrip b) with (String x (a +:+ rstrip b)).
  cbn [rstrip]. destruct a as [|y a].
  - cbn [last_char] in Hd. injection Hd as ->.
    change ("" +:+ b) with b. change ("" +:+ rstrip b) with (rstrip b).
    rewrite Hsp. destruct (rstrip b); reflexivity.
  - rewrite IH.
    + reflexivity.
    + exists d. split; [|exact Hsp].
      change (last_char (String x (String y a)))
        with (match last_char (String y a) with
              | Some d => Some d
              | None => Some x
              end) in Hd.
      destruct (last_char (String y a)) eqn:E; [exact Hd|].
      cbn [last_char] in E. destruct (last_char a); discriminate.
Qed.

Lemma rstrip_head (c : ascii) (s : string) :
  rstrip (String c s) = "" \/ exists t, rstrip (String c s) = String c t.
Proof.
  cbn [rstrip]. destruct (rstrip s) as [|c' r].
  - destruct (is_space c); [left; reflexivity | right; eexists; reflexivity].
  - right. eexists. reflexivity.
Qed.

Lemma lstrip_field (s rest : string) :
  is_field s = true -> lstrip (s +:+ rest) = s +:+ rest.
Proof.
  unfold is_field. intros H. apply andb_true_iff in H as [Hne Hs].
  destruct s as [|c s]; [discriminate|].
  cbn [none_of] in Hs. apply andb_true_iff in Hs as [Hc _].
  apply negb_true_iff in Hc.
  change (String c s +:+ rest) with (String c (s +:+ rest)).
  cbn [lstrip]. rewrite Hc. reflexivity.
Qed.

Lemma str_split_field (sep : ascii) (f rest : string) :
  none_of (fun c => Ascii.eqb c sep) f = true ->
  str_split sep (f +:+ String sep rest) = f :: str_split sep rest.
Proof.
  induction f as [|c f IH]; intros H.
  - change ("" +:+ String sep rest) with (String sep rest).
    cbn [str_split]. rewrite Ascii.eqb_refl. reflexivity.
  - cbn [none_of] in H. apply andb_true_iff in H as [Hc Hf].
    apply negb_true_iff in Hc.
    change (String c f +:+ String sep rest)
      with (String c (f +:+ String sep rest)).
    cbn [str_split]. rewrite Hc, (IH Hf). reflexivity.
Qed.

Lemma str_split_last (sep : ascii) (f : string) :
  none_of (fun c => Ascii.eqb c sep) f = true ->
  str_split sep f = [f].
Proof.
  induction f as [|c f IH]; intros H; [reflexivity|].
  cbn [none_of] in H. apply andb_true_iff in H as [Hc Hf].
  apply negb_true_iff in Hc.
  cbn [str_split]. rewrite Hc, (IH Hf). reflexivity.
Qed.

Lemma field_no_tab (s : string) :
  is_field s = true -> none_of (fun c => Ascii.eqb c tab) s = true.
Proof.
  unfold is_field. intros H. apply andb_true_iff in H as [_ H].
  apply (none_of_weaken is_space); [|exact H].
  intros c Hc. apply break_is_space, tab_is_break, Hc.
Qed.

Lemma field_no_break (s : string) :
  is_field s = true -> none_of is_break s = true.
Proof.
  unfold is_field. intros H. apply andb_true_iff in H as [_ H].
  apply (none_of_weaken is_space); [apply break_is_space | exact H].
Qed.

(** Brings both sides of an equation between strings to the same
    nesting of [+:+]. *)
Ltac str_norm :=
  repeat (progress (rewrite ?append_assoc, ?append_nil_r;
                    cbn [String.append])).

Lemma join_tab_cons (c d : string) (rest : list string) :
  join_tab (c :: d :: rest) = c +:+ String tab (join_tab (d :: rest)).
Proof. reflexivity. Qed.

Lemma join_tab_no_line_end (cols : list string) :
  forallb (none_of is_break) cols = true ->
  none_of is_line_end (join_tab cols) = true.
Proof.
  induction cols as [|c cols IH]; intros H; [reflexivity|].
  cbn [forallb] in H. apply andb_true_iff in H as [Hc Hcols].
  assert (Hc' : none_of is_line_end c = true).
  { apply (none_of_weaken is_break); [apply line_end_is_break | exact Hc]. }
  destruct cols as [|d cols]; [exact Hc'|].
  rewrite join_tab_cons, none_of_app, Hc'.
  cbn [none_of andb]. rewrite (IH Hcols). reflexivity.
Qed.

Lemma wf_row_columns (row : list string) :
  wf_row row = true -> forallb (none_of is_break) row = true.
Proof.
  destruct row as [|contig [|len rest]]; try discriminate.
  cbn [wf_row forallb]. intros H.
  apply andb_true_iff in H as [H Hrest].
  apply andb_true_iff in H as [Hc Hl].
  rewrite (field_no_break contig Hc), (field_no_break len Hl), Hrest.
  reflexivity.
Qed.

(** The index is read back row by row. *)
Lemma file_lines_fai (rows : list (list string)) :
  forallb wf_row rows = true ->
  file_lines (fai_content rows) = map fai_line rows.
Proof.
  intros H. unfold fai_content.
  assert (Hmap : map fai_line rows
                 = map (fun b => b +:+ String newline "") (map join_tab rows)).
  { rewrite map_map. reflexivity. }
  rewrite Hmap. rewrite <- (append_nil_r (concat_lines _)).
  rewrite file_lines_concat; [apply app_nil_r|].
  clear Hmap. induction rows as [|row rows IH]; [reflexivity|].
  cbn [forallb map] in H |- *. apply andb_true_iff in H as [Hrow Hrows].
  rewrite (join_tab_no_line_end row (wf_row_columns row Hrow)), (IH Hrows).
  reflexivity.
Qed.

(** The first two fields of a stripped and split index line are the contig
    name and the contig length. *)
Lemma fai_line_tokens (contig len : string) (rest : list string) :
  wf_row (contig :: len :: rest) = true ->
  exists more,
    str_split tab (strip (fai_line (contig :: len :: rest)))
    = contig :: len :: more.
Proof.
  cbn [wf_row]. intros H.
  apply andb_true_iff in H as [H _]. apply andb_true_iff in H as [Hc Hl].
  set (T := match rest with
            | [] => String newline ""
            | _ => String tab (join_tab rest +:+ String newline "")
            end).
  assert (Hline : fai_line (contig :: len :: rest)
                  = contig +:+ (String tab len +:+ T)).
  { unfold fai_line, T. rewrite join_tab_cons.
    destruct rest as [|d rest].
    - cbn [join_tab]. str_norm. reflexivity.
    - rewrite join_tab_cons. str_norm. reflexivity. }
  rewrite Hline. unfold strip. rewrite (lstrip_field contig _ Hc).
  rewrite <- append_assoc.
  rewrite rstrip_app.
  2:{ destruct (last_char_field len Hl) as (d & Hd & Hsp).
      exists d. split; [|exact Hsp].
      rewrite last_char_app by discriminate.
      cbn [last_char]. rewrite Hd. reflexivity. }
  assert (HT : rstrip T = "" \/ exists t, rstrip T = String tab t).
  { unfold T. destruct rest as [|d rest].
    - left. reflexivity.
    - apply rstrip_head. }
  rewrite append_assoc.
  change (String tab len +:+ rstrip T) with (String tab (len +:+ rstrip T)).
  rewrite (str_split_field tab contig _ (field_no_tab contig Hc)).
  destruct HT as [-> | (t & ->)].
  - rewrite append_nil_r, (str_split_last tab len (field_no_tab len Hl)).
    exists []. reflexivity.
  - rewrite (str_split_field tab len _ (field_no_tab len Hl)).
    eexists. reflexivity.
Qed.

(** The loop writes one region line per row of a well-formed index. *)
Lemma write_regions_wf (rows : list (list string)) (written : string) :
  forallb wf_row rows = true ->
  write_regions (map fai_line rows) written
  = (Ok tt, written +:+ bed_content rows).
Proof.
  revert written. induction rows as [|row rows IH]; intros written H.
  - cbn. rewrite append_nil_r. reflexivity.
  - cbn [forallb] in H. apply andb_true_iff in H as [Hrow Hrows].
    destruct row as [|contig [|len rest]]; try discriminate.
    destruct (fai_line_tokens contig len rest Hrow) as [more Htok].
    cbn [map write_regions]. rewrite Htok.
    cbn [list_getitem lookup list_lookup res_bind].
    rewrite (IH _ Hrows). unfold bed_content. cbn [map concat_lines bed_line].
    rewrite !append_assoc. reflexivity.
Qed.

(** The region file is read back line by line. *)
Lemma file_lines_bed (rows : list (list string)) :
  forallb wf_row rows = true ->
  file_lines (bed_content rows) = map bed_line rows.
Proof.
  intros H. unfold bed_content.
  assert (Hb : exists bodies,
            map bed_line rows
            = map (fun b => b +:+ String newline "") bodies
            /\ forallb (none_of is_line_end) bodies = true).
  { induction rows as [|row rows IH]; [exists []; split; reflexivity|].
    cbn [forallb] in H. apply andb_true_iff in H as [Hrow Hrows].
    destruct (IH Hrows) as (bodies & Hmap & Hbodies).
    destruct row as [|contig [|len rest]]; try discriminate.
    cbn [wf_row] in Hrow.
    apply andb_true_iff in Hrow as [Hrow _].
    apply andb_true_iff in Hrow as [Hc Hl].
    exists ((contig +:+ String tab "0" +:+ String tab len) :: bodies).
    split.
    - cbn [map bed_line]. rewrite Hmap. f_equal.
      rewrite !append_assoc. reflexivity.
    - cbn [forallb]. rewrite Hbodies, andb_true_r.
      rewrite !none_of_app.
      assert (Hc' := none_of_weaken is_break is_line_end contig
                       line_end_is_break (field_no_break contig Hc)).
      assert (Hl' := none_of_weaken is_break is_line_end len
                       line_end_is_break (field_no_break len Hl)).
      cbn [none_of]. rewrite Hc', Hl'. reflexivity. }
  destruct Hb as (bodies & -> & Hbodies).
  rewrite <- (append_nil_r (concat_lines _)).
  rewrite file_lines_concat; [apply app_nil_r | exact Hbodies].
Qed.

(** Writing to a file twice keeps the second text; a path that names the
    written file reads the new text, every other path what it read. *)
Lemma set_text_twice (fs : filesystem) (path a b : string) :
  set_text (set_text fs path a) path b = set_text fs path b.
Proof. unfold set_text. cbn. f_equal. apply insert_insert_eq. Qed.

Lemma text_of_set_text_same (fs : filesystem) (path other text : string) :
  file_of fs other = file_of fs path ->
  text_of (set_text fs path text) other = Some text.
Proof.
  intros H. unfold text_of, set_text. cbn. rewrite H. apply lookup_insert_eq.
Qed.

Lemma text_of_set_text_other (fs : filesystem) (path other text : string) :
  file_of fs other <> file_of fs path ->
  text_of (set_text fs path text) other = text_of fs other.
Proof.
  intros H. unfold text_of, set_text. cbn. apply lookup_insert_ne. congruence.
Qed.

(** The whole-genome branch up to the loop: with the two keys, a region
    file that opens for writing and an index, another file, that opens for
    reading, the builder runs the loop on the lines of the index and closes
    the region file on what the loop wrote. *)
Lemma bedtools_subtract_loop
    (phased_bed unphased_bed : string) (kwargs : dict) (fs : filesystem)
    (tmp_base reference : value) (ref_path index : string) :
  kwargs !! "tmp_base" = Some tmp_base ->
  kwargs !! "reference" = Some reference ->
  name reference = VStr ref_path ->
  open_write_fault fs (py_str tmp_base +:+ "_reference.bed") = None ->
  file_of fs (ref_path +:+ ".fai")
  <> file_of fs (py_str tmp_base +:+ "_reference.bed") ->
  open_read_fault fs (ref_path +:+ ".fai") = None ->
  text_of fs (ref_path +:+ ".fai") = Some index ->
  cmd_bedtools_subtract VNone phased_bed unphased_bed kwargs fs
  = close_written
      (set_text fs (py_str tmp_base +:+ "_reference.bed") "")
      (py_str tmp_base +:+ "_reference.bed")
      (snd (write_regions (file_lines index) ""))
      (let? _ := fst (write_regions (file_lines index) "") in
       Ok ("bedtools subtract -a " +:+ (py_str tmp_base +:+ "_reference.bed")
             +:+ " -b " +:+ phased_bed +:+ " > " +:+ unphased_bed)).
Proof.
  intros Htb Href Hname Hw Hne Hr Hfai.
  unfold cmd_bedtools_subtract, getitem, open_write, res_bind.
  rewrite Htb, Hw, Href, Hname. cbn [add_str].
  unfold open_read. cbn [open_read_fault set_text]. rewrite Hr.
  fold (set_text fs (py_str tmp_base +:+ "_reference.bed") "").
  rewrite (text_of_set_text_other _ _ _ _ Hne), Hfai.
  destruct (write_regions (file_lines index) "") as [[u|e] written];
    cbn [fst snd]; [|reflexivity].
  f_equal. f_equal. cbn [name hasattr_name py_str]. str_norm. reflexivity.
Qed.

(** The whole-genome branch for an index that reads as the lines of
    well-formed rows, whatever its line ends, when the region file takes
    the text. *)
Lemma bedtools_subtract_lines_run
    (phased_bed unphased_bed : string) (kwargs : dict) (fs : filesystem)
    (tmp_base reference : value) (ref_path index : string)
    (rows : list (list string)) :
  kwargs !! "tmp_base" = Some tmp_base ->
  kwargs !! "reference" = Some reference ->
  name reference = VStr ref_path ->
  open_write_fault fs (py_str tmp_base +:+ "_reference.bed") = None ->
  on_close fs (py_str tmp_base +:+ "_reference.bed") (bed_content rows)
  = (None, bed_content rows) ->
  file_of fs (ref_path +:+ ".fai")
  <> file_of fs (py_str tmp_base +:+ "_reference.bed") ->
  open_read_fault fs (ref_path +:+ ".fai") = None ->
  text_of fs (ref_path +:+ ".fai") = Some index ->
  file_lines index = map fai_line rows ->
  forallb wf_row rows = true ->
  cmd_bedtools_subtract VNone phased_bed unphased_bed kwargs fs
  = (Ok ("bedtools subtract -a " +:+ (py_str tmp_base +:+ "_reference.bed")
           +:+ " -b " +:+ phased_bed +:+ " > " +:+ unphased_bed),
     set_text fs (py_str tmp_base +:+ "_reference.bed") (bed_content rows)).
Proof.
  intros Htb Href Hname Hw Hc Hne Hr Hfai Hlines Hwf.
  rewrite (bedtools_subtract_loop _ _ _ _ _ _ _ _ Htb Href Hname Hw Hne Hr
             Hfai).
  rewrite Hlines, (write_regions_wf rows "" Hwf).
  change ("" +:+ bed_content rows) with (bed_content rows).
  unfold close_written. cbn [fst snd res_bind on_close set_text].
  rewrite Hc. fold (set_text fs (py_str tmp_base +:+ "_reference.bed") "").
  rewrite set_text_twice. reflexivity.
Qed.

(** C6. With [regions_bed] [None], a Config with ['tmp_base'] and a
    ['reference'] that resolves to a path, a region file
    [<tmp_base>_reference.bed] that can be opened for writing and takes
    the text written to it, and a well-formed index at
    [<resolved reference>.fai] that can be opened for reading and is
    another file than the region file, [cmd_bedtools_subtract] writes the
    region file and returns the [bedtools subtract] command whose [-a]
    argument is that file. The file has one line per row of the index, the
    line [<contig name>\t0\t<contig length>\n] made of the first two
    columns of the row, so it has as many lines as the index has contigs;
    no other file changes; and running the builder again, on the file
    system it left, returns the same command and leaves the same file
    system. *)
Theorem whole_genome_region_file
    (phased_bed unphased_bed : string) (kwargs : dict) (fs : filesystem)
    (tmp_base reference : value) (ref_path : string)
    (rows : list (list string)) :
  kwargs !! "tmp_base" = Some tmp_base ->
  kwargs !! "reference" = Some reference ->
  name reference = VStr ref_path ->
  open_write_fault fs (py_str tmp_base +:+ "_reference.bed") = None ->
  on_close fs (py_str tmp_base +:+ "_reference.bed") (bed_content rows)
  = (None, bed_content rows) ->
  file_of fs (ref_path +:+ ".fai")
  <> file_of fs (py_str tmp_base +:+ "_reference.bed") ->
  open_read_fault fs (ref_path +:+ ".fai") = None ->
  text_of fs (ref_path +:+ ".fai") = Some (fai_content rows) ->
  forallb wf_row rows = true ->
  let region_file := py_str tmp_base +:+ "_reference.bed" in
  let cmd :=
    "bedtools subtract -a " +:+ region_file +:+ " -b " +:+ phased_bed
      +:+ " > " +:+ unphased_bed in
  let fs' := set_text fs region_file (bed_content rows) in
  cmd_bedtools_subtract VNone phased_bed unphased_bed kwargs fs
  = (Ok cmd, fs')
  /\ text_of fs' region_file = Some (bed_content rows)
  /\ file_lines (bed_content rows) = map bed_line rows
  /\ length (file_lines (bed_content rows))
     = length (file_lines (fai_content rows))
  /\ length (file_lines (bed_content rows)) = length rows
  /\ (forall path,
        file_of fs path <> file_of fs region_file ->
        text_of fs' path = text_of fs path)
  /\ cmd_bedtools_subtract VNone phased_bed unphased_bed kwargs fs'
     = (Ok cmd, fs').
Proof.
  intros Htb Href Hname Hw Hc Hne Hr Hfai Hwf region_file cmd fs'.
  repeat apply conj.
  - apply (bedtools_subtract_lines_run _ _ _ _ _ _ _ _ _
             Htb Href Hname Hw Hc Hne Hr Hfai (file_lines_fai rows Hwf) Hwf).
  - apply text_of_set_text_same. reflexivity.
  - apply file_lines_bed, Hwf.
  - rewrite (file_lines_bed rows Hwf), (file_lines_fai rows Hwf).
    rewrite !length_map. reflexivity.
  - rewrite (file_lines_bed rows Hwf). apply length_map.
  - intros path Hpath. apply text_of_set_text_other, Hpath.
  - assert (Hfai' : text_of fs' (ref_path +:+ ".fai")
                    = Some (fai_content rows)).
    { unfold fs'. rewrite (text_of_set_text_other _ _ _ _ Hne). exact Hfai. }
    rewrite (bedtools_subtract_lines_run _ _ _ fs' _ _ _ _ _
               Htb Href Hname Hw Hc Hne Hr Hfai' (file_lines_fai rows Hwf)
               Hwf).
    unfold fs'. fold region_file. rewrite set_text_twice. reflexivity.
Qed.

Lemma whole_genome_region_file_witness :
  cmd_bedtools_subtract VNone "phased.bed" "unphased.bed" subtract_config
    doc_fs
  = (Ok "bedtools subtract -a /tmp/work_reference.bed -b phased.bed > unphased.bed",
     set_text doc_fs "/tmp/work_reference.bed" (bed_content doc_index))
  /\ length (file_lines (bed_content doc_index)) = 2.
Proof.
  destruct (whole_genome_region_file "phased.bed" "unphased.bed"
              subtract_config doc_fs (VStr "/tmp/work") (VStr "ref.fasta")
              "ref.fasta" doc_index)
    as (Hrun & _ & _ & _ & Hlen & _);
    [reflexivity | reflexivity | reflexivity | reflexivity | reflexivity
    | discriminate | reflexivity | reflexivity | reflexivity |].
  split; [exact Hrun | exact Hlen].
Defined.

(** ** The remaining builders on the Configs of the doctests *)

Example variant_phaser_example :
  fst (cmd_variant_phaser "in.vcf.gz" "phased.bed" "phased.vcf.gz"
         "phased.ext" doc_config)
  = Ok "sentieon driver -t 4 -r ref.fasta  -i sample.bam --algo VariantPhaser -v in.vcf.gz --max_depth 1000 --out_bed phased.bed --out_ext phased.ext phased.vcf.gz ".
Proof. vm_compute. reflexivity. Qed.

Example model_apply_example :
  fst (cmd_model_apply "model" "in.vcf.gz" "out.vcf.gz" doc_config)
  = Ok "sentieon driver -t 4 -r ref.fasta --algo DNAModelApply --model model -v in.vcf.gz out.vcf.gz".
Proof. vm_compute. reflexivity. Qed.

Example vcf_mod_patch_example :
  fst (cmd_pyexec_vcf_mod_patch "out.vcf.gz" "in.vcf.gz" "hp.vcf.gz"
         pyexec_config)
  = Ok "sentieon pyexec vcf_mod.py -t 2 patch --vcf in.vcf.gz --vcf_hp hp.vcf.gz out.vcf.gz".
Proof. vm_compute. reflexivity. Qed.

Example vcf_mod_merge_example :
  fst (cmd_pyexec_vcf_mod_merge "h1.vcf.gz" "h2.vcf.gz" "un.vcf.gz"
         "ph.vcf.gz" "ph.bed" "out.vcf.gz" pyexec_config)
  = Ok "sentieon pyexec vcf_mod.py -t 2 merge --hap1 h1.vcf.gz --hap2 h2.vcf.gz --unphased un.vcf.gz --phased ph.vcf.gz --bed ph.bed out.vcf.gz".
Proof. vm_compute. reflexivity. Qed.

(** The two doctests of [cmd_pyexec_vcf_mod_haploid_patch]. *)
Example haploid_patch_doctests :
  (exists cmd,
     fst (cmd_pyexec_vcf_mod_haploid_patch "h1.vcf.gz" "h2.vcf.gz"
            doc_hap_patt "HiFi" VNone
            (<["cores" := VInt 2]> (<["vcf_mod_py" := VStr "vcf_mod.py"]> ∅)))
     = Ok cmd
     /\ contains "--hap1 " cmd = true)
  /\ (exists cmd,
        fst (cmd_pyexec_vcf_mod_haploid_patch "h1.vcf.gz" "h2.vcf.gz"
               doc_hap_patt "ONT" (VStr "ph.vcf")
               (<["cores" := VInt 2]>
                  (<["vcf_mod_py" := VStr "vcf_mod.py"]> ∅)))
        = Ok cmd
        /\ contains "--hap1 " cmd = false).
Proof. split; eexists; split; vm_compute; reflexivity. Qed.

(** A malformed index: the second line has one field only. The builder
    raises [IndexError], and the region file keeps the line written before. *)
Example bedtools_subtract_short_line :
  cmd_bedtools_subtract VNone "phased.bed" "unphased.bed" subtract_config
    (plain_fs
       (<["ref.fasta.fai" :=
            fai_content [["chr1"; "100"; "5"; "60"; "61"]; ["chr2"]]]> ∅))
  = (Raise IndexError,
     plain_fs
       (<["/tmp/work_reference.bed" := bed_content [["chr1"; "100"]]]>
          (<["ref.fasta.fai" :=
               fai_content [["chr1"; "100"; "5"; "60"; "61"]; ["chr2"]]]> ∅))).
Proof. vm_compute. reflexivity. Qed.

(** * Further properties of the builders *)

(** ** The driver: when it returns, what it reads *)

(** The driver, by the keys it finds: the two clauses computed first never
    fail, and the three subscripts are tried in the order [cores],
    [reference], [sample_input]. *)
Lemma driver_run (bed_key : option string) (skip : bool) (kwargs : dict) :
  cmd_sentieon_driver bed_key skip kwargs
  = match kwargs !! "cores" with
    | None => Raise (KeyError "cores")
    | Some _ =>
        match kwargs !! "reference" with
        | None => Raise (KeyError "reference")
        | Some _ =>
            if skip then Ok (driver_command truthy bed_key skip kwargs)
            else
              match kwargs !! "sample_input" with
              | None => Raise (KeyError "sample_input")
              | Some _ => Ok (driver_command truthy bed_key skip kwargs)
              end
        end
    end.
Proof.
  destruct (kwargs !! "cores") as [c|] eqn:Hc.
  - destruct (kwargs !! "reference") as [r|] eqn:Hr.
    + destruct skip.
      * apply driver_exact; [eexists; eassumption.. | discriminate].
      * destruct (kwargs !! "sample_input") as [s|] eqn:Hs.
        -- apply driver_exact; eauto.
        -- unfold_driver. rewrite Hc, Hr, Hs.
           destruct bed_key as [k|];
             [destruct (kwargs !! k) as [[]|]|];
             (destruct (kwargs !! "read-filter") as [rf|];
              [destruct (truthy rf)|]); reflexivity.
    + unfold_driver. rewrite Hc, Hr.
      destruct bed_key as [k|];
        [destruct (kwargs !! k) as [[]|]|];
        (destruct (kwargs !! "read-filter") as [rf|];
         [destruct (truthy rf)|]); reflexivity.
  - unfold_driver. rewrite Hc.
    destruct bed_key as [k|];
      [destruct (kwargs !! k) as [[]|]|];
      (destruct (kwargs !! "read-filter") as [rf|];
       [destruct (truthy rf)|]); reflexivity.
Qed.

(** X1. [cmd_sentieon_driver] returns a command exactly when the Config
    has ['cores'], ['reference'] and, unless the sample input is skipped,
    ['sample_input']; otherwise it raises [KeyError] for the first of these
    keys, in this order, that is missing. Nothing else makes it fail: not
    the region key, not the read filter, not the type of a value. *)
Theorem driver_returns_iff
    (bed_key : option string) (skip : bool) (kwargs : dict) :
  ((exists cmd, cmd_sentieon_driver bed_key skip kwargs = Ok cmd)
   <-> is_Some (kwargs !! "cores")
       /\ is_Some (kwargs !! "reference")
       /\ (skip = false -> is_Some (kwargs !! "sample_input")))
  /\ (kwargs !! "cores" = None ->
      cmd_sentieon_driver bed_key skip kwargs = Raise (KeyError "cores"))
  /\ (is_Some (kwargs !! "cores") ->
      kwargs !! "reference" = None ->
      cmd_sentieon_driver bed_key skip kwargs = Raise (KeyError "reference"))
  /\ (is_Some (kwargs !! "cores") ->
      is_Some (kwargs !! "reference") ->
      skip = false ->
      kwargs !! "sample_input" = None ->
      cmd_sentieon_driver bed_key skip kwargs
      = Raise (KeyError "sample_input")).
Proof.
  rewrite driver_run. repeat apply conj.
  - intros [cmd H].
    destruct (kwargs !! "cores"); [|discriminate].
    destruct (kwargs !! "reference"); [|discriminate].
    split; [eauto|]. split; [eauto|]. intros ->.
    destruct (kwargs !! "sample_input"); [eauto | discriminate].
  - intros ([c ->] & [r ->] & Hs). destruct skip; [eauto|].
    destruct (Hs eq_refl) as [s ->]. eauto.
  - intros ->. reflexivity.
  - intros [c ->] ->. reflexivity.
  - intros [c ->] [r ->] -> ->. reflexivity.
Qed.

Lemma driver_returns_iff_witness :
  (exists cmd, cmd_sentieon_driver None true (delete "sample_input" doc_config)
               = Ok cmd)
  /\ cmd_sentieon_driver None false (delete "cores" (delete "reference" doc_config))
     = Raise (KeyError "cores")
  /\ cmd_sentieon_driver None false (delete "reference" doc_config)
     = Raise (KeyError "reference")
  /\ cmd_sentieon_driver None false (delete "sample_input" doc_config)
     = Raise (KeyError "sample_input").
Proof.
  repeat apply conj.
  - apply (proj1 (driver_returns_iff None true
                    (delete "sample_input" doc_config))).
    repeat split; try (eexists; reflexivity). discriminate.
  - apply (driver_returns_iff None false
             (delete "cores" (delete "reference" doc_config))).
    reflexivity.
  - apply (driver_returns_iff None false (delete "reference" doc_config));
      [eexists; reflexivity | reflexivity].
  - apply (driver_returns_iff None false (delete "sample_input" doc_config));
      try (eexists; reflexivity); reflexivity.
Defined.

Ltac unfold_driver_command :=
  unfold driver_command, region_clause, sample_clause, read_filter_clause,
    dict_get, dict_get_default.

(** Two Configs that agree on what the driver looks up give the same
    result. *)
Lemma driver_agree
    (bed_key : option string) (skip : bool) (kwargs kwargs' : dict) :
  kwargs' !! "cores" = kwargs !! "cores" ->
  kwargs' !! "reference" = kwargs !! "reference" ->
  kwargs' !! "read-filter" = kwargs !! "read-filter" ->
  (skip = false -> kwargs' !! "sample_input" = kwargs !! "sample_input") ->
  (forall k, bed_key = Some k -> kwargs' !! k = kwargs !! k) ->
  cmd_sentieon_driver bed_key skip kwargs'
  = cmd_sentieon_driver bed_key skip kwargs.
Proof.
  intros Hc Hr Hf Hs Hb. rewrite !driver_run. unfold_driver_command.
  rewrite Hc, Hr, Hf.
  assert (Hbed :
    match bed_key with
    | Some k =>
        match kwargs' !! k with
        | Some VNone | None => ""
        | Some bed => " --interval " +:+ py_str (name bed)
        end
    | None => ""
    end
    = match bed_key with
      | Some k =>
          match kwargs !! k with
          | Some VNone | None => ""
          | Some bed => " --interval " +:+ py_str (name bed)
          end
      | None => ""
      end).
  { destruct bed_key as [k|]; [rewrite (Hb k eq_refl)|]; reflexivity. }
  rewrite Hbed. destruct skip; [reflexivity|].
  rewrite (Hs eq_refl). reflexivity.
Qed.

(** X2. The driver reads five keys and no other: ['cores'], ['reference'],
    ['read-filter'], the key named by [bed_key], and ['sample_input']
    unless the sample input is skipped. Setting any other key of the
    Config to any value, or removing it, changes neither the command nor
    the exception. *)
Theorem driver_ignores_other_keys
    (bed_key : option string) (skip : bool) (kwargs : dict) (k : string) :
  k <> "cores" ->
  k <> "reference" ->
  k <> "read-filter" ->
  (skip = false -> k <> "sample_input") ->
  bed_key <> Some k ->
  (forall v,
     cmd_sentieon_driver bed_key skip (<[k := v]> kwargs)
     = cmd_sentieon_driver bed_key skip kwargs)
  /\ cmd_sentieon_driver bed_key skip (delete k kwargs)
     = cmd_sentieon_driver bed_key skip kwargs.
Proof.
  intros Hc Hr Hf Hs Hb. split; [intros v|];
    (apply driver_agree;
     [ | | | intros Hskip; specialize (Hs Hskip) | intros b ->]);
    first [ apply lookup_insert_ne | apply lookup_delete_ne ]; congruence.
Qed.

Lemma driver_ignores_other_keys_witness :
  cmd_sentieon_driver (Some "regions") true
    (<["sample_input" := VInt 7]> doc_config)
  = cmd_sentieon_driver (Some "regions") true doc_config
  /\ cmd_sentieon_driver (Some "regions") false (delete "dbsnp" dbsnp_config)
     = cmd_sentieon_driver (Some "regions") false dbsnp_config.
Proof.
  split.
  - apply (driver_ignores_other_keys (Some "regions") true doc_config
             "sample_input"); discriminate.
  - apply (driver_ignores_other_keys (Some "regions") false dbsnp_config
             "dbsnp"); discriminate.
Defined.

(** X3. A path and an opened file of that name are the same to the driver:
    for every key but ['cores'] and ['read-filter'], which are written
    into the command without [name], putting an object whose [name] is the
    string [path] in place of the string [path] changes neither the
    command nor the exception. *)
Theorem driver_path_or_file
    (bed_key : option string) (skip : bool) (kwargs : dict)
    (k path repr : string) (truth : bool) :
  k <> "cores" ->
  k <> "read-filter" ->
  cmd_sentieon_driver bed_key skip (<[k := VNamed repr truth (VStr path)]> kwargs)
  = cmd_sentieon_driver bed_key skip (<[k := VStr path]> kwargs).
Proof.
  intros Hc Hf. rewrite !driver_run. unfold_driver_command.
  rewrite !(lookup_insert_ne _ k "cores") by exact Hc.
  rewrite !(lookup_insert_ne _ k "read-filter") by exact Hf.
  assert (Hbed :
    match bed_key with
    | Some b =>
        match <[k := VNamed repr truth (VStr path)]> kwargs !! b with
        | Some VNone | None => ""
        | Some bed => " --interval " +:+ py_str (name bed)
        end
    | None => ""
    end
    = match bed_key with
      | Some b =>
          match <[k := VStr path]> kwargs !! b with
          | Some VNone | None => ""
          | Some bed => " --interval " +:+ py_str (name bed)
          end
      | None => ""
      end).
  { destruct bed_key as [b|]; [|reflexivity].
    rewrite !lookup_insert. destruct (decide (k = b)); reflexivity. }
  rewrite Hbed. clear Hbed.
  rewrite !(lookup_insert _ k "reference"), !(lookup_insert _ k "sample_input").
  destruct (decide (k = "reference")), (decide (k = "sample_input"));
    reflexivity.
Qed.

Lemma driver_path_or_file_witness :
  cmd_sentieon_driver (Some "regions") false
    (<["regions" := VNamed "<_io.TextIOWrapper name='phased.bed'>" true
                      (VStr "phased.bed")]> doc_config)
  = Ok "sentieon driver -t 4 -r ref.fasta  --interval phased.bed -i sample.bam".
Proof.
  rewrite (driver_path_or_file (Some "regions") false doc_config "regions"
             "phased.bed" _ true) by discriminate.
  vm_compute. reflexivity.
Defined.

(** ** Config keys that name a parameter of the driver *)

Lemma call_driver_clash
    (bed_key : option string) (skip : option bool) (kwargs : dict) :
  is_Some (kwargs !! "bed_key")
  \/ (is_Some skip /\ is_Some (kwargs !! "skip_sample_input")) ->
  call_cmd_sentieon_driver bed_key skip kwargs = Raise TypeError.
Proof.
  unfold call_cmd_sentieon_driver. intros [[v ->] | [[s ->] [v ->]]].
  - reflexivity.
  - destruct (kwargs !! "bed_key"); reflexivity.
Qed.

Lemma algo_dnascope_raises_with_driver
    (model out_vcf : string) (bed_key gvcf : option string) (kwargs : dict) :
  raises (call_cmd_sentieon_driver bed_key None kwargs) ->
  raises (fst (cmd_algo_dnascope model out_vcf bed_key gvcf kwargs)).
Proof.
  intros [e He]. unfold cmd_algo_dnascope.
  unfold bind, kw_get, kw_getitem, lift, ret, call_kw, getitem.
  destruct (opt_truthy gvcf).
  - destruct (kwargs !! "model_bundle"); [|eexists; reflexivity].
    destruct (truthy (dict_get kwargs "dbsnp")).
    + destruct (kwargs !! "dbsnp") as [d|]; [|eexists; reflexivity].
      destruct (getattr_name d); [|eexists; reflexivity].
      rewrite He. eexists; reflexivity.
    + rewrite He. eexists; reflexivity.
  - destruct (truthy (dict_get kwargs "dbsnp")).
    + destruct (kwargs !! "dbsnp") as [d|]; [|eexists; reflexivity].
      destruct (getattr_name d); [|eexists; reflexivity].
      rewrite He. eexists; reflexivity.
    + rewrite He. eexists; reflexivity.
Qed.

(** X4. The builders hand the whole Config to the driver as keyword
    arguments, next to the arguments they pass themselves. A Config with a
    key ['bed_key'], or with a key ['skip_sample_input'] where the builder
    passes that argument, makes the call a [TypeError]:
    [cmd_variant_phaser] and [cmd_model_apply] raise it and leave the
    Config as it was, [cmd_repeat_model] raises it after it has set
    ['phased_bed'], and [cmd_algo_dnascope], which passes [bed_key] only,
    does not return a command when the Config has ['bed_key']. *)
Theorem driver_keyword_clash (kwargs : dict) :
  is_Some (kwargs !! "bed_key")
  \/ is_Some (kwargs !! "skip_sample_input") ->
  (forall vcf phased_bed phased_vcf phased_ext,
     cmd_variant_phaser vcf phased_bed phased_vcf phased_ext kwargs
     = (Raise TypeError, kwargs))
  /\ (forall model inp_vcf out_vcf,
        cmd_model_apply model inp_vcf out_vcf kwargs
        = (Raise TypeError, kwargs))
  /\ (forall phased_bed phased_ext,
        cmd_repeat_model phased_bed phased_ext kwargs
        = (Raise TypeError, <["phased_bed" := VStr phased_bed]> kwargs))
  /\ (is_Some (kwargs !! "bed_key") ->
      forall model out_vcf bed_key gvcf,
        raises (fst (cmd_algo_dnascope model out_vcf bed_key gvcf kwargs))).
Proof.
  intros H.
  assert (Hcall : forall bed_key s,
            call_cmd_sentieon_driver bed_key (Some s) kwargs
            = Raise TypeError).
  { intros bed_key s. apply call_driver_clash.
    destruct H as [H|H]; [left; exact H | right; split; [eauto | exact H]]. }
  repeat apply conj.
  - intros. unfold cmd_variant_phaser. run_M. rewrite Hcall. reflexivity.
  - intros. unfold cmd_model_apply. run_M. rewrite Hcall. reflexivity.
  - intros. unfold cmd_repeat_model. run_M.
    rewrite call_driver_clash; [reflexivity|].
    rewrite !lookup_insert_ne by discriminate.
    destruct H as [H|H]; [left; exact H | right; split; [eauto | exact H]].
  - intros Hb model out_vcf bed_key gvcf.
    apply algo_dnascope_raises_with_driver. exists TypeError.
    apply call_driver_clash. left. exact Hb.
Qed.

Lemma driver_keyword_clash_witness :
  cmd_model_apply "model" "in.vcf.gz" "out.vcf.gz"
    (<["skip_sample_input" := VBool true]> doc_config)
  = (Raise TypeError, <["skip_sample_input" := VBool true]> doc_config)
  /\ raises (fst (cmd_algo_dnascope "model" "out.vcf.gz" None None
                    (<["bed_key" := VStr "regions"]> doc_config))).
Proof.
  split.
  - apply (driver_keyword_clash
             (<["skip_sample_input" := VBool true]> doc_config)).
    right. eexists. reflexivity.
  - apply (driver_keyword_clash (<["bed_key" := VStr "regions"]> doc_config));
      [left|]; eexists; reflexivity.
Defined.

(** X5. [cmd_algo_dnascope] does not pass [skip_sample_input], so a key
    ['skip_sample_input'] of the Config becomes that parameter of the
    driver: when its value is true the command has no [ -i ] clause and the
    Config needs no ['sample_input'], when it is false the sample input is
    written as usual. Here for a Config without a dbSNP clause and without
    a gVCF. *)
Theorem algo_dnascope_skip_from_config
    (model out_vcf : string) (bed_key : option string) (kwargs : dict)
    (v : value) :
  kwargs !! "skip_sample_input" = Some v ->
  kwargs !! "bed_key" = None ->
  is_Some (kwargs !! "cores") ->
  is_Some (kwargs !! "reference") ->
  (truthy v = false -> is_Some (kwargs !! "sample_input")) ->
  truthy (dict_get kwargs "dbsnp") = false ->
  cmd_algo_dnascope model out_vcf bed_key None kwargs
  = (Ok (driver_command truthy bed_key (truthy v)
           (delete "skip_sample_input" kwargs)
           +:+ " --algo DNAscope  --model " +:+ model +:+ " " +:+ out_vcf),
     kwargs).
Proof.
  intros Hv Hb Hc Hr Hs Hd.
  assert (Hcall : call_cmd_sentieon_driver bed_key None kwargs
                  = Ok (driver_command truthy bed_key (truthy v)
                          (delete "skip_sample_input" kwargs))).
  { unfold call_cmd_sentieon_driver. rewrite Hb, Hv.
    apply driver_exact.
    - rewrite lookup_delete_ne by discriminate. exact Hc.
    - rewrite lookup_delete_ne by discriminate. exact Hr.
    - intros Ht. rewrite lookup_delete_ne by discriminate. apply Hs, Ht. }
  rewrite (algo_dnascope_run _ _ _ None _ _ Hcall) by discriminate.
  rewrite Hd. unfold dnascope_command, gvcf_clause. cbn [opt_truthy].
  f_equal.
Qed.

Lemma algo_dnascope_skip_from_config_witness :
  cmd_algo_dnascope "model" "out.vcf.gz" None None
    (<["skip_sample_input" := VBool true]> (delete "sample_input" doc_config))
  = (Ok "sentieon driver -t 4 -r ref.fasta  --algo DNAscope  --model model out.vcf.gz",
     <["skip_sample_input" := VBool true]> (delete "sample_input" doc_config)).
Proof.
  rewrite (algo_dnascope_skip_from_config "model" "out.vcf.gz" None _
             (VBool true));
    try reflexivity; try (eexists; reflexivity).
  discriminate.
Defined.

(** ** The builders that wrap the driver *)

(** X6. For a Config the driver accepts, [cmd_variant_phaser] returns the
    driver invocation without a region clause and with the sample input,
    followed by its own options. The depth is [1000] when the Config has no
    ['phase_max_depth'] key; a key that is there is written as it is, so a
    ['phase_max_depth'] of [None] gives [--max_depth None]. *)
Theorem variant_phaser_command
    (vcf phased_bed phased_vcf phased_ext : string) (kwargs : dict) :
  driver_ready kwargs ->
  (kwargs !! "phase_max_depth" = None ->
   cmd_variant_phaser vcf phased_bed phased_vcf phased_ext kwargs
   = (Ok (driver_command truthy None false kwargs
            +:+ variant_phaser_options vcf (VInt 1000) phased_bed phased_ext
                  phased_vcf),
      kwargs))
  /\ (forall depth,
        kwargs !! "phase_max_depth" = Some depth ->
        cmd_variant_phaser vcf phased_bed phased_vcf phased_ext kwargs
        = (Ok (driver_command truthy None false kwargs
                 +:+ variant_phaser_options vcf depth phased_bed phased_ext
                       phased_vcf),
           kwargs))
  /\ (kwargs !! "phase_max_depth" = Some VNone ->
      exists cmd,
        fst (cmd_variant_phaser vcf phased_bed phased_vcf phased_ext kwargs)
        = Ok cmd
        /\ contains (" --max_depth None --out_bed " +:+ phased_bed) cmd
           = true)
  /\ region_clause None kwargs = "".
Proof.
  intros Hready.
  assert (Hrun : forall depth,
            dict_get_default kwargs "phase_max_depth" (VInt 1000) = depth ->
            cmd_variant_phaser vcf phased_bed phased_vcf phased_ext kwargs
            = (Ok (driver_command truthy None false kwargs
                     +:+ variant_phaser_options vcf depth phased_bed
                           phased_ext phased_vcf),
               kwargs)).
  { intros depth Hd. unfold cmd_variant_phaser, variant_phaser_options.
    run_M. rewrite (call_driver_ready None (Some false) kwargs Hready).
    run_M. unfold dict_get_default in Hd. rewrite Hd.
    f_equal. f_equal. rewrite ?append_assoc. reflexivity. }
  repeat apply conj.
  - intros H. apply Hrun. unfold dict_get_default. rewrite H. reflexivity.
  - intros depth H. apply Hrun. unfold dict_get_default. rewrite H.
    reflexivity.
  - intros H. rewrite (Hrun VNone)
      by (unfold dict_get_default; rewrite H; reflexivity).
    eexists. split; [reflexivity|].
    unfold variant_phaser_options. cbn [py_str].
    replace (" --algo VariantPhaser -v " +:+ vcf +:+ " --max_depth "
               +:+ "None" +:+ " --out_bed " +:+ phased_bed +:+ " --out_ext "
               +:+ phased_ext +:+ " " +:+ phased_vcf +:+ " ")
      with ((" --algo VariantPhaser -v " +:+ vcf)
              +:+ (" --max_depth None --out_bed " +:+ phased_bed)
              +:+ (" --out_ext " +:+ phased_ext +:+ " " +:+ phased_vcf
                     +:+ " "))
      by (rewrite ?append_assoc; reflexivity).
    rewrite <- append_assoc. apply contains_intro.
  - reflexivity.
Qed.

Lemma variant_phaser_command_witness :
  cmd_variant_phaser "in.vcf.gz" "phased.bed" "phased.vcf.gz" "phased.ext"
    doc_config
  = (Ok "sentieon driver -t 4 -r ref.fasta  -i sample.bam --algo VariantPhaser -v in.vcf.gz --max_depth 1000 --out_bed phased.bed --out_ext phased.ext phased.vcf.gz ",
     doc_config)
  /\ (exists cmd,
        fst (cmd_variant_phaser "in.vcf.gz" "phased.bed" "phased.vcf.gz"
               "phased.ext" (<["phase_max_depth" := VNone]> doc_config))
        = Ok cmd
        /\ contains (" --max_depth None --out_bed " +:+ "phased.bed") cmd
           = true).
Proof.
  assert (Hready : forall v,
            driver_ready doc_config
            /\ driver_ready (<["phase_max_depth" := v]> doc_config)).
  { intros v. split; repeat split; try (eexists; reflexivity); reflexivity. }
  split.
  - apply (variant_phaser_command "in.vcf.gz" "phased.bed" "phased.vcf.gz"
             "phased.ext" doc_config (proj1 (Hready VNone))).
    reflexivity.
  - apply (variant_phaser_command "in.vcf.gz" "phased.bed" "phased.vcf.gz"
             "phased.ext" _ (proj2 (Hready VNone))).
    reflexivity.
Defined.

(** X7. [cmd_model_apply] skips the sample input: it returns a command
    for every Config with ['cores'] and ['reference'], whether or not
    ['sample_input'] is there. With no read filter the command is the
    driver's start followed by the model clause. With a read filter the
    model clause follows the filter with no space in between, so the filter
    specification runs into [--algo]. *)
Theorem model_apply_command
    (model inp_vcf out_vcf : string) (kwargs : dict) (cores reference : value) :
  kwargs !! "cores" = Some cores ->
  kwargs !! "reference" = Some reference ->
  kwargs !! "bed_key" = None ->
  kwargs !! "skip_sample_input" = None ->
  let start :=
    "sentieon driver -t " +:+ py_str cores +:+ " -r "
      +:+ py_str (name reference) +:+ " " in
  let clause :=
    "--algo DNAModelApply --model " +:+ model +:+ " -v " +:+ inp_vcf
      +:+ " " +:+ out_vcf in
  (truthy (dict_get kwargs "read-filter") = false ->
   cmd_model_apply model inp_vcf out_vcf kwargs
   = (Ok (start +:+ clause), kwargs))
  /\ (forall rf,
        kwargs !! "read-filter" = Some rf ->
        truthy rf = true ->
        cmd_model_apply model inp_vcf out_vcf kwargs
        = (Ok (start +:+ " --read_filter " +:+ py_str rf +:+ clause),
           kwargs)).
Proof.
  intros Hc Hr Hb Hk start clause.
  assert (Hcall : call_cmd_sentieon_driver None (Some true) kwargs
                  = Ok (driver_command truthy None true kwargs)).
  { unfold call_cmd_sentieon_driver. rewrite Hb, Hk.
    apply driver_exact; [eauto | eauto | discriminate]. }
  assert (Hrun : cmd_model_apply model inp_vcf out_vcf kwargs
                 = (Ok (driver_command truthy None true kwargs +:+ clause),
                    kwargs)).
  { unfold cmd_model_apply. run_M. rewrite Hcall. reflexivity. }
  rewrite Hrun. unfold_driver_command. rewrite Hc, Hr.
  unfold start, clause. split.
  - intros Hf. unfold dict_get, dict_get_default in Hf.
    destruct (kwargs !! "read-filter") as [rf|]; [rewrite Hf|];
      f_equal; f_equal; str_norm; reflexivity.
  - intros rf -> ->. f_equal. f_equal. str_norm. reflexivity.
Qed.

Lemma model_apply_command_witness :
  cmd_model_apply "model" "in.vcf.gz" "out.vcf.gz"
    (delete "sample_input" doc_config)
  = (Ok "sentieon driver -t 4 -r ref.fasta --algo DNAModelApply --model model -v in.vcf.gz out.vcf.gz",
     delete "sample_input" doc_config)
  /\ cmd_model_apply "model" "in.vcf.gz" "out.vcf.gz"
       (<["read-filter" := VStr "Filter,x=1"]> doc_config)
     = (Ok "sentieon driver -t 4 -r ref.fasta  --read_filter Filter,x=1--algo DNAModelApply --model model -v in.vcf.gz out.vcf.gz",
        <["read-filter" := VStr "Filter,x=1"]> doc_config).
Proof.
  split.
  - apply (model_apply_command "model" "in.vcf.gz" "out.vcf.gz"
             (delete "sample_input" doc_config) (VInt 4) (VStr "ref.fasta"));
      reflexivity.
  - destruct (model_apply_command "model" "in.vcf.gz" "out.vcf.gz"
                (<["read-filter" := VStr "Filter,x=1"]> doc_config)
                (VInt 4) (VStr "ref.fasta")) as [_ H];
      [reflexivity.. |].
    apply (H (VStr "Filter,x=1")); reflexivity.
Defined.

(** ** The repeat-model trainer *)

(** [cmd_repeat_model], by what the driver returns for the Config with
    ['phased_bed'] set and by the ['tmp_base'] key. *)
Lemma repeat_model_unfold (phased_bed phased_ext : string) (kwargs : dict) :
  cmd_repeat_model phased_bed phased_ext kwargs
  = let kw := <["phased_bed" := VStr phased_bed]> kwargs in
    match call_cmd_sentieon_driver (Some "phased_bed") (Some false) kw with
    | Raise e => (Raise e, kw)
    | Ok driver =>
        match kwargs !! "tmp_base" with
        | None => (Raise (KeyError "tmp_base"), kw)
        | Some tmp_base =>
            (Ok (driver +:+ repeat_model_options phased_ext
                   +:+ repeat_model_path tmp_base),
             <["repeat_model" := VStr (repeat_model_path tmp_base)]> kw)
        end
    end.
Proof.
  unfold cmd_repeat_model, repeat_model_options, repeat_model_path. run_M.
  cbv zeta.
  destruct (call_cmd_sentieon_driver (Some "phased_bed") (Some false)
              (<["phased_bed" := VStr phased_bed]> kwargs)) as [drv|e];
    [|reflexivity].
  run_M. rewrite lookup_insert_ne by discriminate.
  destruct (kwargs !! "tmp_base") as [tb|]; [|reflexivity].
  run_M. rewrite lookup_insert_eq. run_M. cbn [str_add].
  f_equal. f_equal. rewrite ?append_assoc. reflexivity.
Qed.

Lemma call_driver_agree
    (bed_key : option string) (s : bool) (kwargs kwargs' : dict) :
  kwargs' !! "bed_key" = kwargs !! "bed_key" ->
  kwargs' !! "skip_sample_input" = kwargs !! "skip_sample_input" ->
  kwargs' !! "cores" = kwargs !! "cores" ->
  kwargs' !! "reference" = kwargs !! "reference" ->
  kwargs' !! "read-filter" = kwargs !! "read-filter" ->
  kwargs' !! "sample_input" = kwargs !! "sample_input" ->
  (forall k, bed_key = Some k -> kwargs' !! k = kwargs !! k) ->
  call_cmd_sentieon_driver bed_key (Some s) kwargs'
  = call_cmd_sentieon_driver bed_key (Some s) kwargs.
Proof.
  intros Hb Hk Hc Hr Hf Hs Hbed. unfold call_cmd_sentieon_driver.
  rewrite Hb, Hk.
  destruct (kwargs !! "bed_key"); [reflexivity|].
  destruct (kwargs !! "skip_sample_input"); [reflexivity|].
  apply driver_agree; auto.
Qed.

(** X8. For a Config the driver accepts and that has ['tmp_base'],
    [cmd_repeat_model] returns the driver invocation restricted to its
    [phased_bed] argument, whatever the Config held under ['phased_bed']
    before, with the sample input; then the phased read filter and the
    fixed training options; then the path [<tmp_base>/out_repeat.model]. A
    read filter of the Config is written too, before the phased one. *)
Theorem repeat_model_command
    (phased_bed phased_ext : string) (kwargs : dict)
    (cores reference sample tmp_base : value) :
  kwargs !! "cores" = Some cores ->
  kwargs !! "reference" = Some reference ->
  kwargs !! "sample_input" = Some sample ->
  kwargs !! "tmp_base" = Some tmp_base ->
  kwargs !! "bed_key" = None ->
  kwargs !! "skip_sample_input" = None ->
  fst (cmd_repeat_model phased_bed phased_ext kwargs)
  = Ok ("sentieon driver -t " +:+ py_str cores +:+ " -r "
          +:+ py_str (name reference) +:+ "  --interval " +:+ phased_bed
          +:+ " -i " +:+ py_str (name sample)
          +:+ read_filter_clause truthy kwargs
          +:+ repeat_model_options phased_ext
          +:+ py_str tmp_base +:+ "/out_repeat.model").
Proof.
  intros Hc Hr Hs Ht Hb Hk. rewrite repeat_model_unfold. cbv zeta.
  rewrite (call_driver_ready (Some "phased_bed") (Some false)).
  2:{ repeat split; rewrite lookup_insert_ne by discriminate; eauto. }
  rewrite Ht. cbn [fst]. f_equal.
  unfold_driver_command. unfold repeat_model_path.
  rewrite lookup_insert_eq.
  rewrite !lookup_insert_ne by discriminate. rewrite Hc, Hr, Hs.
  destruct (kwargs !! "read-filter") as [rf|]; [destruct (truthy rf)|];
    str_norm; reflexivity.
Qed.

Lemma repeat_model_command_witness :
  fst (cmd_repeat_model "phased.bed" "phased.ext"
         (<["phased_bed" := VStr "other.bed"]> repeat_config))
  = Ok "sentieon driver -t 4 -r ref.fasta  --interval phased.bed -i sample.bam --read_filter PhasedReadFilter,phased_vcf=phased.ext,phase_select=tag --algo RepeatModel --phased --min_map_qual 1 --min_group_count 10000 --read_flag_mask drop=supplementary --repeat_extension 5 --max_repeat_unit_size 2 --min_repeat_count 6 /tmp/work/out_repeat.model".
Proof.
  rewrite (repeat_model_command "phased.bed" "phased.ext"
             (<["phased_bed" := VStr "other.bed"]> repeat_config)
             (VInt 4) (VStr "ref.fasta") (VStr "sample.bam")
             (VStr "/tmp/work"));
    reflexivity.
Defined.

(** X9. Running [cmd_repeat_model] a second time with the same arguments,
    on the Config the first run left, returns the same command and leaves
    that Config as it is: the two keys it sets are not read by the driver
    in a way that changes the command, and they are set to the same
    values again. *)
Theorem repeat_model_twice
    (phased_bed phased_ext : string) (kwargs : dict) (cmd : string) :
  fst (cmd_repeat_model phased_bed phased_ext kwargs) = Ok cmd ->
  cmd_repeat_model phased_bed phased_ext
    (snd (cmd_repeat_model phased_bed phased_ext kwargs))
  = (Ok cmd, snd (cmd_repeat_model phased_bed phased_ext kwargs)).
Proof.
  rewrite (repeat_model_unfold phased_bed phased_ext kwargs). cbv zeta.
  set (kw := <["phased_bed" := VStr phased_bed]> kwargs).
  destruct (call_cmd_sentieon_driver (Some "phased_bed") (Some false) kw)
    as [drv|e] eqn:Hdrv; [|discriminate].
  destruct (kwargs !! "tmp_base") as [tb|] eqn:Htb; [|discriminate].
  cbn [fst snd]. intros [= <-].
  set (kw' := <["repeat_model" := VStr (repeat_model_path tb)]> kw).
  assert (Hkw : <["phased_bed" := VStr phased_bed]> kw' = kw').
  { unfold kw', kw. rewrite insert_insert_ne by discriminate.
    rewrite insert_insert_eq. reflexivity. }
  rewrite repeat_model_unfold. cbv zeta. rewrite Hkw.
  assert (Hcall : call_cmd_sentieon_driver (Some "phased_bed") (Some false) kw'
                  = Ok drv).
  { rewrite <- Hdrv. unfold kw'. apply call_driver_agree;
      try (apply lookup_insert_ne; discriminate).
    intros k [= <-]. apply lookup_insert_ne. discriminate. }
  rewrite Hcall.
  assert (Htb' : kw' !! "tmp_base" = Some tb).
  { unfold kw', kw. rewrite !lookup_insert_ne by discriminate. exact Htb. }
  rewrite Htb'. f_equal. unfold kw'. apply insert_insert_eq.
Qed.

Lemma repeat_model_twice_witness :
  exists cmd,
    fst (cmd_repeat_model "phased.bed" "phased.ext" repeat_config) = Ok cmd
    /\ cmd_repeat_model "phased.bed" "phased.ext"
         (snd (cmd_repeat_model "phased.bed" "phased.ext" repeat_config))
       = (Ok cmd,
          snd (cmd_repeat_model "phased.bed" "phased.ext" repeat_config)).
Proof.
  eexists. split; [vm_compute; reflexivity|].
  apply repeat_model_twice. vm_compute. reflexivity.
Defined.

(** X10. Whatever [cmd_repeat_model] does, return or raise, the Config it
    was handed has ['phased_bed'] set to its argument afterwards, and
    every key other than ['phased_bed'] and ['repeat_model'] is as it was.
    When it raises, ['repeat_model'] is as it was too: the only trace of a
    failed call is ['phased_bed']. *)
Theorem repeat_model_effect
    (phased_bed phased_ext : string) (kwargs : dict) :
  let kwargs' := snd (cmd_repeat_model phased_bed phased_ext kwargs) in
  kwargs' !! "phased_bed" = Some (VStr phased_bed)
  /\ (forall k,
        k <> "phased_bed" -> k <> "repeat_model" ->
        kwargs' !! k = kwargs !! k)
  /\ (raises (fst (cmd_repeat_model phased_bed phased_ext kwargs)) ->
      kwargs' = <["phased_bed" := VStr phased_bed]> kwargs).
Proof.
  cbv zeta. rewrite repeat_model_unfold. cbv zeta.
  destruct (call_cmd_sentieon_driver (Some "phased_bed") (Some false)
              (<["phased_bed" := VStr phased_bed]> kwargs)) as [drv|e].
  - destruct (kwargs !! "tmp_base") as [tb|]; cbn [fst snd].
    + repeat apply conj.
      * rewrite lookup_insert_ne by discriminate. apply lookup_insert_eq.
      * intros k H1 H2. rewrite !lookup_insert_ne by congruence.
        reflexivity.
      * intros [e He]. discriminate.
    + repeat apply conj.
      * apply lookup_insert_eq.
      * intros k H1 H2. apply lookup_insert_ne. congruence.
      * reflexivity.
  - cbn [fst snd]. repeat apply conj.
    + apply lookup_insert_eq.
    + intros k H1 H2. apply lookup_insert_ne. congruence.
    + reflexivity.
Qed.

Lemma repeat_model_effect_witness :
  snd (cmd_repeat_model "phased.bed" "phased.ext" (delete "cores" doc_config))
  = <["phased_bed" := VStr "phased.bed"]> (delete "cores" doc_config)
  /\ snd (cmd_repeat_model "phased.bed" "phased.ext" repeat_config)
       !! "reference" = repeat_config !! "reference".
Proof.
  split.
  - apply (repeat_model_effect "phased.bed" "phased.ext"
             (delete "cores" doc_config)).
    eexists. vm_compute. reflexivity.
  - apply (repeat_model_effect "phased.bed" "phased.ext" repeat_config);
      discriminate.
Defined.

(** ** Region subtraction: failures and other shapes of the index *)

Lemma file_lines_line_crlf (l rest : string) :
  none_of is_line_end l = true ->
  file_lines (l +:+ String carriage_return (String newline rest))
  = (l +:+ String newline "") :: file_lines rest.
Proof.
  induction l as [|c l IH]; intros H.
  - reflexivity.
  - cbn [none_of] in H. apply andb_true_iff in H as [Hc Hl].
    unfold is_line_end in Hc. apply negb_true_iff in Hc.
    apply orb_false_iff in Hc as [Hnl Hcr].
    change (String c l +:+ String carriage_return (String newline rest))
      with (String c (l +:+ String carriage_return (String newline rest))).
    cbn [file_lines]. rewrite Hnl, Hcr, (IH Hl). reflexivity.
Qed.

Lemma file_lines_fai_crlf (rows : list (list string)) :
  forallb wf_row rows = true ->
  file_lines (fai_content_crlf rows) = map fai_line rows.
Proof.
  unfold fai_content_crlf. induction rows as [|row rows IH]; intros H.
  - reflexivity.
  - cbn [forallb] in H. apply andb_true_iff in H as [Hrow Hrows].
    cbn [map concat_lines]. rewrite append_assoc.
    change (String carriage_return (String newline "") +:+
              concat_lines
                (map (fun row0 =>
                        join_tab row0
                          +:+ String carriage_return (String newline ""))
                   rows))
      with (String carriage_return
              (String newline
                 (concat_lines
                    (map (fun row0 =>
                            join_tab row0
                              +:+ String carriage_return (String newline ""))
                       rows)))).
    rewrite file_lines_line_crlf
      by (apply join_tab_no_line_end, wf_row_columns, Hrow).
    rewrite (IH Hrows). reflexivity.
Qed.

(** X11. An index whose lines end in carriage return and line feed gives
    the same region file and the same command as the index with plain
    line feeds: the file is read with universal newlines and every line is
    stripped, so no carriage return reaches the region file. The region
    file opens for writing and takes the text, the index opens for reading
    and is another file. *)
Theorem whole_genome_crlf_index
    (phased_bed unphased_bed : string) (kwargs : dict) (fs : filesystem)
    (tmp_base reference : value) (ref_path : string)
    (rows : list (list string)) :
  kwargs !! "tmp_base" = Some tmp_base ->
  kwargs !! "reference" = Some reference ->
  name reference = VStr ref_path ->
  open_write_fault fs (py_str tmp_base +:+ "_reference.bed") = None ->
  on_close fs (py_str tmp_base +:+ "_reference.bed") (bed_content rows)
  = (None, bed_content rows) ->
  file_of fs (ref_path +:+ ".fai")
  <> file_of fs (py_str tmp_base +:+ "_reference.bed") ->
  open_read_fault fs (ref_path +:+ ".fai") = None ->
  forallb wf_row rows = true ->
  let region_file := py_str tmp_base +:+ "_reference.bed" in
  let cmd :=
    "bedtools subtract -a " +:+ region_file +:+ " -b " +:+ phased_bed
      +:+ " > " +:+ unphased_bed in
  let fs_crlf := set_text fs (ref_path +:+ ".fai") (fai_content_crlf rows) in
  let fs_lf := set_text fs (ref_path +:+ ".fai") (fai_content rows) in
  cmd_bedtools_subtract VNone phased_bed unphased_bed kwargs fs_crlf
  = (Ok cmd, set_text fs_crlf region_file (bed_content rows))
  /\ cmd_bedtools_subtract VNone phased_bed unphased_bed kwargs fs_lf
     = (Ok cmd, set_text fs_lf region_file (bed_content rows))
  /\ count_char carriage_return (bed_content rows) = 0.
Proof.
  intros Htb Href Hname Hw Hc Hne Hr Hwf region_file cmd fs_crlf fs_lf.
  split; [|split].
  - apply (bedtools_subtract_lines_run phased_bed unphased_bed kwargs fs_crlf
             tmp_base reference ref_path (fai_content_crlf rows) rows
             Htb Href Hname Hw Hc Hne Hr);
      [apply text_of_set_text_same; reflexivity
      | apply file_lines_fai_crlf, Hwf | exact Hwf].
  - apply (bedtools_subtract_lines_run phased_bed unphased_bed kwargs fs_lf
             tmp_base reference ref_path (fai_content rows) rows
             Htb Href Hname Hw Hc Hne Hr);
      [apply text_of_set_text_same; reflexivity
      | apply file_lines_fai, Hwf | exact Hwf].
  - clear - Hwf. unfold bed_content.
    induction rows as [|row rows IH]; [reflexivity|].
    cbn [forallb] in Hwf. apply andb_true_iff in Hwf as [Hrow Hrows].
    cbn [map concat_lines]. rewrite count_char_app, (IH Hrows).
    destruct row as [|contig [|len rest]]; try discriminate.
    cbn [wf_row] in Hrow. apply andb_true_iff in Hrow as [Hrow _].
    apply andb_true_iff in Hrow as [Hc Hl].
    assert (Hno : forall s, is_field s = true ->
                    count_char carriage_return s = 0).
    { intros s Hs. apply field_no_break in Hs.
      induction s as [|c s IHs]; [reflexivity|].
      cbn [none_of] in Hs. apply andb_true_iff in Hs as [Hcs Hs].
      apply negb_true_iff in Hcs. unfold is_break, is_line_end in Hcs.
      apply orb_false_iff in Hcs as [_ Hcs].
      apply orb_false_iff in Hcs as [_ Hcs].
      cbn [count_char]. rewrite Hcs, (IHs Hs). reflexivity. }
    cbn [bed_line]. rewrite !count_char_app, (Hno contig Hc).
    cbn [count_char]. rewrite (Hno len Hl). reflexivity.
Qed.

Lemma whole_genome_crlf_index_witness :
  fst (cmd_bedtools_subtract VNone "phased.bed" "unphased.bed" subtract_config
         (set_text (plain_fs ∅) ("ref.fasta" +:+ ".fai")
            (fai_content_crlf doc_index)))
  = Ok "bedtools subtract -a /tmp/work_reference.bed -b phased.bed > unphased.bed"
  /\ text_of
       (snd (cmd_bedtools_subtract VNone "phased.bed" "unphased.bed"
               subtract_config
               (set_text (plain_fs ∅) ("ref.fasta" +:+ ".fai")
                  (fai_content_crlf doc_index))))
       "/tmp/work_reference.bed"
     = Some (bed_content doc_index).
Proof.
  destruct (whole_genome_crlf_index "phased.bed" "unphased.bed"
              subtract_config (plain_fs ∅) (VStr "/tmp/work")
              (VStr "ref.fasta") "ref.fasta" doc_index)
    as (H & _ & _);
    [reflexivity | reflexivity | reflexivity | reflexivity | reflexivity
    | discriminate | reflexivity | reflexivity |].
  rewrite H. split; reflexivity.
Defined.

(** X12. How the whole-genome branch of [cmd_bedtools_subtract] fails.
    Without ['tmp_base'] it raises [KeyError] and touches no file. With
    it, the region file is opened for writing first: when that open fails
    (the directory of the file does not exist, say) its exception is
    raised, whatever ['reference'] is, and no file is created or changed.
    When the open succeeds, every later failure leaves the region file
    empty, also when it existed before: a missing ['reference']
    ([KeyError]), a reference that does not resolve to a string
    ([TypeError] from the [+ ".fai"]), an index that cannot be opened (the
    exception of the open) and an index that does not exist
    ([FileNotFoundError]). *)
Theorem whole_genome_failures
    (phased_bed unphased_bed : string) (kwargs : dict) (fs : filesystem) :
  (kwargs !! "tmp_base" = None ->
   cmd_bedtools_subtract VNone phased_bed unphased_bed kwargs fs
   = (Raise (KeyError "tmp_base"), fs))
  /\ (forall tmp_base,
        kwargs !! "tmp_base" = Some tmp_base ->
        let region_file := py_str tmp_base +:+ "_reference.bed" in
        (forall e,
           open_write_fault fs region_file = Some e ->
           cmd_bedtools_subtract VNone phased_bed unphased_bed kwargs fs
           = (Raise e, fs))
        /\ (open_write_fault fs region_file = None ->
            on_close fs region_file "" = (None, "") ->
            (kwargs !! "reference" = None ->
             cmd_bedtools_subtract VNone phased_bed unphased_bed kwargs fs
             = (Raise (KeyError "reference"), set_text fs region_file ""))
            /\ (forall reference,
                  kwargs !! "reference" = Some reference ->
                  not_str (name reference) ->
                  cmd_bedtools_subtract VNone phased_bed unphased_bed kwargs fs
                  = (Raise TypeError, set_text fs region_file ""))
            /\ (forall reference ref_path e,
                  kwargs !! "reference" = Some reference ->
                  name reference = VStr ref_path ->
                  open_read_fault fs (ref_path +:+ ".fai") = Some e ->
                  cmd_bedtools_subtract VNone phased_bed unphased_bed kwargs fs
                  = (Raise e, set_text fs region_file ""))
            /\ (forall reference ref_path,
                  kwargs !! "reference" = Some reference ->
                  name reference = VStr ref_path ->
                  open_read_fault fs (ref_path +:+ ".fai") = None ->
                  file_of fs (ref_path +:+ ".fai")
                  <> file_of fs region_file ->
                  text_of fs (ref_path +:+ ".fai") = None ->
                  cmd_bedtools_subtract VNone phased_bed unphased_bed kwargs fs
                  = (Raise (FileNotFoundError (ref_path +:+ ".fai")),
                     set_text fs region_file "")))).
Proof.
  split.
  - intros H. unfold cmd_bedtools_subtract, getitem. rewrite H. reflexivity.
  - intros tmp_base Htb region_file. split.
    + intros e Hw. unfold cmd_bedtools_subtract, getitem, open_write.
      rewrite Htb. fold region_file. rewrite Hw. reflexivity.
    + intros Hw Hc.
      assert (Hclose : forall e : exn,
                close_written (set_text fs region_file "") region_file ""
                  (@Raise string e)
                = (Raise e, set_text fs region_file "")).
      { intros e. unfold close_written. cbn [on_close set_text]. rewrite Hc.
        fold (set_text fs region_file ""). rewrite set_text_twice.
        reflexivity. }
      repeat apply conj.
      * intros H. unfold cmd_bedtools_subtract, getitem, open_write, res_bind.
        rewrite Htb. fold region_file. rewrite Hw, H. apply Hclose.
      * intros reference Href Hn.
        unfold cmd_bedtools_subtract, getitem, open_write, res_bind.
        rewrite Htb. fold region_file. rewrite Hw, Href.
        destruct (name reference); try contradiction; apply Hclose.
      * intros reference ref_path e Href Hname Hr.
        unfold cmd_bedtools_subtract, getitem, open_write, res_bind.
        rewrite Htb. fold region_file. rewrite Hw, Href, Hname.
        cbn [add_str]. unfold open_read. cbn [open_read_fault set_text].
        rewrite Hr. apply Hclose.
      * intros reference ref_path Href Hname Hr Hne Hfai.
        unfold cmd_bedtools_subtract, getitem, open_write, res_bind.
        rewrite Htb. fold region_file. rewrite Hw, Href, Hname.
        cbn [add_str]. unfold open_read. cbn [open_read_fault set_text].
        rewrite Hr. fold (set_text fs region_file "").
        rewrite (text_of_set_text_other _ _ _ _ Hne), Hfai. apply Hclose.
Qed.

Lemma whole_genome_failures_witness :
  cmd_bedtools_subtract VNone "phased.bed" "unphased.bed" doc_config doc_fs
  = (Raise (KeyError "tmp_base"), doc_fs)
  /\ cmd_bedtools_subtract VNone "phased.bed" "unphased.bed"
       (delete "reference" subtract_config) no_tmp_fs
     = (Raise (FileNotFoundError "/tmp/work_reference.bed"), no_tmp_fs)
  /\ cmd_bedtools_subtract VNone "phased.bed" "unphased.bed"
       (delete "reference" subtract_config) doc_fs
     = (Raise (KeyError "reference"),
        set_text doc_fs "/tmp/work_reference.bed" "")
  /\ cmd_bedtools_subtract VNone "phased.bed" "unphased.bed"
       (<["reference" := VInt 3]> subtract_config) doc_fs
     = (Raise TypeError, set_text doc_fs "/tmp/work_reference.bed" "")
  /\ cmd_bedtools_subtract VNone "phased.bed" "unphased.bed" subtract_config
       (plain_fs (<["/tmp/work_reference.bed" := "old"]> ∅))
     = (Raise (FileNotFoundError "ref.fasta.fai"),
        set_text (plain_fs (<["/tmp/work_reference.bed" := "old"]> ∅))
          "/tmp/work_reference.bed" "").
Proof.
  repeat apply conj.
  - apply (whole_genome_failures "phased.bed" "unphased.bed" doc_config
             doc_fs).
    reflexivity.
  - destruct (proj2 (whole_genome_failures "phased.bed" "unphased.bed"
                       (delete "reference" subtract_config) no_tmp_fs)
                (VStr "/tmp/work")) as (H & _); [reflexivity|].
    apply H. reflexivity.
  - destruct (proj2 (whole_genome_failures "phased.bed" "unphased.bed"
                       (delete "reference" subtract_config) doc_fs)
                (VStr "/tmp/work")) as (_ & H); [reflexivity|].
    destruct H as (H & _); [reflexivity | reflexivity |].
    apply H. reflexivity.
  - destruct (proj2 (whole_genome_failures "phased.bed" "unphased.bed"
                       (<["reference" := VInt 3]> subtract_config) doc_fs)
                (VStr "/tmp/work")) as (_ & H); [reflexivity|].
    destruct H as (_ & H & _); [reflexivity | reflexivity |].
    apply (H (VInt 3)); [reflexivity | exact I].
  - destruct (proj2 (whole_genome_failures "phased.bed" "unphased.bed"
                       subtract_config
                       (plain_fs (<["/tmp/work_reference.bed" := "old"]> ∅)))
                (VStr "/tmp/work")) as (_ & H); [reflexivity|].
    destruct H as (_ & _ & _ & H); [reflexivity | reflexivity |].
    apply (H (VStr "ref.fasta") "ref.fasta");
      [reflexivity | reflexivity | reflexivity | discriminate | reflexivity].
Defined.

Lemma write_regions_app
    (rows : list (list string)) (rest : list string) (written : string) :
  forallb wf_row rows = true ->
  write_regions (map fai_line rows ++ rest)%list written
  = write_regions rest (written +:+ bed_content rows).
Proof.
  revert written. induction rows as [|row rows IH]; intros written H.
  - cbn. rewrite append_nil_r. reflexivity.
  - cbn [forallb] in H. apply andb_true_iff in H as [Hrow Hrows].
    destruct row as [|contig [|len rest']]; try discriminate.
    destruct (fai_line_tokens contig len rest' Hrow) as [more Htok].
    cbn [map app write_regions]. rewrite Htok.
    cbn [list_getitem lookup list_lookup res_bind].
    rewrite (IH _ Hrows). unfold bed_content. cbn [map concat_lines bed_line].
    rewrite !append_assoc. reflexivity.
Qed.

(** X13. A line of the index with fewer than two tab-separated fields
    once stripped, a blank line for one, ends the loop of the whole-genome
    branch with an [IndexError]; the lines of the rows before it were
    written, nothing of what follows is. When the region file then closes
    without an exception the builder raises the [IndexError] and the file
    holds those lines; when the close fails (a full device) the builder
    raises the exception of the close instead, and the file holds what the
    close kept. *)
Theorem whole_genome_short_line
    (phased_bed unphased_bed : string) (kwargs : dict) (fs : filesystem)
    (tmp_base reference : value) (ref_path : string)
    (rows : list (list string)) (short rest : string) :
  kwargs !! "tmp_base" = Some tmp_base ->
  kwargs !! "reference" = Some reference ->
  name reference = VStr ref_path ->
  open_write_fault fs (py_str tmp_base +:+ "_reference.bed") = None ->
  file_of fs (ref_path +:+ ".fai")
  <> file_of fs (py_str tmp_base +:+ "_reference.bed") ->
  open_read_fault fs (ref_path +:+ ".fai") = None ->
  text_of fs (ref_path +:+ ".fai")
  = Some (fai_content rows +:+ short +:+ String newline rest) ->
  forallb wf_row rows = true ->
  none_of is_line_end short = true ->
  str_split tab (strip (short +:+ String newline "")) !! 1 = None ->
  let region_file := py_str tmp_base +:+ "_reference.bed" in
  (on_close fs region_file (bed_content rows) = (None, bed_content rows) ->
   cmd_bedtools_subtract VNone phased_bed unphased_bed kwargs fs
   = (Raise IndexError, set_text fs region_file (bed_content rows)))
  /\ (forall e kept,
        on_close fs region_file (bed_content rows) = (Some e, kept) ->
        cmd_bedtools_subtract VNone phased_bed unphased_bed kwargs fs
        = (Raise e, set_text fs region_file kept)).
Proof.
  intros Htb Href Hname Hw Hne Hr Hfai Hwf Hshort Htok region_file.
  assert (Hlines :
    file_lines (fai_content rows +:+ short +:+ String newline rest)
    = (map fai_line rows
         ++ (short +:+ String newline "") :: file_lines rest)%list).
  { unfold fai_content.
    assert (Hmap : map fai_line rows
                   = map (fun b => b +:+ String newline "")
                       (map join_tab rows)).
    { rewrite map_map. reflexivity. }
    rewrite Hmap, file_lines_concat, (file_lines_line short rest Hshort);
      [reflexivity|].
    clear - Hwf. induction rows as [|row rows IH]; [reflexivity|].
    cbn [forallb map] in Hwf |- *.
    apply andb_true_iff in Hwf as [Hrow Hrows].
    rewrite (join_tab_no_line_end row (wf_row_columns row Hrow)), (IH Hrows).
    reflexivity. }
  assert (Hloop :
    write_regions
      (file_lines (fai_content rows +:+ short +:+ String newline rest)) ""
    = (Raise IndexError, bed_content rows)).
  { rewrite Hlines, (write_regions_app rows _ "" Hwf).
    change ("" +:+ bed_content rows) with (bed_content rows).
    cbn [write_regions].
    destruct (str_split tab (strip (short +:+ String newline "")))
      as [|t0 [|t1 toks]] eqn:E; try discriminate;
      cbn [list_getitem lookup list_lookup res_bind]; reflexivity. }
  rewrite (bedtools_subtract_loop _ _ _ _ _ _ _ _ Htb Href Hname Hw Hne Hr
             Hfai).
  rewrite Hloop. fold region_file. unfold close_written.
  cbn [fst snd res_bind on_close set_text].
  fold (set_text fs region_file "").
  split.
  - intros Hc. rewrite Hc, set_text_twice. reflexivity.
  - intros e kept Hc. rewrite Hc, set_text_twice. reflexivity.
Qed.

Lemma whole_genome_short_line_witness :
  cmd_bedtools_subtract VNone "phased.bed" "unphased.bed" subtract_config
    (plain_fs
       (<["ref.fasta.fai" :=
            fai_content doc_index +:+ "" +:+ String newline "chrM"]> ∅))
  = (Raise IndexError,
     set_text
       (plain_fs
          (<["ref.fasta.fai" :=
               fai_content doc_index +:+ "" +:+ String newline "chrM"]> ∅))
       "/tmp/work_reference.bed" (bed_content doc_index))
  /\ cmd_bedtools_subtract VNone "phased.bed" "unphased.bed" subtract_config
       (full_fs
          (<["ref.fasta.fai" :=
               fai_content doc_index +:+ "" +:+ String newline "chrM"]> ∅))
     = (Raise (OSError "No space left on device"),
        set_text
          (full_fs
             (<["ref.fasta.fai" :=
                  fai_content doc_index +:+ "" +:+ String newline "chrM"]> ∅))
          "/tmp/work_reference.bed" "").
Proof.
  split.
  - destruct (whole_genome_short_line "phased.bed" "unphased.bed"
                subtract_config
                (plain_fs
                   (<["ref.fasta.fai" :=
                        fai_content doc_index +:+ "" +:+ String newline "chrM"]>
                      ∅))
                (VStr "/tmp/work") (VStr "ref.fasta") "ref.fasta" doc_index
                "" "chrM")
      as [H _];
      [reflexivity | reflexivity | reflexivity | reflexivity | discriminate
      | reflexivity | reflexivity | reflexivity | reflexivity | reflexivity
      |].
    apply H. reflexivity.
  - destruct (whole_genome_short_line "phased.bed" "unphased.bed"
                subtract_config
                (full_fs
                   (<["ref.fasta.fai" :=
                        fai_content doc_index +:+ "" +:+ String newline "chrM"]>
                      ∅))
                (VStr "/tmp/work") (VStr "ref.fasta") "ref.fasta" doc_index
                "" "chrM")
      as [_ H];
      [reflexivity | reflexivity | reflexivity | reflexivity | discriminate
      | reflexivity | reflexivity | reflexivity | reflexivity | reflexivity
      |].
    apply H. reflexivity.
Defined.

(** ** The [pyexec] builders *)

Lemma replace_from_absent (old new s : string) :
  contains old s = false -> replace_from old new 0 s = s.
Proof.
  induction s as [|c s IH]; intros H; [reflexivity|].
  cbn [contains] in H. apply orb_false_iff in H as [Hp Hs].
  cbn [replace_from]. rewrite Hp, (IH Hs). reflexivity.
Qed.

(** X14. When [.vcf.gz] does not occur in [out_vcf], as for [out.vcf] or
    [out.vcf.bgz], [cmd_pyexec_gvcf_combine] gives the conversion step the
    path [out_vcf] itself: the gVCF is written to the same path as the VCF
    of the combine step. *)
Theorem gvcf_combine_without_suffix
    (gvcf out_vcf : string) (kwargs : dict) (script cores : value) :
  kwargs !! "gvcf_combine_py" = Some script ->
  kwargs !! "cores" = Some cores ->
  contains ".vcf.gz" out_vcf = false ->
  cmd_pyexec_gvcf_combine gvcf out_vcf kwargs
  = (Ok ("sentieon pyexec " +:+ py_str script +:+ " -t " +:+ py_str cores
           +:+ " " +:+ gvcf +:+ " " +:+ out_vcf
           +:+ " - | sentieon util vcfconvert - " +:+ out_vcf),
     kwargs).
Proof.
  intros Hs Hc Hout. rewrite (gvcf_combine_run _ _ _ _ _ Hs Hc).
  unfold str_replace. rewrite (replace_from_absent _ _ _ Hout).
  unfold combine_step, convert_step. f_equal. f_equal.
  rewrite ?append_assoc. reflexivity.
Qed.

Lemma gvcf_combine_without_suffix_witness :
  cmd_pyexec_gvcf_combine "in.g.vcf.gz" "out.vcf" pyexec_config
  = (Ok "sentieon pyexec gvcf_combine.py -t 2 in.g.vcf.gz out.vcf - | sentieon util vcfconvert - out.vcf",
     pyexec_config).
Proof.
  apply (gvcf_combine_without_suffix "in.g.vcf.gz" "out.vcf" pyexec_config
           (VStr "gvcf_combine.py") (VInt 2));
    reflexivity.
Defined.

Lemma pyexec_prefix_missing (script_key : string) (kwargs : dict) :
  (kwargs !! script_key = None ->
   pyexec_prefix script_key kwargs = (Raise (KeyError script_key), kwargs))
  /\ (is_Some (kwargs !! script_key) ->
      kwargs !! "cores" = None ->
      pyexec_prefix script_key kwargs = (Raise (KeyError "cores"), kwargs)).
Proof.
  unfold pyexec_prefix. run_M. split.
  - intros ->. reflexivity.
  - intros [s ->] ->. reflexivity.
Qed.

(** X15. The four [pyexec] builders need two keys of the Config, the
    script and ['cores'], looked up in this order: without
    ['vcf_mod_py'] the patch, merge and haploid-patch builders raise
    [KeyError] for it (the haploid patch for a valid technology), without
    ['gvcf_combine_py'] the gVCF combiner does, and with the script but
    without ['cores'] each raises [KeyError] for ['cores']. The Config is
    left as it was. *)
Theorem pyexec_missing_keys (kwargs : dict) :
  (kwargs !! "vcf_mod_py" = None
   \/ (is_Some (kwargs !! "vcf_mod_py") /\ kwargs !! "cores" = None) ->
   let e :=
     match kwargs !! "vcf_mod_py" with
     | None => KeyError "vcf_mod_py"
     | Some _ => KeyError "cores"
     end in
   (forall out_vcf vcf vcf_hp,
      cmd_pyexec_vcf_mod_patch out_vcf vcf vcf_hp kwargs = (Raise e, kwargs))
   /\ (forall hap1_vcf hap2_vcf unphased_vcf phased_vcf phased_bed out_vcf,
         cmd_pyexec_vcf_mod_merge hap1_vcf hap2_vcf unphased_vcf phased_vcf
           phased_bed out_vcf kwargs
         = (Raise e, kwargs))
   /\ (forall hap1_patch hap2_patch hap_patt tech phased_vcf,
         tech = "HiFi" \/ tech = "ONT" ->
         cmd_pyexec_vcf_mod_haploid_patch hap1_patch hap2_patch hap_patt
           tech phased_vcf kwargs
         = (Raise e, kwargs)))
  /\ (kwargs !! "gvcf_combine_py" = None
      \/ (is_Some (kwargs !! "gvcf_combine_py") /\ kwargs !! "cores" = None)
      ->
      forall gvcf out_vcf,
        cmd_pyexec_gvcf_combine gvcf out_vcf kwargs
        = (Raise match kwargs !! "gvcf_combine_py" with
                 | None => KeyError "gvcf_combine_py"
                 | Some _ => KeyError "cores"
                 end,
           kwargs)).
Proof.
  assert (Hpre : forall key,
            kwargs !! key = None
            \/ (is_Some (kwargs !! key) /\ kwargs !! "cores" = None) ->
            pyexec_prefix key kwargs
            = (Raise match kwargs !! key with
                     | None => KeyError key
                     | Some _ => KeyError "cores"
                     end,
               kwargs)).
  { intros key [H | [Hs Hc]].
    - rewrite H. apply pyexec_prefix_missing, H.
    - rewrite (proj2 (pyexec_prefix_missing key kwargs) Hs Hc).
      destruct Hs as [s ->]. reflexivity. }
  split.
  - intros H e. specialize (Hpre "vcf_mod_py" H). fold e in Hpre.
    repeat apply conj.
    + intros. unfold cmd_pyexec_vcf_mod_patch, bind. rewrite Hpre.
      reflexivity.
    + intros. unfold cmd_pyexec_vcf_mod_merge, bind. rewrite Hpre.
      reflexivity.
    + intros hap1_patch hap2_patch hap_patt tech phased_vcf Htech.
      unfold cmd_pyexec_vcf_mod_haploid_patch.
      destruct Htech; subst tech;
        cbn [String.eqb Ascii.eqb Bool.eqb andb orb negb];
        unfold bind; rewrite Hpre; reflexivity.
  - intros H gvcf out_vcf. specialize (Hpre "gvcf_combine_py" H).
    unfold cmd_pyexec_gvcf_combine, bind. rewrite Hpre. reflexivity.
Qed.

Lemma pyexec_missing_keys_witness :
  cmd_pyexec_vcf_mod_patch "out.vcf.gz" "in.vcf.gz" "hp.vcf.gz" doc_config
  = (Raise (KeyError "vcf_mod_py"), doc_config)
  /\ cmd_pyexec_gvcf_combine "in.g.vcf.gz" "out.vcf.gz"
       (delete "cores" pyexec_config)
     = (Raise (KeyError "cores"), delete "cores" pyexec_config).
Proof.
  split.
  - apply (proj1 (pyexec_missing_keys doc_config)). left. reflexivity.
  - assert (H : is_Some (delete "cores" pyexec_config !! "gvcf_combine_py")
                /\ delete "cores" pyexec_config !! "cores" = None)
      by (split; [eexists; reflexivity | reflexivity]).
    exact (proj2 (pyexec_missing_keys (delete "cores" pyexec_config))
             (or_intror H) "in.g.vcf.gz" "out.vcf.gz").
Defined.

Lemma str_mod_plain_args (s : string) (a : value) (args : list value) :
  plain s -> str_mod s (a :: args) = Raise TypeError.
Proof.
  intros H. rewrite <- (append_nil_r s), (str_mod_plain s "" _ H).
  reflexivity.
Qed.

Lemma str_mod_fields_swapped (a b c infix : string) (n : Z) :
  plain a -> plain b ->
  str_mod (a +:+ "%s" +:+ b +:+ "%d" +:+ c) [VInt n; VStr infix]
  = Raise TypeError.
Proof.
  intros Ha Hb. rewrite (str_mod_plain a) by exact Ha.
  change ("%s" +:+ b +:+ "%d" +:+ c)
    with (String "%" (String "s" (b +:+ "%d" +:+ c))).
  cbn [str_mod Ascii.eqb Bool.eqb andb orb res_bind].
  rewrite (str_mod_plain b) by exact Hb.
  change ("%d" +:+ c) with (String "%" (String "d" c)).
  cbn [str_mod Ascii.eqb Bool.eqb andb orb format_d res_bind].
  reflexivity.
Qed.

(** X16. A pattern that [%] cannot fill with a number and an infix makes
    [cmd_pyexec_vcf_mod_haploid_patch] raise [TypeError] for both
    technologies, with the Config unchanged: a pattern without any [%]
    (the arguments are not all converted), and a pattern with the two
    fields the other way round, [%s] before [%d] (the infix is not a
    number). *)
Theorem haploid_patch_bad_pattern
    (hap1_patch hap2_patch hap_patt tech : string) (phased_vcf : value)
    (kwargs : dict) :
  is_Some (kwargs !! "vcf_mod_py") ->
  is_Some (kwargs !! "cores") ->
  tech = "HiFi" \/ tech = "ONT" ->
  plain hap_patt
  \/ (exists a b c,
        plain a /\ plain b /\ hap_patt = a +:+ "%s" +:+ b +:+ "%d" +:+ c) ->
  cmd_pyexec_vcf_mod_haploid_patch hap1_patch hap2_patch hap_patt tech
    phased_vcf kwargs
  = (Raise TypeError, kwargs).
Proof.
  intros [s Hs] [c Hc] Htech Hpatt.
  assert (Hfill : forall n infix,
            str_mod hap_patt [VInt n; VStr infix] = Raise TypeError).
  { intros n infix. destruct Hpatt as [H | (a & b & c' & Ha & Hb & ->)].
    - apply str_mod_plain_args, H.
    - apply str_mod_fields_swapped; assumption. }
  unfold cmd_pyexec_vcf_mod_haploid_patch.
  destruct Htech; subst tech;
    cbn [String.eqb Ascii.eqb Bool.eqb andb orb negb];
    run_M; rewrite Hs; run_M; rewrite Hc; run_M;
    rewrite !Hfill; reflexivity.
Qed.

Lemma haploid_patch_bad_pattern_witness :
  cmd_pyexec_vcf_mod_haploid_patch "h1.vcf.gz" "h2.vcf.gz" "out_hap.vcf.gz"
    "ONT" (VStr "ph.vcf") pyexec_config
  = (Raise TypeError, pyexec_config)
  /\ cmd_pyexec_vcf_mod_haploid_patch "h1.vcf.gz" "h2.vcf.gz"
       ("out_" +:+ "%s" +:+ "hap" +:+ "%d" +:+ ".vcf.gz")
       "HiFi" VNone pyexec_config
     = (Raise TypeError, pyexec_config).
Proof.
  split.
  - apply haploid_patch_bad_pattern;
      [eexists; reflexivity | eexists; reflexivity | right; reflexivity
      | left; reflexivity].
  - apply haploid_patch_bad_pattern;
      [eexists; reflexivity | eexists; reflexivity | left; reflexivity |].
    right. exists "out_", "hap", ".vcf.gz". repeat split; reflexivity.
Defined.

(** X17. For a pattern [a%db%sc] without further [%], the files the
    haploid patch merger names are [a1b nohp_ c] and [a2b nohp_ c] for the
    calls without high precision and [a1bc] and [a2bc] for the
    high-precision ones: the high-precision name is the other name with the
    infix [nohp_] taken out. [HiFi] names all four, [ONT] the last two. *)
Theorem haploid_patch_file_names
    (hap1_patch hap2_patch a b c : string) (phased_vcf : value)
    (kwargs : dict) (script cores : value) :
  kwargs !! "vcf_mod_py" = Some script ->
  kwargs !! "cores" = Some cores ->
  plain a -> plain b -> plain c ->
  let hap_patt := a +:+ "%d" +:+ b +:+ "%s" +:+ c in
  cmd_pyexec_vcf_mod_haploid_patch hap1_patch hap2_patch hap_patt "HiFi"
    phased_vcf kwargs
  = (Ok (haploid_patch_start script cores hap1_patch hap2_patch
           +:+ " --hap1 " +:+ (a +:+ "1" +:+ b +:+ "nohp_" +:+ c)
           +:+ " --hap2 " +:+ (a +:+ "2" +:+ b +:+ "nohp_" +:+ c)
           +:+ " --hap1_hp " +:+ (a +:+ "1" +:+ b +:+ c)
           +:+ " --hap2_hp " +:+ (a +:+ "2" +:+ b +:+ c)),
     kwargs)
  /\ cmd_pyexec_vcf_mod_haploid_patch hap1_patch hap2_patch hap_patt "ONT"
       phased_vcf kwargs
     = (Ok (haploid_patch_start script cores hap1_patch hap2_patch
              +:+ " --phased " +:+ py_str phased_vcf
              +:+ " --hap1_hp " +:+ (a +:+ "1" +:+ b +:+ c)
              +:+ " --hap2_hp " +:+ (a +:+ "2" +:+ b +:+ c)),
        kwargs).
Proof.
  intros Hs Hc Ha Hb Hcc hap_patt.
  assert (Hfill : forall n infix,
            str_mod hap_patt [VInt n; VStr infix]
            = Ok (a +:+ py_str (VInt n) +:+ b +:+ infix +:+ c))
    by (intros; apply str_mod_two_fields; assumption).
  split.
  - rewrite (haploid_patch_HiFi hap1_patch hap2_patch hap_patt phased_vcf
               kwargs script cores _ _ _ _ Hs Hc
               (Hfill 1%Z "nohp_") (Hfill 2%Z "nohp_")
               (Hfill 1%Z "") (Hfill 2%Z "")).
    unfold hp_clauses. reflexivity.
  - rewrite (haploid_patch_ONT hap1_patch hap2_patch hap_patt phased_vcf
               kwargs script cores _ _ Hs Hc (Hfill 1%Z "") (Hfill 2%Z "")).
    unfold hp_clauses. reflexivity.
Qed.

Lemma haploid_patch_file_names_witness :
  cmd_pyexec_vcf_mod_haploid_patch "h1.vcf.gz" "h2.vcf.gz"
    ("out_hap" +:+ "%d" +:+ "_" +:+ "%s" +:+ "tmp.vcf.gz") "ONT"
    (VStr "ph.vcf") pyexec_config
  = (Ok "sentieon pyexec vcf_mod.py -t 2 haploid_patch --patch1 h1.vcf.gz --patch2 h2.vcf.gz --phased ph.vcf --hap1_hp out_hap1_tmp.vcf.gz --hap2_hp out_hap2_tmp.vcf.gz",
     pyexec_config).
Proof.
  apply (haploid_patch_file_names "h1.vcf.gz" "h2.vcf.gz" "out_hap" "_"
           "tmp.vcf.gz" (VStr "ph.vcf") pyexec_config (VStr "vcf_mod.py")
           (VInt 2));
    reflexivity.
Defined.

(** ** The arguments of a command *)

(** Splitting at the spaces gives back the arguments that were joined. *)
Lemma split_join_space (a : string) (rest : list string) :
  Forall (fun s => spaceless s = true) (a :: rest) ->
  str_split " " (join_space (a :: rest)) = a :: rest.
Proof.
  revert a. induction rest as [|b rest IH]; intros a H.
  - inversion H; subst. apply str_split_last. assumption.
  - inversion H as [|? ? Ha Hrest]; subst.
    rewrite join_space_cons, str_split_field by exact Ha.
    rewrite (IH b Hrest). reflexivity.
Qed.

Ltac split_args :=
  repeat match goal with
         | H : Forall _ (_ :: _) |- _ => inversion H; subst; clear H
         | H : Forall _ [] |- _ => clear H
         end.

(** X18. When no argument has a space, the command of
    [cmd_pyexec_vcf_mod_merge] splits at its spaces into exactly seventeen
    arguments: the script invocation, [merge], the two haplotype VCFs, the
    unphased VCF, the phased VCF and the phased bed, each after its flag,
    and the output VCF last, without a flag. *)
Theorem vcf_mod_merge_arguments
    (hap1_vcf hap2_vcf unphased_vcf phased_vcf phased_bed out_vcf : string)
    (kwargs : dict) (script cores : value) :
  kwargs !! "vcf_mod_py" = Some script ->
  kwargs !! "cores" = Some cores ->
  Forall (fun s => spaceless s = true)
    [py_str script; py_str cores; hap1_vcf; hap2_vcf; unphased_vcf;
     phased_vcf; phased_bed; out_vcf] ->
  exists cmd,
    cmd_pyexec_vcf_mod_merge hap1_vcf hap2_vcf unphased_vcf phased_vcf
      phased_bed out_vcf kwargs
    = (Ok cmd, kwargs)
    /\ str_split " " cmd
       = ["sentieon"; "pyexec"; py_str script; "-t"; py_str cores; "merge";
          "--hap1"; hap1_vcf; "--hap2"; hap2_vcf; "--unphased"; unphased_vcf;
          "--phased"; phased_vcf; "--bed"; phased_bed; out_vcf].
Proof.
  intros Hs Hc Hargs. eexists. split.
  - unfold cmd_pyexec_vcf_mod_merge. run_M. rewrite Hs. run_M. rewrite Hc.
    run_M. reflexivity.
  - rewrite ?append_assoc.
    match goal with
    | |- str_split _ ?s = ?l => change s with (join_space l)
    end.
    apply split_join_space. split_args.
    repeat constructor; assumption.
Qed.

Lemma vcf_mod_merge_arguments_witness :
  exists cmd,
    cmd_pyexec_vcf_mod_merge "h1.vcf.gz" "h2.vcf.gz" "un.vcf.gz" "ph.vcf.gz"
      "ph.bed" "out.vcf.gz" pyexec_config
    = (Ok cmd, pyexec_config)
    /\ str_split " " cmd
       = ["sentieon"; "pyexec"; "vcf_mod.py"; "-t"; "2"; "merge";
          "--hap1"; "h1.vcf.gz"; "--hap2"; "h2.vcf.gz"; "--unphased";
          "un.vcf.gz"; "--phased"; "ph.vcf.gz"; "--bed"; "ph.bed";
          "out.vcf.gz"].
Proof.
  apply (vcf_mod_merge_arguments "h1.vcf.gz" "h2.vcf.gz" "un.vcf.gz"
           "ph.vcf.gz" "ph.bed" "out.vcf.gz" pyexec_config
           (VStr "vcf_mod.py") (VInt 2));
    [reflexivity | reflexivity | repeat constructor].
Defined.

(** X19. When no argument has a space, the command of
    [cmd_pyexec_vcf_mod_patch] splits at its spaces into exactly eleven
    arguments; [out_vcf], the first parameter of the builder, is the last
    argument of the command, after the two flagged input VCFs. *)
Theorem vcf_mod_patch_arguments
    (out_vcf vcf vcf_hp : string) (kwargs : dict) (script cores : value) :
  kwargs !! "vcf_mod_py" = Some script ->
  kwargs !! "cores" = Some cores ->
  Forall (fun s => spaceless s = true)
    [py_str script; py_str cores; out_vcf; vcf; vcf_hp] ->
  exists cmd,
    cmd_pyexec_vcf_mod_patch out_vcf vcf vcf_hp kwargs = (Ok cmd, kwargs)
    /\ str_split " " cmd
       = ["sentieon"; "pyexec"; py_str script; "-t"; py_str cores; "patch";
          "--vcf"; vcf; "--vcf_hp"; vcf_hp; out_vcf].
Proof.
  intros Hs Hc Hargs. eexists. split.
  - unfold cmd_pyexec_vcf_mod_patch. run_M. rewrite Hs. run_M. rewrite Hc.
    run_M. reflexivity.
  - rewrite ?append_assoc.
    match goal with
    | |- str_split _ ?s = ?l => change s with (join_space l)
    end.
    apply split_join_space. split_args.
    repeat constructor; assumption.
Qed.

Lemma vcf_mod_patch_arguments_witness :
  exists cmd,
    cmd_pyexec_vcf_mod_patch "out.vcf.gz" "in.vcf.gz" "hp.vcf.gz"
      pyexec_config
    = (Ok cmd, pyexec_config)
    /\ str_split " " cmd
       = ["sentieon"; "pyexec"; "vcf_mod.py"; "-t"; "2"; "patch"; "--vcf";
          "in.vcf.gz"; "--vcf_hp"; "hp.vcf.gz"; "out.vcf.gz"].
Proof.
  apply (vcf_mod_patch_arguments "out.vcf.gz" "in.vcf.gz" "hp.vcf.gz"
           pyexec_config (VStr "vcf_mod.py") (VInt 2));
    [reflexivity | reflexivity | repeat constructor].
Defined.

(** ** The standard variant caller with a gVCF *)

(** X20. A gVCF is asked for with a [gvcf] path that is not empty. Then
    [cmd_algo_dnascope] needs ['model_bundle']: without it the builder
    raises [KeyError] for that key before it looks at anything else. With
    it, and with a dbSNP file whose [name] is read, the command is the
    driver invocation, the gVCF clause with the model
    [<model_bundle>/gvcf_model], and then the variant-calling clause with
    the dbSNP path and the model. An empty [gvcf] path asks for nothing: the
    builder behaves as with [None]. *)
Theorem algo_dnascope_gvcf
    (model out_vcf : string) (bed_key : option string) (kwargs : dict)
    (gvcf : string) :
  gvcf <> "" ->
  (kwargs !! "model_bundle" = None ->
   cmd_algo_dnascope model out_vcf bed_key (Some gvcf) kwargs
   = (Raise (KeyError "model_bundle"), kwargs))
  /\ (forall bundle repr n,
        driver_ready kwargs ->
        kwargs !! "model_bundle" = Some bundle ->
        kwargs !! "dbsnp" = Some (VNamed repr true n) ->
        cmd_algo_dnascope model out_vcf bed_key (Some gvcf) kwargs
        = (Ok (driver_command truthy bed_key false kwargs
                 +:+ "  --algo DNAscope --model " +:+ py_str bundle
                 +:+ "/gvcf_model --emit_mode gvcf " +:+ gvcf
                 +:+ " --algo DNAscope  --dbsnp " +:+ py_str n
                 +:+ "  --model " +:+ model +:+ " " +:+ out_vcf),
           kwargs))
  /\ cmd_algo_dnascope model out_vcf bed_key (Some "") kwargs
     = cmd_algo_dnascope model out_vcf bed_key None kwargs.
Proof.
  intros Hg.
  assert (Ht : opt_truthy (Some gvcf) = true).
  { cbn [opt_truthy truthy]. apply negb_true_iff, String.eqb_neq, Hg. }
  repeat apply conj.
  - intros Hb. unfold cmd_algo_dnascope. rewrite Ht. run_M. rewrite Hb.
    reflexivity.
  - intros bundle repr n Hready Hb Hd.
    rewrite (algo_dnascope_run _ _ _ _ _ _
               (call_driver_ready bed_key None kwargs Hready))
      by (intros _; eauto).
    unfold dnascope_command, gvcf_clause, dict_get, dict_get_default.
    rewrite Ht, Hd, Hb. cbn [truthy getattr_name opt_str].
    f_equal. f_equal. str_norm. reflexivity.
  - reflexivity.
Qed.

Lemma algo_dnascope_gvcf_witness :
  cmd_algo_dnascope "model" "out.vcf.gz" None (Some "out.g.vcf.gz")
    open_dbsnp_config
  = (Raise (KeyError "model_bundle"), open_dbsnp_config)
  /\ fst (cmd_algo_dnascope "model" "out.vcf.gz" None (Some "out.g.vcf.gz")
            (<["model_bundle" := VStr "bundle"]> open_dbsnp_config))
     = Ok "sentieon driver -t 4 -r ref.fasta  -i sample.bam  --algo DNAscope --model bundle/gvcf_model --emit_mode gvcf out.g.vcf.gz --algo DNAscope  --dbsnp dbsnp.vcf.gz  --model model out.vcf.gz".
Proof.
  split.
  - apply (algo_dnascope_gvcf "model" "out.vcf.gz" None open_dbsnp_config
             "out.g.vcf.gz"); [discriminate | reflexivity].
  - destruct (algo_dnascope_gvcf "model" "out.vcf.gz" None
                (<["model_bundle" := VStr "bundle"]> open_dbsnp_config)
                "out.g.vcf.gz") as (_ & H & _); [discriminate|].
    rewrite (H (VStr "bundle") "<_io.TextIOWrapper name='dbsnp.vcf.gz'>"
               (VStr "dbsnp.vcf.gz")).
    + vm_compute. reflexivity.
    + repeat split; try (eexists; reflexivity); reflexivity.
    + reflexivity.
    + reflexivity.
Defined.

(** ** The high-precision variant caller *)

(** X21. [cmd_dnascope_hp] returns a command for every Config, the empty
    one included, and leaves it as it was. Of the Config it reads the
    ['dbsnp'] key only: setting or removing another key does not change
    the command. A dbSNP path and an opened file of that name give the
    same command, where [cmd_algo_dnascope] accepts the file only. *)
Theorem dnascope_hp_reads_dbsnp_only
    (model : option string) (repeat_model hp_vcf : string) (kwargs : dict) :
  (exists cmd,
     cmd_dnascope_hp model repeat_model hp_vcf kwargs = (Ok cmd, kwargs))
  /\ (forall k v,
        k <> "dbsnp" ->
        fst (cmd_dnascope_hp model repeat_model hp_vcf (<[k := v]> kwargs))
        = fst (cmd_dnascope_hp model repeat_model hp_vcf kwargs)
        /\ fst (cmd_dnascope_hp model repeat_model hp_vcf (delete k kwargs))
           = fst (cmd_dnascope_hp model repeat_model hp_vcf kwargs))
  /\ (forall path repr,
        path <> "" ->
        fst (cmd_dnascope_hp model repeat_model hp_vcf
               (<["dbsnp" := VNamed repr true (VStr path)]> kwargs))
        = fst (cmd_dnascope_hp model repeat_model hp_vcf
                 (<["dbsnp" := VStr path]> kwargs))).
Proof.
  repeat apply conj.
  - eexists. apply dnascope_hp_run.
  - intros k v Hk. rewrite !dnascope_hp_run.
    unfold dict_get, dict_get_default.
    rewrite lookup_insert_ne, lookup_delete_ne by congruence.
    split; reflexivity.
  - intros path repr Hp. rewrite !dnascope_hp_run.
    unfold dict_get, dict_get_default. rewrite !lookup_insert_eq.
    cbn [truthy name hasattr_name getattr_name fst py_str].
    apply String.eqb_neq in Hp. rewrite Hp. reflexivity.
Qed.

Lemma dnascope_hp_reads_dbsnp_only_witness :
  fst (cmd_dnascope_hp None "repeat_model" "hp.vcf.gz" (delete "cores" dbsnp_config))
  = fst (cmd_dnascope_hp None "repeat_model" "hp.vcf.gz" dbsnp_config)
  /\ fst (cmd_dnascope_hp None "repeat_model" "hp.vcf.gz"
            (<["dbsnp" := VNamed "<file>" true (VStr "dbsnp.vcf.gz")]> ∅))
     = fst (cmd_dnascope_hp None "repeat_model" "hp.vcf.gz"
              (<["dbsnp" := VStr "dbsnp.vcf.gz"]> ∅)).
Proof.
  split.
  - destruct (dnascope_hp_reads_dbsnp_only None "repeat_model" "hp.vcf.gz"
                dbsnp_config) as (_ & H & _).
    apply (H "cores" VNone). discriminate.
  - destruct (dnascope_hp_reads_dbsnp_only None "repeat_model" "hp.vcf.gz" ∅)
      as (_ & _ & H).
    apply H. discriminate.
Defined.

(** ** The builders start with the driver invocation *)

(** X22. Whenever one of the four builders that wrap the driver returns a
    command, the driver call it makes has returned, and the command starts
    with what the driver returned: [cmd_variant_phaser] and
    [cmd_model_apply] for the Config as it is, [cmd_repeat_model] for the
    Config with ['phased_bed'] set, and [cmd_algo_dnascope], which calls
    the driver last, all the same. [cmd_variant_phaser] and
    [cmd_model_apply] return exactly when the driver call does. *)
Theorem builders_start_with_driver (kwargs : dict) :
  (forall vcf phased_bed phased_vcf phased_ext,
     (forall cmd,
        fst (cmd_variant_phaser vcf phased_bed phased_vcf phased_ext kwargs)
        = Ok cmd ->
        exists driver,
          call_cmd_sentieon_driver None (Some false) kwargs = Ok driver
          /\ prefixb driver cmd = true)
     /\ (forall driver,
           call_cmd_sentieon_driver None (Some false) kwargs = Ok driver ->
           exists cmd,
             fst (cmd_variant_phaser vcf phased_bed phased_vcf phased_ext
                    kwargs) = Ok cmd))
  /\ (forall model inp_vcf out_vcf,
        (forall cmd,
           fst (cmd_model_apply model inp_vcf out_vcf kwargs) = Ok cmd ->
           exists driver,
             call_cmd_sentieon_driver None (Some true) kwargs = Ok driver
             /\ prefixb driver cmd = true)
        /\ (forall driver,
              call_cmd_sentieon_driver None (Some true) kwargs = Ok driver ->
              exists cmd,
                fst (cmd_model_apply model inp_vcf out_vcf kwargs) = Ok cmd))
  /\ (forall phased_bed phased_ext cmd,
        fst (cmd_repeat_model phased_bed phased_ext kwargs) = Ok cmd ->
        exists driver,
          call_cmd_sentieon_driver (Some "phased_bed") (Some false)
            (<["phased_bed" := VStr phased_bed]> kwargs) = Ok driver
          /\ prefixb driver cmd = true)
  /\ (forall model out_vcf bed_key gvcf cmd,
        fst (cmd_algo_dnascope model out_vcf bed_key gvcf kwargs) = Ok cmd ->
        exists driver,
          call_cmd_sentieon_driver bed_key None kwargs = Ok driver
          /\ prefixb driver cmd = true).
Proof.
  split; [|split; [|split]].
  - intros vcf phased_bed phased_vcf phased_ext. split.
    + intros cmd. unfold cmd_variant_phaser. run_M.
      destruct (call_cmd_sentieon_driver None (Some false) kwargs) as [drv|];
        [|discriminate].
      run_M. cbn [fst]. intros [= <-]. exists drv. split; [reflexivity|].
      rewrite ?append_assoc. apply prefixb_self_app.
    + intros driver H. unfold cmd_variant_phaser. run_M. rewrite H.
      eexists. reflexivity.
  - intros model inp_vcf out_vcf. split.
    + intros cmd. unfold cmd_model_apply. run_M.
      destruct (call_cmd_sentieon_driver None (Some true) kwargs) as [drv|];
        [|discriminate].
      cbn [fst]. intros [= <-]. exists drv. split; [reflexivity|].
      apply prefixb_self_app.
    + intros driver H. unfold cmd_model_apply. run_M. rewrite H.
      eexists. reflexivity.
  - intros phased_bed phased_ext cmd. rewrite repeat_model_unfold. cbv zeta.
    destruct (call_cmd_sentieon_driver (Some "phased_bed") (Some false)
                (<["phased_bed" := VStr phased_bed]> kwargs)) as [drv|];
      [|discriminate].
    destruct (kwargs !! "tmp_base"); [|discriminate].
    cbn [fst]. intros [= <-]. exists drv. split; [reflexivity|].
    apply prefixb_self_app.
  - intros model out_vcf bed_key gvcf cmd H.
    destruct (call_cmd_sentieon_driver bed_key None kwargs) as [drv|e] eqn:E.
    + exists drv. split; [reflexivity|].
      revert H. unfold cmd_algo_dnascope.
      unfold bind, kw_get, kw_getitem, lift, ret, call_kw, getitem.
      destruct (opt_truthy gvcf);
        [destruct (kwargs !! "model_bundle"); [|discriminate]|];
        (destruct (truthy (dict_get kwargs "dbsnp"));
         [destruct (kwargs !! "dbsnp") as [d|]; [|discriminate];
          destruct (getattr_name d); [|discriminate]|]);
        rewrite E; cbn [fst]; intros [= <-]; apply prefixb_self_app.
    + destruct (algo_dnascope_raises_with_driver model out_vcf bed_key gvcf
                  kwargs) as [e' He']; [exists e; exact E|].
      rewrite He' in H. discriminate.
Qed.

Lemma builders_start_with_driver_witness :
  (exists driver,
     call_cmd_sentieon_driver None (Some true) doc_config = Ok driver
     /\ prefixb driver
          "sentieon driver -t 4 -r ref.fasta --algo DNAModelApply --model model -v in.vcf.gz out.vcf.gz"
        = true)
  /\ (exists cmd,
        fst (cmd_variant_phaser "in.vcf.gz" "phased.bed" "phased.vcf.gz"
               "phased.ext" doc_config) = Ok cmd).
Proof.
  destruct (builders_start_with_driver doc_config) as (Hvp & Hma & _).
  split.
  - apply (proj1 (Hma "model" "in.vcf.gz" "out.vcf.gz")).
    vm_compute. reflexivity.
  - apply (proj2 (Hvp "in.vcf.gz" "phased.bed" "phased.vcf.gz" "phased.ext")
             "sentieon driver -t 4 -r ref.fasta  -i sample.bam").
    vm_compute. reflexivity.
Defined.

(** ** Region subtraction and the other files *)

(** X23. The file that [<tmp_base>_reference.bed] names is the only file
    [cmd_bedtools_subtract] can change: in every outcome, return or
    exception, a path that names another file leads to the text it led
    to. The index is kept for that reason only. When
    [<resolved reference>.fai] names the same file as the region file (one
    is a link to the other), opening the region file empties the index
    before it is read: whatever the index held, the loop finds no line,
    the builder returns the command as if all was well, and the index is
    empty afterwards. *)
Theorem bedtools_subtract_other_files
    (regions_bed : value) (phased_bed unphased_bed : string)
    (kwargs : dict) (fs : filesystem) :
  (forall path,
     (forall tmp_base,
        kwargs !! "tmp_base" = Some tmp_base ->
        file_of fs path
        <> file_of fs (py_str tmp_base +:+ "_reference.bed")) ->
     text_of
       (snd (cmd_bedtools_subtract regions_bed phased_bed unphased_bed
               kwargs fs)) path
     = text_of fs path)
  /\ (forall tmp_base reference ref_path,
        kwargs !! "tmp_base" = Some tmp_base ->
        kwargs !! "reference" = Some reference ->
        name reference = VStr ref_path ->
        let region_file := py_str tmp_base +:+ "_reference.bed" in
        open_write_fault fs region_file = None ->
        on_close fs region_file "" = (None, "") ->
        open_read_fault fs (ref_path +:+ ".fai") = None ->
        file_of fs (ref_path +:+ ".fai") = file_of fs region_file ->
        cmd_bedtools_subtract VNone phased_bed unphased_bed kwargs fs
        = (Ok ("bedtools subtract -a " +:+ region_file +:+ " -b "
                 +:+ phased_bed +:+ " > " +:+ unphased_bed),
           set_text fs region_file "")
        /\ text_of (set_text fs region_file "") (ref_path +:+ ".fai")
           = Some "").
Proof.
  split.
  - intros path Hpath. unfold cmd_bedtools_subtract, getitem.
    destruct regions_bed; try reflexivity.
    destruct (kwargs !! "tmp_base") as [tb|] eqn:Htb; [|reflexivity].
    specialize (Hpath tb eq_refl).
    unfold open_write.
    destruct (open_write_fault fs (py_str tb +:+ "_reference.bed"));
      [reflexivity|].
    match goal with
    | |- context [match ?m with pair _ _ => _ end] => destruct m as [b w]
    end.
    unfold close_written. cbn [on_close set_text].
    destruct (on_close fs (py_str tb +:+ "_reference.bed") w) as [[e|] kept];
      cbn [snd];
      fold (set_text fs (py_str tb +:+ "_reference.bed") "");
      rewrite set_text_twice; apply text_of_set_text_other, Hpath.
  - intros tmp_base reference ref_path Htb Href Hname region_file Hw Hc Hr
      Halias.
    split; [|apply text_of_set_text_same, Halias].
    unfold cmd_bedtools_subtract, getitem, open_write, res_bind.
    rewrite Htb. fold region_file. rewrite Hw, Href, Hname. cbn [add_str].
    unfold open_read. cbn [open_read_fault set_text]. rewrite Hr.
    fold (set_text fs region_file "").
    rewrite (text_of_set_text_same _ _ _ _ Halias).
    cbn [file_lines write_regions]. unfold close_written.
    cbn [on_close set_text]. rewrite Hc.
    fold (set_text fs region_file ""). rewrite set_text_twice.
    f_equal. f_equal. cbn [name hasattr_name py_str]. str_norm. reflexivity.
Qed.

Lemma bedtools_subtract_other_files_witness :
  text_of
    (snd (cmd_bedtools_subtract VNone "phased.bed" "unphased.bed"
            subtract_config doc_fs)) "ref.fasta.fai"
  = text_of doc_fs "ref.fasta.fai"
  /\ text_of linked_fs "ref.fasta.fai" = Some (fai_content doc_index)
  /\ cmd_bedtools_subtract VNone "phased.bed" "unphased.bed" subtract_config
       linked_fs
     = (Ok "bedtools subtract -a /tmp/work_reference.bed -b phased.bed > unphased.bed",
        set_text linked_fs "/tmp/work_reference.bed" "")
  /\ text_of (set_text linked_fs "/tmp/work_reference.bed" "") "ref.fasta.fai"
     = Some "".
Proof.
  split; [|split; [reflexivity|]].
  - apply (proj1 (bedtools_subtract_other_files VNone "phased.bed"
                    "unphased.bed" subtract_config doc_fs)).
    intros tmp_base H. vm_compute in H. injection H as <-. discriminate.
  - apply (proj2 (bedtools_subtract_other_files VNone "phased.bed"
                    "unphased.bed" subtract_config linked_fs)
             (VStr "/tmp/work") (VStr "ref.fasta") "ref.fasta");
      reflexivity.
Defined.
